(** * GPU Monitor: a shallow embedding of [gpu_monitor.py]

    The development follows the source file top to bottom:
    - the Python built-ins the code relies on ([str.strip], [str.split],
      [float], [int], true division, f-string formatting, [repr] of a
      float, insertion-ordered [dict], stable [sorted]);
    - [GPUMonitor.parse_gpu_data], [format_summary], [get_temp_style],
      [_create_gpu_card], [_update_gpu_card], [build_or_update_dashboard];
    - [check_nvidia_smi], [get_gpu_data], [update_summary_display],
      [refresh_gpu_data], [start_monitoring], [stop_monitoring],
      [toggle_monitoring] as explicit state passing over the fields of
      the [GPUMonitor] object, each call giving the monitor as it leaves
      it and the exception it raised if any, and [monitor_loop] as the
      trace of its iterations.

    Text is a [string] whose characters are code points below 256
    (Latin-1); a float is a binary64 value given by sign, significand and
    exponent, every operation rounding to nearest, ties to even;
    exceptions are values of [result].  What the program gets from outside
    is an argument: how each [subprocess.run] ends (it returns, or raises
    an exception the code catches, or one it lets through), the
    [time.strftime] text, the longest sleep the clock accepts, and what
    the loop reads of [is_monitoring] and [update_interval] at each
    iteration. *)

From Stdlib Require Import ZArith List String Ascii Bool Lia.
From Stdlib Require Import Sorting.Sorted Sorting.Permutation.
From Stdlib Require Import Numbers.DecimalString.
From Stdlib Require DecimalFacts DecimalPos.
Import ListNotations.

Local Open Scope string_scope.
Local Open Scope list_scope.
Local Open Scope Z_scope.

(* ================================================================== *)
(** ** Exceptions *)

Inductive exn : Type :=
| ValueError
| OverflowError
| TypeError
| ZeroDivisionError
| IndexError
| OSError
| TclError
| PermissionError
| UnicodeDecodeError
| KeyError.

Inductive result (A : Type) : Type :=
| Ok (a : A)
| Raise (e : exn).

Arguments Ok {A} a.
Arguments Raise {A} e.

Definition bind {A B : Type} (r : result A) (k : A -> result B) : result B :=
  match r with
  | Ok a => k a
  | Raise e => Raise e
  end.

Notation "x <- r ;; k" := (bind r (fun x => k))
  (at level 61, r at next level, right associativity).

Fixpoint mapM {A B : Type} (f : A -> result B) (l : list A)
  : result (list B) :=
  match l with
  | [] => Ok []
  | a :: r => b <- f a ;; bs <- mapM f r ;; Ok (b :: bs)
  end.

(** [try: ... except Exception: return None] *)
Definition except_None {A : Type} (r : result A) : option A :=
  match r with
  | Ok a => Some a
  | Raise _ => None
  end.

(* ================================================================== *)
(** ** Python [str] *)

Module PyStr.

Definition chars (s : string) : list ascii := list_ascii_of_string s.
Definition of_chars (l : list ascii) : string := string_of_list_ascii l.

Definition code (c : ascii) : Z := Z.of_N (N_of_ascii c).

(** [str.isspace] on the code points below 256. *)
Definition is_space (c : ascii) : bool :=
  let n := code c in
  ((9 <=? n) && (n <=? 13)) || ((28 <=? n) && (n <=? 32))
  || (n =? 133) || (n =? 160).

Definition is_digit (c : ascii) : bool :=
  let n := code c in (48 <=? n) && (n <=? 57).

Definition digit_val (c : ascii) : Z := code c - 48.

(** The white space [float] and [int] skip around a number:
    [str.isspace] without the separators U+001C to U+001F. *)
Definition is_number_space (c : ascii) : bool :=
  let n := code c in
  ((9 <=? n) && (n <=? 13)) || (n =? 32) || (n =? 133) || (n =? 160).

Fixpoint lstrip_by (p : ascii -> bool) (l : list ascii) : list ascii :=
  match l with
  | [] => []
  | c :: r => if p c then lstrip_by p r else l
  end.

Definition strip_by (p : ascii -> bool) (l : list ascii) : list ascii :=
  rev (lstrip_by p (rev (lstrip_by p l))).

(** [s.strip()] *)
Definition strip_chars (l : list ascii) : list ascii := strip_by is_space l.
Definition strip (s : string) : string := of_chars (strip_chars (chars s)).

(** [s.split(sep)] for a one-character separator: never returns []. *)
Fixpoint split_chars (sep : ascii) (l : list ascii) : list (list ascii) :=
  match l with
  | [] => [[]]
  | c :: r =>
      if Ascii.eqb c sep then [] :: split_chars sep r
      else match split_chars sep r with
           | [] => [[c]]
           | w :: ws => (c :: w) :: ws
           end
  end.

Definition split (sep : ascii) (s : string) : list string :=
  map of_chars (split_chars sep (chars s)).

(** [str(n)] and [f"{n}"] for an [int]. *)
Definition of_int (n : Z) : string := NilZero.string_of_int (Z.to_int n).

Fixpoint span (p : ascii -> bool) (l : list ascii)
  : list ascii * list ascii :=
  match l with
  | [] => ([], [])
  | c :: r =>
      if p c then let '(a, b) := span p r in (c :: a, b) else ([], l)
  end.

(** Value of a run of decimal digits, most significant first. *)
Definition digits_val (ds : list ascii) : Z :=
  fold_left (fun acc c => 10 * acc + digit_val c) ds 0.

Definition lower (c : ascii) : ascii :=
  let n := code c in
  if (65 <=? n) && (n <=? 90) then ascii_of_N (Z.to_N (n + 32)) else c.

Definition is_underscore (c : ascii) : bool := Ascii.eqb c "_".

(** The rule of [_Py_string_to_number_with_underscores] and of
    [int]: an underscore stands only between two digits. *)
Fixpoint underscores_ok (prev : option ascii) (l : list ascii) : bool :=
  match l with
  | [] => match prev with Some p => negb (is_underscore p) | None => true end
  | c :: r =>
      (if is_underscore c
       then match prev with Some p => is_digit p | None => false end
       else match prev with
            | Some p => if is_underscore p then is_digit c else true
            | None => true
            end)
      && underscores_ok (Some c) r
  end.

Definition drop_underscores (l : list ascii) : list ascii :=
  filter (fun c => negb (is_underscore c)) l.

Definition parse_sign (l : list ascii) : bool * list ascii :=
  match l with
  | c :: r =>
      if Ascii.eqb c "-" then (true, r)
      else if Ascii.eqb c "+" then (false, r)
      else (false, l)
  | [] => (false, [])
  end.

End PyStr.

(* ================================================================== *)
(** ** Python [float]: IEEE 754 binary64, round to nearest, ties to even *)

Module PyFloat.

Definition prec : Z := 53.
Definition emin : Z := -1074.
Definition emax : Z := 1024.

(** A finite float [Fin neg m e] is [(-1)^neg * m * 2^e] with
    [0 <= m < 2^53] and [emin <= e <= emax - prec]. *)
Inductive float : Type :=
| Nan
| Inf (neg : bool)
| Fin (neg : bool) (m : Z) (e : Z).

(** The fraction [(n / d) * 2^e]. *)
Definition times_pow2 (n d e : Z) : Z * Z :=
  if 0 <=? e then (n * 2 ^ e, d) else (n, d * 2 ^ (- e)).

(** Exponent of the unit in the last place of [n / d] ([n, d > 0]). *)
Definition ulp_exponent (n d : Z) : Z :=
  let k := Z.log2 n - Z.log2 d in
  let '(n', d') := times_pow2 n d (- k) in
  Z.max emin ((if d' <=? n' then k else k - 1) - (prec - 1)).

Definition round_half_even (n d : Z) : Z :=
  let q := n / d in
  match 2 * (n mod d) ?= d with
  | Lt => q
  | Gt => q + 1
  | Eq => if Z.even q then q else q + 1
  end.

(** Correctly rounded binary64 value of [(-1)^neg * n / d],
    for [0 <= n] and [0 < d]. *)
Definition round (neg : bool) (n d : Z) : float :=
  if n =? 0 then Fin neg 0 emin
  else
    let e := ulp_exponent n d in
    let '(n', d') := times_pow2 n d (- e) in
    let m := round_half_even n' d' in
    let '(m, e) :=
      if m =? 2 ^ prec then (2 ^ (prec - 1), e + 1) else (m, e) in
    if emax - prec <? e then Inf neg else Fin neg m e.

(** [(-1)^neg * m * 2^e], rounded. *)
Definition round_pow2 (neg : bool) (m e : Z) : float :=
  let '(n, d) := times_pow2 m 1 e in round neg n d.

(** [(-1)^neg * m * 10^e], rounded: the value of a decimal literal. *)
Definition of_decimal (neg : bool) (m e : Z) : float :=
  if 0 <=? e then round neg (m * 10 ^ e) 1 else round neg m (10 ^ (- e)).

(** [float(n)] for an [int]; overflow raises. *)
Definition of_int (n : Z) : result float :=
  match round (n <? 0) (Z.abs n) 1 with
  | Inf _ => Raise OverflowError
  | f => Ok f
  end.

(** [int(f)]: truncation toward zero. *)
Definition to_int (f : float) : result Z :=
  match f with
  | Nan => Raise ValueError
  | Inf _ => Raise OverflowError
  | Fin neg m e =>
      let a := if 0 <=? e then m * 2 ^ e else m / 2 ^ (- e) in
      Ok (if neg then - a else a)
  end.

(** [x * y] *)
Definition mul (x y : float) : float :=
  match x, y with
  | Nan, _ | _, Nan => Nan
  | Inf s, Inf t => Inf (xorb s t)
  | Inf s, Fin t m _ | Fin t m _, Inf s =>
      if m =? 0 then Nan else Inf (xorb s t)
  | Fin s m1 e1, Fin t m2 e2 => round_pow2 (xorb s t) (m1 * m2) (e1 + e2)
  end.

(** [a / b] for two [int]s ([long_true_divide]): correctly rounded. *)
Definition int_truediv (a b : Z) : result float :=
  if b =? 0 then Raise ZeroDivisionError
  else
    match round (xorb (a <? 0) (b <? 0)) (Z.abs a) (Z.abs b) with
    | Inf _ => Raise OverflowError
    | f => Ok f
    end.

Import PyStr.

Definition is_exp_mark (c : ascii) : bool :=
  Ascii.eqb c "e" || Ascii.eqb c "E".

(** What may follow the mantissa: nothing, or a complete exponent. *)
Definition parse_exponent (l : list ascii) : option Z :=
  match l with
  | [] => Some 0
  | c :: r =>
      if is_exp_mark c then
        let '(neg, r') := parse_sign r in
        let '(ds, rest) := span is_digit r' in
        match ds, rest with
        | _ :: _, [] =>
            Some (if neg then - digits_val ds else digits_val ds)
        | _, _ => None
        end
      else None
  end.

(** [digits [. digits] [exponent]] or [. digits [exponent]]:
    the literal [M * 10^E] as [(M, E)]. *)
Definition parse_decimal (l : list ascii) : option (Z * Z) :=
  let '(ip, r1) := span is_digit l in
  let '(fp, r2) :=
    match r1 with
    | c :: r => if Ascii.eqb c "." then span is_digit r else ([], r1)
    | [] => ([], [])
    end in
  match ip ++ fp with
  | [] => None
  | ds =>
      match parse_exponent r2 with
      | Some x => Some (digits_val ds, x - Z.of_nat (List.length fp))
      | None => None
      end
  end.

Definition is_word (w : string) (l : list ascii) : bool :=
  String.eqb (of_chars (map lower l)) w.

(** [float(s)] for a [str]. *)
Definition of_str (s : string) : result float :=
  let l := strip_by is_number_space (chars s) in
  if underscores_ok None l then
    let '(neg, r) := parse_sign (drop_underscores l) in
    if is_word "inf" r || is_word "infinity" r then Ok (Inf neg)
    else if is_word "nan" r then Ok Nan
    else match parse_decimal r with
         | Some (m, e) => Ok (of_decimal neg m e)
         | None => Raise ValueError
         end
  else Raise ValueError.

Definition two_digits (n : Z) : string :=
  ((if (n <? 10)%Z then "0" else "") ++ PyStr.of_int n)%string.

(** [f"{x:.2f}"] *)
Definition format_2f (x : float) : string :=
  match x with
  | Nan => "nan"
  | Inf neg => if neg then "-inf" else "inf"
  | Fin neg m e =>
      let '(n, d) := times_pow2 (m * 100) 1 e in
      let c := round_half_even n d in
      ((if neg then "-" else "") ++ PyStr.of_int (c / 100)%Z ++ "."
       ++ two_digits (c mod 100)%Z)%string
  end.

End PyFloat.

(* ================================================================== *)
(** ** Python [repr] of a [float] *)

Module PyRepr.

Import PyStr PyFloat.

(** The same float, sign of zero included. *)
Definition float_eqb (x y : float) : bool :=
  match x, y with
  | Nan, Nan => true
  | Inf s, Inf t => Bool.eqb s t
  | Fin s m e, Fin t m' e' => Bool.eqb s t && (m =? m') && (e =? e')
  | _, _ => false
  end.

(** [10^x <= n / d] *)
Definition pow10_le (x n d : Z) : bool :=
  if 0 <=? x then d * 10 ^ x <=? n else d <=? n * 10 ^ (- x).

(** The [x] with [10^x <= n / d < 10^(x+1)], for [n, d > 0]. *)
Definition log10_floor (n d : Z) : Z :=
  let x0 := (Z.log2 n - Z.log2 d) * 1233 / 4096 in
  match find (fun x => pow10_le x n d)
             [x0 + 2; x0 + 1; x0; x0 - 1; x0 - 2] with
  | Some x => x
  | None => x0 - 3
  end.

(** [(n / d) / 10^x] as a fraction. *)
Definition scale10 (n d x : Z) : Z * Z :=
  if 0 <=? x then (n, d * 10 ^ x) else (n * 10 ^ (- x), d).

(** The [k]-digit decimal [D * 10^x] nearest to [n / d] among those
    [float] reads back as [target], if there is one. *)
Definition shortest_at (target : float) (n d : Z) (k : Z)
  : option (Z * Z) :=
  let x := log10_floor n d - (k - 1) in
  let '(N, D) := scale10 n d x in
  let lo := N / D in
  let hi := lo + 1 in
  let r := N mod D in
  let lo_ok := float_eqb (of_decimal false lo x) target in
  let hi_ok := float_eqb (of_decimal false hi x) target in
  if lo_ok && hi_ok then
    match 2 * r ?= D with
    | Lt => Some (lo, x)
    | Gt => Some (hi, x)
    | Eq => Some (if Z.even lo then lo else hi, x)
    end
  else if lo_ok then Some (lo, x)
  else if hi_ok then Some (hi, x)
  else None.

(** The shortest decimal that reads back: one digit, then two, and so
    on; seventeen always do. *)
Fixpoint shortest_from (target : float) (n d : Z) (k : Z) (fuel : nat)
  : Z * Z :=
  match fuel with
  | O => (0, 0)
  | S fuel' =>
      match shortest_at target n d k with
      | Some r => r
      | None => shortest_from target n d (k + 1) fuel'
      end
  end.

(** Dropping the trailing zeros of [D * 10^x]. *)
Fixpoint drop_zeros (D x : Z) (fuel : nat) : Z * Z :=
  match fuel with
  | O => (D, x)
  | S fuel' =>
      if (D mod 10 =? 0) && negb (D =? 0)
      then drop_zeros (D / 10) (x + 1) fuel'
      else (D, x)
  end.

(** ["0" * n] *)
Definition zeros (n : Z) : list ascii := repeat "0"%char (Z.to_nat n).

(** An exponent on two digits at least. *)
Definition pad2 (n : Z) : string :=
  ((if (n <? 10)%Z then "0" else "") ++ PyStr.of_int n)%string.

(** The digits [ds] with the point after the first [decpt] of them, laid
    out as [repr] does: scientific notation when [decpt <= -4] or
    [decpt > 16], and a [.0] after a whole number otherwise. *)
Definition layout (ds : list ascii) (decpt : Z) : string :=
  let nd := Z.of_nat (List.length ds) in
  if (decpt <=? -4) || (16 <? decpt) then
    let exp := decpt - 1 in
    (of_chars (firstn 1 ds)
     ++ match skipn 1 ds with
        | [] => ""
        | rest => "." ++ of_chars rest
        end
     ++ "e" ++ (if (exp <? 0)%Z then "-" else "+") ++ pad2 (Z.abs exp))%string
  else if decpt <=? 0 then
    ("0." ++ of_chars (zeros (- decpt) ++ ds))%string
  else if nd <=? decpt then
    (of_chars (ds ++ zeros (decpt - nd)) ++ ".0")%string
  else
    (of_chars (firstn (Z.to_nat decpt) ds) ++ "."
     ++ of_chars (skipn (Z.to_nat decpt) ds))%string.

(** [repr(x)], which is [str(x)] and [format(x, "")]: the shortest
    decimal that [float] reads back as [x]. *)
Definition repr (x : float) : string :=
  match x with
  | Nan => "nan"
  | Inf neg => if neg then "-inf" else "inf"
  | Fin neg m e =>
      let body :=
        if m =? 0 then "0.0"
        else
          let '(n, d) := times_pow2 m 1 e in
          let '(D, x) := shortest_from (round false n d) n d 1 17 in
          let '(D, x) := drop_zeros D x 17 in
          let ds := chars (PyStr.of_int D) in
          layout ds (x + Z.of_nat (List.length ds)) in
      ((if neg then "-" else "") ++ body)%string
  end.

End PyRepr.

(* ================================================================== *)
(** ** Python [int(s)] for a [str], base 10 *)

Module PyInt.

Import PyStr.

(** [sys.get_int_max_str_digits()], at its default. *)
Definition max_str_digits : Z := 4300.

Definition is_digit_or_underscore (c : ascii) : bool :=
  is_digit c || is_underscore c.

Definition of_str (s : string) : result Z :=
  let '(neg, r) := parse_sign (strip_by is_number_space (chars s)) in
  let ds := drop_underscores r in
  if forallb is_digit_or_underscore r
     && underscores_ok None r
     && (1 <=? Z.of_nat (List.length ds))
     && (Z.of_nat (List.length ds) <=? max_str_digits)
  then Ok (if neg then - digits_val ds else digits_val ds)
  else Raise ValueError.

End PyInt.

(* ================================================================== *)
(** ** Insertion-ordered [dict] with [str] keys *)

Section Dict.

Context {V : Type}.

Definition dict : Type := list (string * V).

Definition keys (d : dict) : list string := map fst d.

Fixpoint dict_get (k : string) (d : dict) : option V :=
  match d with
  | [] => None
  | (k', v) :: r => if String.eqb k k' then Some v else dict_get k r
  end.

(** [d[k] = v]: an existing key keeps its position. *)
Fixpoint dict_set (k : string) (v : V) (d : dict) : dict :=
  match d with
  | [] => [(k, v)]
  | (k', v') :: r =>
      if String.eqb k k' then (k', v) :: r else (k', v') :: dict_set k v r
  end.

End Dict.

Arguments dict V : clear implicits.

Definition mem_str (k : string) (l : list string) : bool :=
  existsb (String.eqb k) l.

Definition subset_str (a b : list string) : bool :=
  forallb (fun k => mem_str k b) a.

(** [set(a) == set(b)] *)
Definition set_eq (a b : list string) : bool :=
  subset_str a b && subset_str b a.

(* ================================================================== *)
(** ** [sorted(keys, key=lambda x: int(x))] *)

Fixpoint insert_by_key (x : Z * string) (l : list (Z * string))
  : list (Z * string) :=
  match l with
  | [] => [x]
  | y :: r => if fst x <=? fst y then x :: l else y :: insert_by_key x r
  end.

(** A stable sort on the decorated list. *)
Definition sort_by_key (l : list (Z * string)) : list (Z * string) :=
  fold_right insert_by_key [] l.

(** The key function runs on every element first; its first exception
  is the exception of the call. *)
Definition sorted_by_int (ks : list string) : result (list string) :=
  decorated <- mapM (fun k => n <- PyInt.of_str k ;; Ok (n, k)) ks ;;
  Ok (map snd (sort_by_key decorated)).

(* ================================================================== *)
(** ** [class GPUMonitor] *)

Module GPUMonitor.

Import PyStr.

(** The per-GPU dictionary built by [parse_gpu_data].  A field is [None]
    when the key is missing or its value is Python's [None]. *)
Record info : Type := mk_info {
  name : option string;
  temperature : option Z;
  utilization : option Z;
  memory_used : option Z;
  memory_total : option Z;
  power_draw : option PyFloat.float
}.

(** The fresh [{}] a [defaultdict(dict)] hands out for a missing key. *)
Definition empty_info : info := mk_info None None None None None None.

(** *** [parse_gpu_data] *)

Definition to_int (value : string) : option Z :=
  except_None (f <- PyFloat.of_str value ;; PyFloat.to_int f).

Definition to_float (value : string) : option PyFloat.float :=
  except_None (PyFloat.of_str value).

(** [parts[i]] *)
Definition index (parts : list string) (i : nat) : result string :=
  match nth_error parts i with
  | Some p => Ok p
  | None => Raise IndexError
  end.

Definition comma : ascii := ",".
Definition newline : ascii := "010".

Definition parse_line (gpu_info : dict info) (line : string)
  : result (dict info) :=
  if negb (String.eqb (strip line) "") then
    let parts := map strip (split comma line) in
    if 7 <=? Z.of_nat (List.length parts) then
      gpu_id <- index parts 0 ;;
      p1 <- index parts 1 ;;
      p2 <- index parts 2 ;;
      p3 <- index parts 3 ;;
      p4 <- index parts 4 ;;
      p5 <- index parts 5 ;;
      p6 <- index parts 6 ;;
      Ok (dict_set gpu_id
            {| name := Some p1;
               temperature := to_int p2;
               utilization := to_int p3;
               memory_used := to_int p4;
               memory_total := to_int p5;
               power_draw := to_float p6 |}
            gpu_info)
    else Ok gpu_info
  else Ok gpu_info.

Fixpoint parse_lines (gpu_info : dict info) (lines : list string)
  : result (dict info) :=
  match lines with
  | [] => Ok gpu_info
  | line :: rest =>
      gpu_info' <- parse_line gpu_info line ;; parse_lines gpu_info' rest
  end.

Definition parse_gpu_data (data : string) : result (dict info) :=
  if String.eqb data "" then Ok []
  else parse_lines [] (split newline (strip data)).

(** *** The dashboard cards *)

(** The widgets of one card, each by the values it shows. *)
Record card : Type := mk_card {
  frame_id : string;
  frame_name : string;
  frame_row : Z;
  temp_text : string;
  temp_style : string;
  util_bar : Z;
  util_label : string;
  mem_bar : Z;
  mem_label : string;
  power_label : string
}.

Definition get_temp_style (temperature_c : option Z) : string :=
  match temperature_c with
  | None => "Muted.TLabel"
  | Some t =>
      if 80 <=? t then "TempHigh.TLabel"
      else if 70 <=? t then "TempWarn.TLabel"
      else "TempOk.TLabel"
  end.

(** The unit after a temperature: a space, the degree sign (code point
    176) and [C]. *)
Definition deg_C : string := String " " (String (ascii_of_nat 176) "C").

Definition _create_gpu_card (gpu_id : string) (i : info) (row_index : Z)
  : card :=
  {| frame_id := gpu_id;
     frame_name := match name i with Some n => n | None => "Unknown" end;
     frame_row := row_index;
     temp_text := "--" ++ deg_C;
     temp_style := get_temp_style (temperature i);
     util_bar := 0;
     util_label := "0%";
     mem_bar := 0;
     mem_label := "0 / 0 MB (0%)";
     power_label := "-- W" |}.

(** [int((mem_used_i / mem_total_i) * 100) if mem_total_i else 0] *)
Definition mem_pct (mem_used_i mem_total_i : Z) : result Z :=
  if mem_total_i =? 0 then Ok 0
  else
    q <- PyFloat.int_truediv mem_used_i mem_total_i ;;
    h <- PyFloat.of_int 100 ;;
    PyFloat.to_int (PyFloat.mul q h).

Definition set_temp (w : card) (text style : string) : card :=
  mk_card (frame_id w) (frame_name w) (frame_row w) text style
          (util_bar w) (util_label w) (mem_bar w) (mem_label w)
          (power_label w).

Definition set_util (w : card) (value : Z) (text : string) : card :=
  mk_card (frame_id w) (frame_name w) (frame_row w) (temp_text w)
          (temp_style w) value text (mem_bar w) (mem_label w)
          (power_label w).

Definition set_mem (w : card) (value : Z) (text : string) : card :=
  mk_card (frame_id w) (frame_name w) (frame_row w) (temp_text w)
          (temp_style w) (util_bar w) (util_label w) value text
          (power_label w).

Definition set_power (w : card) (text : string) : card :=
  mk_card (frame_id w) (frame_name w) (frame_row w) (temp_text w)
          (temp_style w) (util_bar w) (util_label w) (mem_bar w)
          (mem_label w) text.

(** [float(power)]: [None] is a [TypeError]. *)
Definition float_of_power (power : option PyFloat.float)
  : result PyFloat.float :=
  match power with
  | Some f => Ok f
  | None => Raise TypeError
  end.

(** The card as the call leaves it, and the exception it raised if any:
    the memory percentage is computed outside any [try]. *)
Definition _update_gpu_card (widgets : card) (i : info)
  : card * option exn :=
  (* Temperature *)
  let w1 :=
    match temperature i with
    | Some t =>
        set_temp widgets (of_int t ++ deg_C) (get_temp_style (Some t))
    | None => set_temp widgets ("--" ++ deg_C) "Muted.TLabel"
    end in
  (* Utilization *)
  let util_val := match utilization i with Some u => u | None => 0 end in
  let w2 :=
    set_util w1 (Z.max 0 (Z.min util_val 100)) (of_int util_val ++ "%") in
  (* Memory *)
  let mem_used := match memory_used i with Some v => v | None => 0 end in
  let mem_total := match memory_total i with Some v => v | None => 0 end in
  let mem_used_i := mem_used in
  let mem_total_i := if 0 <? mem_total then mem_total else 0 in
  match mem_pct mem_used_i mem_total_i with
  | Raise e => (w2, Some e)
  | Ok pct =>
      let w3 :=
        set_mem w2 (Z.max 0 (Z.min pct 100))
          (of_int mem_used_i ++ " / " ++ of_int mem_total_i ++ " MB ("
           ++ of_int pct ++ "%)") in
      (* Power *)
      let w4 :=
        match float_of_power (power_draw i) with
        | Ok power_f =>
            set_power w3 (PyFloat.format_2f power_f ++ " W")
        | Raise _ => set_power w3 "-- W"
        end in
      (w4, None)
  end.

(** [gpu_data[gpu_id]] on the [defaultdict]. *)
Definition data_at (gpu_data : dict info) (gpu_id : string) : info :=
  match dict_get gpu_id gpu_data with
  | Some i => i
  | None => empty_info
  end.

(** The loop that creates one card per id, rows counted from [row]. *)
Fixpoint create_cards (gpu_data : dict info) (ids : list string) (row : Z)
  (gpu_cards : dict card) : dict card :=
  match ids with
  | [] => gpu_cards
  | gpu_id :: rest =>
      let card_widgets :=
        _create_gpu_card gpu_id (data_at gpu_data gpu_id) row in
      create_cards gpu_data rest (row + 1)
        (dict_set gpu_id card_widgets gpu_cards)
  end.

(** The loop [for gpu_id, info in gpu_data.items()]; a widget is
    updated in place, so its entry keeps its position. *)
Fixpoint update_cards (items : list (string * info))
  (gpu_cards : dict card) : dict card * option exn :=
  match items with
  | [] => (gpu_cards, None)
  | (gpu_id, i) :: rest =>
      match dict_get gpu_id gpu_cards with
      | Some w =>
          let '(w', e) := _update_gpu_card w i in
          let gpu_cards' := dict_set gpu_id w' gpu_cards in
          match e with
          | Some _ => (gpu_cards', e)
          | None => update_cards rest gpu_cards'
          end
      | None => update_cards rest gpu_cards
      end
  end.

(** [current_ids != new_ids] *)
Definition gpu_set_changed (gpu_cards : dict card) (gpu_data : dict info)
  : bool :=
  negb (set_eq (keys gpu_cards) (keys gpu_data)).

Definition build_or_update_dashboard (gpu_data : dict info)
  (gpu_cards : dict card) : dict card * option exn :=
  if gpu_set_changed gpu_cards gpu_data then
    (* clear_dashboard() has emptied gpu_cards when sorted() runs *)
    match sorted_by_int (keys gpu_data) with
    | Raise e => ([], Some e)
    | Ok ids => update_cards gpu_data (create_cards gpu_data ids 0 [])
    end
  else update_cards gpu_data gpu_cards.

(** *** [format_summary] *)

(** [f"{x}"] for an [int] or [None]. *)
Definition str_int (x : option Z) : string :=
  match x with
  | Some n => of_int n
  | None => "None"
  end.

(** [f"{x}"] for a [float] or [None]. *)
Definition str_float (x : option PyFloat.float) : string :=
  match x with
  | Some f => PyRepr.repr f
  | None => "None"
  end.

Definition nl : string := String newline "".

(** The degree sign, code point 176. *)
Definition degree : string := String (ascii_of_nat 176) "".

(** The lines the loop adds for one GPU.  [info['name']] on a dictionary
    without that key is a [KeyError], here [None]: the dictionaries of a
    sample have all their keys, the empty one of the [defaultdict] has
    none. *)
Definition summary_entry (gpu_id : string) (i : info) : option string :=
  match name i with
  | None => None
  | Some n =>
      Some ("GPU " ++ gpu_id ++ ": " ++ n ++ nl
            ++ "  Temperature: " ++ str_int (temperature i) ++ degree
            ++ "C" ++ nl
            ++ "  Utilization: " ++ str_int (utilization i) ++ "%" ++ nl
            ++ "  Memory: " ++ str_int (memory_used i) ++ "MB / "
            ++ str_int (memory_total i) ++ "MB" ++ nl
            ++ "  Power: " ++ str_float (power_draw i) ++ "W" ++ nl
            ++ nl)%string
  end.

(** The loop [for gpu_id, info in gpu_data.items()]. *)
Fixpoint summary_entries (items : list (string * info)) (summary : string)
  : option string :=
  match items with
  | [] => Some summary
  | (gpu_id, i) :: rest =>
      match summary_entry gpu_id i with
      | Some text => summary_entries rest (summary ++ text)
      | None => None
      end
  end.

(** ["=" * 50] *)
Definition rule : string := of_chars (repeat "="%char 50).

Definition format_summary (gpu_data : dict info) : option string :=
  match gpu_data with
  | [] => Some "No GPU data available"
  | _ => summary_entries gpu_data ("GPU Summary:" ++ nl ++ rule ++ nl ++ nl)
  end.

(** *** The monitor object and one refresh cycle *)

(** How a [subprocess.run] call ends: it returns, or it raises.  The two
    exceptions the [except] clauses name have a case each.  [Uncaught] is
    any other exception, which the code lets through: a
    [PermissionError] or another [OSError] when nvidia-smi cannot be
    executed, a [UnicodeDecodeError] when its output is not text. *)
Inductive run_result : Type :=
| Completed (returncode : Z) (stdout : string)
| TimeoutExpired
| FileNotFoundError
| Uncaught (e : exn).

(** The fields of [self] the cycle reads or writes.  [summary_of] is the
    data the text of the summary tab was formatted from, [None] while the
    tab is empty; [dialogs] collects the [messagebox.showerror] messages,
    latest first. *)
Record monitor : Type := mk_monitor {
  is_monitoring : bool;
  gpu_data : dict info;
  gpu_cards : dict card;
  status_label : string;
  summary_of : option (dict info);
  detailed_text : string;
  raw_text : string;
  dialogs : list string
}.

Definition set_status (st : monitor) (text : string) : monitor :=
  mk_monitor (is_monitoring st) (gpu_data st) (gpu_cards st) text
             (summary_of st) (detailed_text st) (raw_text st) (dialogs st).

Definition showerror (st : monitor) (message : string) : monitor :=
  mk_monitor (is_monitoring st) (gpu_data st) (gpu_cards st)
             (status_label st) (summary_of st) (detailed_text st)
             (raw_text st) (message :: dialogs st).

Definition set_gpu_data (st : monitor) (d : dict info) : monitor :=
  mk_monitor (is_monitoring st) d (gpu_cards st) (status_label st)
             (summary_of st) (detailed_text st) (raw_text st) (dialogs st).

Definition set_gpu_cards (st : monitor) (c : dict card) : monitor :=
  mk_monitor (is_monitoring st) (gpu_data st) c (status_label st)
             (summary_of st) (detailed_text st) (raw_text st) (dialogs st).

Definition set_summary (st : monitor) (summary : option (dict info))
  : monitor :=
  mk_monitor (is_monitoring st) (gpu_data st) (gpu_cards st)
             (status_label st) summary (detailed_text st) (raw_text st)
             (dialogs st).

Definition set_texts (st : monitor) (detailed raw : string) : monitor :=
  mk_monitor (is_monitoring st) (gpu_data st) (gpu_cards st)
             (status_label st) (summary_of st) detailed raw (dialogs st).

(** [update_summary_display]: the tab is emptied, then filled with the
    summary of the stored sample; when [format_summary] raises its
    [KeyError], the tab stays empty. *)
Definition update_summary_display (st : monitor) : monitor * option exn :=
  match format_summary (gpu_data st) with
  | Some _ => (set_summary st (Some (gpu_data st)), None)
  | None => (set_summary st None, Some KeyError)
  end.

(** The monitor as the call leaves it, and what the call returns or
    raises: an exception that is let through leaves the status alone. *)
Definition check_nvidia_smi (run : run_result) (st : monitor)
  : monitor * result bool :=
  match run with
  | Completed returncode _ =>
      if returncode =? 0 then
        (set_status st "nvidia-smi available", Ok true)
      else (set_status st "nvidia-smi not available", Ok false)
  | TimeoutExpired | FileNotFoundError =>
      (set_status st "nvidia-smi not found", Ok false)
  | Uncaught e => (st, Raise e)
  end.

(** [get_gpu_data] and [get_detailed_gpu_data] share this body. *)
Definition get_gpu_data (run : run_result) : result (option string) :=
  match run with
  | Completed returncode stdout =>
      Ok (if returncode =? 0 then Some stdout else None)
  | TimeoutExpired | FileNotFoundError => Ok None
  | Uncaught e => Raise e
  end.

(** [if data:] on an [Optional[str]] *)
Definition truthy (data : option string) : option string :=
  match data with
  | Some s => if String.eqb s "" then None else Some s
  | None => None
  end.

(** What one cycle gets from outside: the three [nvidia-smi] runs and
    the [time.strftime] text. *)
Record cycle : Type := mk_cycle {
  version_run : run_result;
  query_run : run_result;
  detailed_run : run_result;
  timestamp : string
}.

(** The monitor as the cycle leaves it, and the exception that ended it
    if any.  The cycle is cut short where a call raises: at the check, at
    the query, at the detailed run (after the sample is stored and before
    it is rendered), in the rendering, or in the summary. *)
Definition refresh_gpu_data (env : cycle) (st : monitor)
  : monitor * option exn :=
  match check_nvidia_smi (version_run env) st with
  | (st, Raise e) => (st, Some e)
  | (st, Ok available) =>
      if negb available then
        (showerror st "nvidia-smi is not available", None)
      else
        match get_gpu_data (query_run env) with
        | Raise e => (st, Some e)
        | Ok basic_data =>
            let parsed :=
              match truthy basic_data with
              | Some text =>
                  d <- parse_gpu_data text ;; Ok (set_gpu_data st d)
              | None => Ok st
              end in
            match parsed with
            | Raise e => (st, Some e)
            | Ok st =>
                match get_gpu_data (detailed_run env) with
                | Raise e => (st, Some e)
                | Ok detailed_data =>
                    let '(cards, e) :=
                      build_or_update_dashboard (gpu_data st)
                        (gpu_cards st) in
                    let st := set_gpu_cards st cards in
                    match e with
                    | Some _ => (st, e)
                    | None =>
                        let '(st, e) := update_summary_display st in
                        match e with
                        | Some _ => (st, e)
                        | None =>
                            let shown :=
                              match truthy detailed_data with
                              | Some text => (text, text)
                              | None =>
                                  ("No detailed data available",
                                   "No raw data available")
                              end in
                            let st := set_texts st (fst shown) (snd shown) in
                            (set_status st
                               ("Last updated: " ++ timestamp env),
                             None)
                        end
                    end
                end
            end
        end
  end.

(** [GPUMonitor.__init__], after [setup_ui]: the status label reads
    "Ready" until [check_nvidia_smi] overwrites it.  When the check
    raises, so does the constructor, and there is no monitor. *)
Definition init (run : run_result) : result monitor :=
  let '(st, available) :=
    check_nvidia_smi run (mk_monitor false [] [] "Ready" None "" "" []) in
  _ <- available ;; Ok st.

Definition set_monitoring (st : monitor) (flag : bool) : monitor :=
  mk_monitor flag (gpu_data st) (gpu_cards st) (status_label st)
             (summary_of st) (detailed_text st) (raw_text st) (dialogs st).

Definition start_monitoring (run : run_result) (st : monitor)
  : monitor * option exn :=
  match check_nvidia_smi run st with
  | (st, Raise e) => (st, Some e)
  | (st, Ok available) =>
      if negb available then
        (showerror st "nvidia-smi is not available", None)
      else
        (set_status (set_monitoring st true) "Monitoring started...", None)
  end.

Definition stop_monitoring (st : monitor) : monitor :=
  set_status (set_monitoring st false) "Monitoring stopped".

(** [toggle_monitoring]: the check runs only when the toggle starts. *)
Definition toggle_monitoring (run : run_result) (st : monitor)
  : monitor * option exn :=
  if is_monitoring st then (stop_monitoring st, None)
  else start_monitoring run st.

(** The states of the monitor: after a start-up that did not raise, and
    after any sequence of refresh cycles (periodic or manual), starts
    and stops, each as the call left the monitor, raised or not: Tk
    reports an exception of a callback and goes on. *)
Inductive reachable : monitor -> Prop :=
| reach_init : forall run st, init run = Ok st -> reachable st
| reach_refresh : forall env st,
    reachable st -> reachable (fst (refresh_gpu_data env st))
| reach_start : forall run st,
    reachable st -> reachable (fst (start_monitoring run st))
| reach_stop : forall st,
    reachable st -> reachable (stop_monitoring st).

(** *** [monitor_loop] *)

Section Loop.

(** The longest sleep the platform's clock accepts, in seconds. *)
Variable longest_sleep : Z.

(** [time.sleep(n)] for an [int]: the number of seconds slept.  The
    call raises an [OverflowError] when the nanoseconds do not fit 64
    bits, and an [OSError] when the clock refuses the duration. *)
Definition sleep (n : Z) : result Z :=
  if n <? 0 then Raise ValueError
  else if 9223372036 <? n then Raise OverflowError
  else if longest_sleep <? n then Raise OSError
  else Ok n.

Inductive event : Type :=
| After_refresh
| Sleep (seconds : Z)
| Print_error (e : exn).

(** The loop against what it observes at each iteration: the flag
    [self.is_monitoring] and the outcome of [self.update_interval.get()].
    The trace ends with the loop, or with the observations. *)
Fixpoint monitor_loop (observed : list (bool * result Z)) : list event :=
  match observed with
  | [] => []
  | (monitoring, interval) :: rest =>
      if monitoring then
        After_refresh ::
          match n <- interval ;; sleep n with
          | Ok seconds => Sleep seconds :: monitor_loop rest
          | Raise e => [Print_error e]
          end
      else []
  end.

End Loop.

End GPUMonitor.

(* ================================================================== *)
(** ** Notions the statements below are phrased with *)

Module Notions.

Import PyStr PyFloat GPUMonitor.

(** The stripped fields of a line, as [parse_gpu_data] computes them. *)
Definition fields (line : string) : list string :=
  map strip (split comma line).

(** The dictionary stored for a line from its fields after the id. *)
Definition record (p1 p2 p3 p4 p5 p6 : string) : info :=
  {| name := Some p1;
     temperature := to_int p2;
     utilization := to_int p3;
     memory_used := to_int p4;
     memory_total := to_int p5;
     power_draw := to_float p6 |}.

(** The lines [parse_gpu_data] iterates over. *)
Definition lines_of (data : string) : list string :=
  split newline (strip data).

(** A line with at least seven fields, as the id and record it stands
    for; any other line stands for nothing. *)
Definition entry (line : string) : option (string * info) :=
  match fields line with
  | p0 :: p1 :: p2 :: p3 :: p4 :: p5 :: p6 :: _ =>
      Some (p0, record p1 p2 p3 p4 p5 p6)
  | _ => None
  end.

Definition entries (lines : list string) : list (string * info) :=
  flat_map (fun line =>
              match entry line with Some e => [e] | None => [] end) lines.

(** The dictionary after the entries are stored in turn, from [d] on: an
    entry overwrites an earlier one under the same id. *)
Definition stored (es : list (string * info)) (d : dict info) : dict info :=
  fold_left (fun acc e => dict_set (fst e) (snd e) acc) es d.

(** The record of the last line that carries [id]. *)
Definition last_record (id : string) (lines : list string) : option info :=
  option_map snd
    (find (fun e => String.eqb id (fst e)) (rev (entries lines))).

Definition util_val (i : info) : Z :=
  match utilization i with Some u => u | None => 0 end.

Definition mem_used_i (i : info) : Z :=
  match memory_used i with Some v => v | None => 0 end.

Definition mem_total_i (i : info) : Z :=
  match memory_total i with
  | Some v => if 0 <? v then v else 0
  | None => 0
  end.

(** [2^k] for [k >= 0], and [1] otherwise. *)
Definition p2 (k : Z) : Z := 2 ^ Z.max 0 k.

(** The binade of [n / d]: the [K] with [2^K <= n / d < 2^(K+1)]. *)
Definition binade (n d : Z) : Z :=
  let k := Z.log2 n - Z.log2 d in
  if d * p2 k <=? n * p2 (- k) then k else k - 1.

(** [float(100)], the right operand of [* 100]. *)
Definition hundred : float := Fin false 7036874417766400 (-46).

(** The severity a label style stands for. *)
Inductive severity : Type :=
| Unknown
| Nominal
| Warning
| Critical.

Definition severity_of_style (style : string) : option severity :=
  if String.eqb style "Muted.TLabel" then Some Unknown
  else if String.eqb style "TempOk.TLabel" then Some Nominal
  else if String.eqb style "TempWarn.TLabel" then Some Warning
  else if String.eqb style "TempHigh.TLabel" then Some Critical
  else None.

(** The banding in the specification's words: absent, below 70,
    70 to 79, 80 and above. *)
Definition band_spec (temperatureC : option Z) : severity :=
  match temperatureC with
  | None => Unknown
  | Some t =>
      if t <? 70 then Nominal
      else if (70 <=? t) && (t <=? 79) then Warning
      else Critical
  end.

(** ["\n".join(lines)] *)
Definition unlines (lines : list string) : string :=
  String.concat (String newline "") lines.

(** A reading of zero watts, [float("0")]. *)
Definition zero_watts : PyFloat.float := PyFloat.Fin false 0 PyFloat.emin.

(** A card as [_create_gpu_card] would make it, to update in examples. *)
Definition blank_card : card := _create_gpu_card "0" empty_info 0.

(** The numeric value of an id that [int] accepts. *)
Definition int_value (id : string) : Z :=
  match PyInt.of_str id with
  | Ok n => n
  | Raise _ => 0
  end.

(** [int(id)] returns. *)
Definition numeric (id : string) : Prop := exists n, PyInt.of_str id = Ok n.

(** Ascending by numeric value. *)
Definition ascending (ids : list string) : Prop :=
  StronglySorted (fun a b => int_value a <= int_value b) ids.

Definition key_le (x y : Z * string) : Prop := fst x <= fst y.

(** The cards the rebuild loop appends for [ids], rows from [row] on. *)
Fixpoint created (gpu_data : dict info) (ids : list string) (row : Z)
  : dict card :=
  match ids with
  | [] => []
  | gpu_id :: rest =>
      (gpu_id, _create_gpu_card gpu_id (data_at gpu_data gpu_id) row)
        :: created gpu_data rest (row + 1)
  end.

(** The memory line of [_update_gpu_card] computes its percentage. *)
Definition renders (i : info) : Prop :=
  exists pct, mem_pct (mem_used_i i) (mem_total_i i) = Ok pct.

(** No memory reading of the sample reaches [2^1000] in magnitude. *)
Definition bounded_memory (sample : dict info) : Prop :=
  forall id i, In (id, i) sample -> Z.abs (mem_used_i i) < 2 ^ 1000.

(** Three GPUs, listed out of order. *)
Definition sample_201 : dict info :=
  Eval vm_compute in
    match parse_gpu_data
            (unlines ["2, C, 60, 30, 300, 8000, 70";
                      "0, A, 75, 42, 1000, 8000, 120.5";
                      "1, B, 85, 10, 2000, 8000, 80.0"]) with
    | Ok d => d
    | Raise _ => []
    end.

(** [check_nvidia_smi] answers [True] on this run. *)
Definition available (run : run_result) : bool :=
  match run with
  | Completed returncode _ => returncode =? 0
  | TimeoutExpired | FileNotFoundError | Uncaught _ => false
  end.

(** The run ends in one of the failures the code handles: nvidia-smi
    exits non-zero, times out or is missing. *)
Definition fails (run : run_result) : bool :=
  match run with
  | Completed returncode _ => negb (returncode =? 0)
  | TimeoutExpired | FileNotFoundError => true
  | Uncaught _ => false
  end.

(** The exception of a run that the [except] clause lets through. *)
Definition uncaught (run : run_result) : option exn :=
  match run with
  | Uncaught e => Some e
  | _ => None
  end.

(** The tool is missing, times out or exits non-zero, at the check or at
    the query. *)
Definition acquisition_fails (env : cycle) : Prop :=
  fails (version_run env) = true
  \/ fails (query_run env) = true.

(** The dashboard shows the stored sample: rendering it again changes no
    card and raises nothing. *)
Definition settled (st : monitor) : Prop :=
  build_or_update_dashboard (gpu_data st) (gpu_cards st)
  = (gpu_cards st, None).

(** The status texts of a failed check. *)
Definition failure_status (text : string) : Prop :=
  text = "nvidia-smi not available" \/ text = "nvidia-smi not found".

(** A cycle in which nvidia-smi is not found at all. *)
Definition tool_missing : cycle :=
  mk_cycle FileNotFoundError FileNotFoundError FileNotFoundError "12:00:00".

(** A cycle in which nvidia-smi is there and cannot be executed. *)
Definition not_executable : cycle :=
  mk_cycle (Uncaught PermissionError) (Uncaught PermissionError)
           (Uncaught PermissionError) "12:00:00".

(** A cycle in which the check passes and the query times out. *)
Definition query_times_out : cycle :=
  mk_cycle (Completed 0 "v") TimeoutExpired (Completed 0 "full") "12:00:00".

(** The monitor after a start-up whose check found nvidia-smi, and after
    one whose check did not. *)
Definition started : monitor :=
  mk_monitor false [] [] "nvidia-smi available" None "" "" [].

Definition started_without : monitor :=
  mk_monitor false [] [] "nvidia-smi not found" None "" "" [].

(** The dashboard holds the ids of the stored sample, or is empty. *)
Definition in_step (st : monitor) : Prop :=
  gpu_cards st = []
  \/ Permutation (keys (gpu_data st)) (keys (gpu_cards st)).

(** The three runs of a cycle return, and the check answers [True]: the
    cycle gets as far as the rendering. *)
Definition reaches_render (env : cycle) : Prop :=
  available (version_run env) = true
  /\ uncaught (query_run env) = None
  /\ uncaught (detailed_run env) = None.

(** The query gives a text, which is stored, and the detailed run then
    raises: the cycle ends between the store and the rendering. *)
Definition stores_unrendered (env : cycle) : Prop :=
  available (version_run env) = true
  /\ (exists text, query_run env = Completed 0 text /\ text <> "")
  /\ exists e, uncaught (detailed_run env) = Some e.

(** Two ways of writing one value: [M * 2^X = m * 2^e]. *)
Definition same_value (M X m e : Z) : Prop :=
  M * p2 X * p2 (- e) = m * p2 e * p2 (- X).

(** A record that has only memory readings. *)
Definition memory_only (used total : Z) : info :=
  mk_info None None None (Some used) (Some total) None.


(** *** Notions for the dashboard, the cycle and the loop *)

(** Two cards stand in the same frame: same key, title, name and row. *)
Definition same_frame (a b : string * card) : Prop :=
  fst a = fst b
  /\ frame_id (snd a) = frame_id (snd b)
  /\ frame_name (snd a) = frame_name (snd b)
  /\ frame_row (snd a) = frame_row (snd b).

(** The dashboard as a rebuild lays it out: one card per id, the ids
    accepted by [int] and ascending, the card at position [j] titled
    with its id and gridded in row [j]. *)
Definition laid_out (cards : dict card) : Prop :=
  NoDup (keys cards)
  /\ Forall numeric (keys cards)
  /\ ascending (keys cards)
  /\ forall j id w,
      nth_error cards j = Some (id, w) ->
      frame_id w = id /\ frame_row w = Z.of_nat j.

(** Both progress bars of a card hold a value of their range. *)
Definition bars_in_range (w : card) : Prop :=
  0 <= util_bar w <= 100 /\ 0 <= mem_bar w <= 100.

(** The texts [update_detailed_display] and [update_raw_display] put in
    their tabs for what [get_detailed_gpu_data] returned. *)
Definition shown_texts (detailed_data : option string) : string * string :=
  match truthy detailed_data with
  | Some text => (text, text)
  | None => ("No detailed data available", "No raw data available")
  end.

(** The sample a cycle renders: the parsed text of the query when there
    is one, the stored sample otherwise. *)
Definition sample_in_force (env : cycle) (st : monitor) (d : dict info)
  : Prop :=
  match get_gpu_data (query_run env) with
  | Ok basic_data =>
      match truthy basic_data with
      | Some text => parse_gpu_data text = Ok d
      | None => d = gpu_data st
      end
  | Raise _ => d = gpu_data st
  end.

(** A cycle in which every run succeeds and the query prints [text]. *)
Definition cycle_printing (text : string) : cycle :=
  mk_cycle (Completed 0 "v") (Completed 0 text) (Completed 0 "full")
           "12:00:00".

(** A cycle on three GPUs, listed out of order. *)
Definition three_gpus : cycle :=
  cycle_printing
    (unlines ["2, C, 60, 30, 300, 8000, 70";
              "0, A, 75, 42, 1000, 8000, 120.5";
              "1, B, 85, 10, 2000, 8000, 80.0"]).

(** The monitor after start-up and one cycle on three GPUs. *)
Definition first_render : monitor :=
  fst (refresh_gpu_data three_gpus started).

(** A cycle whose query prints a line with the id [x]. *)
Definition odd_id : cycle := cycle_printing "x, A, 50, 10, 100, 200, 5".

(** A field that holds no comma. *)
Definition comma_free (s : string) : Prop := ~ In comma (chars s).

(** [", ".join(fields)], a line as nvidia-smi prints it. *)
Definition csv_line (fs : list string) : string := String.concat ", " fs.

(** The ids of a list in order of first appearance. *)
Fixpoint first_seen (ids : list string) : list string :=
  match ids with
  | [] => []
  | k :: rest =>
      k :: filter (fun x => negb (String.eqb x k)) (first_seen rest)
  end.

(** The traces of a loop that, in each iteration, schedules one refresh
    and then sleeps, and that ends for good at the first exception. *)
Inductive iterations : list event -> Prop :=
| iterations_done : iterations []
| iterations_next : forall seconds rest,
    0 <= seconds -> iterations rest ->
    iterations (After_refresh :: Sleep seconds :: rest)
| iterations_failed : forall e,
    iterations [After_refresh; Print_error e].

(** The refreshes a trace schedules. *)
Definition refreshes (trace : list event) : nat :=
  List.length
    (filter (fun ev => match ev with After_refresh => true | _ => false end)
       trace).

(** The iteration reads the interval and sleeps it. *)
Definition sleeps (longest_sleep : Z) (observation : bool * result Z)
  : Prop :=
  fst observation = true
  /\ exists s, (n <- snd observation ;; sleep longest_sleep n) = Ok s.

(** A reading with two decimals, as nvidia-smi prints power: the whole
    part, a point, and the hundredths on two digits. *)
Definition two_decimals (whole hundredths : Z) : string :=
  (PyStr.of_int whole ++ "." ++ two_digits hundredths)%string.

(** *** Notions for the summary *)

(** A record with its keys: [info['name']] is there. *)
Definition named (i : info) : Prop := exists n, name i = Some n.

(** The heading of the summary. *)
Definition summary_heading : string :=
  ("GPU Summary:" ++ nl ++ rule ++ nl ++ nl)%string.

(** The lines of one GPU in the summary; nothing for a record without
    its keys. *)
Definition entry_text (item : string * info) : string :=
  match summary_entry (fst item) (snd item) with
  | Some text => text
  | None => ""
  end.

(** The texts of a list, one after the other. *)
Definition join_all (texts : list string) : string :=
  fold_right String.append "" texts.

(** *** Notions for printed samples *)

(** What nvidia-smi reports of one GPU: the seven columns of the query. *)
Record reading : Type := mk_reading {
  r_index : string;
  r_name : string;
  r_temperature : Z;
  r_utilization : Z;
  r_memory_used : Z;
  r_memory_total : Z;
  r_power : string
}.

(** A text column as it stands in a line: no comma, no newline, no
    white space around it. *)
Definition plain (s : string) : Prop :=
  ~ In comma (chars s) /\ ~ In newline (chars s) /\ strip s = s.

(** White space only. *)
Definition blank (s : string) : Prop :=
  forallb is_space (chars s) = true.

(** The columns can be printed and read back: the index and the power
    column are not empty, and the integers are floats, exactly. *)
Definition printable (r : reading) : Prop :=
  plain (r_index r) /\ r_index r <> ""
  /\ plain (r_name r)
  /\ plain (r_power r) /\ r_power r <> ""
  /\ Z.abs (r_temperature r) < 2 ^ 53
  /\ Z.abs (r_utilization r) < 2 ^ 53
  /\ Z.abs (r_memory_used r) < 2 ^ 53
  /\ Z.abs (r_memory_total r) < 2 ^ 53.

(** The line of a reading, in the format [csv,noheader,nounits]. *)
Definition line_of (r : reading) : string :=
  csv_line [r_index r; r_name r; PyStr.of_int (r_temperature r);
            PyStr.of_int (r_utilization r); PyStr.of_int (r_memory_used r);
            PyStr.of_int (r_memory_total r); r_power r].

(** The entry of the sample a reading stands for. *)
Definition entry_of (r : reading) : string * info :=
  (r_index r,
   {| name := Some (r_name r);
      temperature := Some (r_temperature r);
      utilization := Some (r_utilization r);
      memory_used := Some (r_memory_used r);
      memory_total := Some (r_memory_total r);
      power_draw := to_float (r_power r) |}).

(** Two GPUs, listed out of order. *)
Definition two_readings : list reading :=
  [mk_reading "1" "B" 85 10 2000 8000 "80.00";
   mk_reading "0" "A" 75 42 1000 8000 "120.50"].

(** A cycle whose query prints the two readings and a final newline. *)
Definition two_gpus : cycle :=
  cycle_printing ("" ++ unlines (map line_of two_readings) ++ nl).

(** The three GPUs of [sample_201] under other names. *)
Definition renamed_201 : dict info :=
  map (fun kv =>
         (fst kv,
          mk_info (Some "renamed") (temperature (snd kv))
                  (utilization (snd kv)) (memory_used (snd kv))
                  (memory_total (snd kv)) (power_draw (snd kv))))
      sample_201.

End Notions.

(* ================================================================== *)
(** * Properties *)

(** ** Rounding to binary64 *)

Module FloatFacts.

Import PyFloat Notions.

Lemma p2_pos (k : Z) : 0 < p2 k.
Proof. unfold p2. apply Z.pow_pos_nonneg; lia. Qed.

Lemma p2_nonneg (k : Z) : 0 <= k -> p2 k = 2 ^ k.
Proof. intros H. unfold p2. now rewrite Z.max_r. Qed.

Lemma p2_nonpos (k : Z) : k <= 0 -> p2 k = 1.
Proof. intros H. unfold p2. now rewrite Z.max_l. Qed.

Lemma times_pow2_eq (n d e : Z) :
  times_pow2 n d e = (n * p2 e, d * p2 (- e)).
Proof.
  unfold times_pow2. destruct (0 <=? e) eqn:E.
  - apply Z.leb_le in E.
    rewrite (p2_nonneg e E), (p2_nonpos (- e)) by lia.
    now rewrite Z.mul_1_r.
  - apply Z.leb_gt in E.
    rewrite (p2_nonpos e), (p2_nonneg (- e)) by lia.
    now rewrite Z.mul_1_r.
Qed.

Lemma round_half_even_near (n d : Z) :
  0 < d ->
  2 * (round_half_even n d * d) <= 2 * n + d
  /\ 2 * n <= 2 * (round_half_even n d * d) + d.
Proof.
  intros Hd. unfold round_half_even.
  pose proof (Z.div_mod n d ltac:(lia)) as E.
  pose proof (Z.mod_pos_bound n d Hd) as B.
  set (q := n / d) in *. set (r := n mod d) in *.
  replace (d * q) with (q * d) in E by ring.
  destruct (Z.compare_spec (2 * r) d) as [C | C | C].
  - destruct (Z.even q); lia.
  - lia.
  - lia.
Qed.

Lemma round_half_even_le (n d N : Z) :
  0 < d -> n <= N * d -> round_half_even n d <= N.
Proof.
  intros Hd H. unfold round_half_even.
  pose proof (Z.div_mod n d ltac:(lia)) as E.
  pose proof (Z.mod_pos_bound n d Hd) as B.
  assert (n / d <= N) by nia.
  assert (n / d = N -> n mod d = 0) by nia.
  destruct (Z.compare_spec (2 * (n mod d)) d) as [C | C | C].
  - destruct (Z.even (n / d)); lia.
  - lia.
  - lia.
Qed.

Lemma round_half_even_ge (n d N : Z) :
  0 < d -> N * d <= n -> N <= round_half_even n d.
Proof.
  intros Hd H. unfold round_half_even.
  pose proof (Z.div_mod n d ltac:(lia)) as E.
  pose proof (Z.mod_pos_bound n d Hd) as B.
  assert (N <= n / d) by nia.
  destruct (2 * (n mod d) ?= d); [destruct (Z.even (n / d))| |]; lia.
Qed.

(** Equations between products of powers of two. *)
Ltac pow2_eq :=
  unfold p2; rewrite <- ?Z.pow_add_r by lia;
  try rewrite <- (Z.pow_succ_r 2) by lia; f_equal; lia.

Lemma ulp_exponent_eq (n d : Z) :
  ulp_exponent n d = Z.max emin (binade n d - (prec - 1)).
Proof.
  unfold ulp_exponent, binade. rewrite times_pow2_eq.
  rewrite Z.opp_involutive. reflexivity.
Qed.

Lemma binade_spec (n d : Z) :
  0 < n -> 0 < d ->
  d * p2 (binade n d) <= n * p2 (- binade n d)
    < 2 * (d * p2 (binade n d)).
Proof.
  intros Hn Hd. unfold binade.
  pose proof (Z.log2_spec n Hn) as Bn.
  pose proof (Z.log2_spec d Hd) as Bd.
  pose proof (Z.log2_nonneg n) as Ln.
  pose proof (Z.log2_nonneg d) as Ld.
  rewrite Z.pow_succ_r in Bn, Bd by assumption.
  set (ln := Z.log2 n) in *. set (ld := Z.log2 d) in *.
  set (k := ln - ld).
  assert (EX : 2 ^ ln * p2 (- k) = 2 ^ ld * p2 k)
    by (subst k; pow2_eq).
  pose proof (p2_pos k) as Pk. pose proof (p2_pos (- k)) as Pk'.
  set (X := 2 ^ ld * p2 k) in *.
  assert (Hn0 : X <= n * p2 (- k) < 2 * X) by nia.
  assert (Hd0 : X <= d * p2 k < 2 * X) by (subst X; nia).
  destruct (d * p2 k <=? n * p2 (- k)) eqn:C.
  - apply Z.leb_le in C. lia.
  - apply Z.leb_gt in C.
    assert (E1 : p2 (- (k - 1)) * p2 k = 2 * (p2 (- k) * p2 (k - 1))).
    { unfold p2. rewrite <- !Z.pow_add_r by lia.
      rewrite <- (Z.pow_succ_r 2) by lia. f_equal. lia. }
    pose proof (p2_pos (k - 1)) as Pk1.
    pose proof (p2_pos (- (k - 1))) as Pk1'.
    (* n1 * d0 = 2 * n0 * d1 *)
    assert (E2 : (n * p2 (- (k - 1))) * (d * p2 k)
                 = 2 * ((n * p2 (- k)) * (d * p2 (k - 1)))).
    { transitivity (n * d * (p2 (- (k - 1)) * p2 k)); [ring|].
      rewrite E1. ring. }
    set (n0 := n * p2 (- k)) in *. set (d0 := d * p2 k) in *.
    set (n1 := n * p2 (- (k - 1))) in *.
    set (d1 := d * p2 (k - 1)) in *.
    assert (0 < d1) by (subst d1; nia).
    assert (0 < d0) by lia. assert (0 < n0) by lia.
    split; nia.
Qed.

(** The scaled fraction whose rounding is the significand. *)
Lemma scaled_bounds (n d : Z) :
  0 < n -> 0 < d ->
  let e := ulp_exponent n d in
  emin <= e
  /\ 0 < d * p2 e
  /\ n * p2 (- e) < 2 ^ prec * (d * p2 e)
  /\ (emin < e -> 2 ^ (prec - 1) * (d * p2 e) <= n * p2 (- e)).
Proof.
  intros Hn Hd e. subst e. rewrite ulp_exponent_eq.
  pose proof (binade_spec n d Hn Hd) as B.
  set (K := binade n d) in *. set (e := Z.max emin (K - (prec - 1))).
  assert (He : K - e <= prec - 1) by (subst e; lia).
  pose proof (p2_pos e) as Pe. pose proof (p2_pos (- e)) as Pe'.
  pose proof (p2_pos K) as PK. pose proof (p2_pos (- K)) as PK'.
  pose proof (p2_pos (e - K)) as P1. pose proof (p2_pos (K - e)) as P2.
  assert (ES : (n * p2 (- e)) * (d * p2 K) * p2 (e - K)
               = (n * p2 (- K)) * (d * p2 e) * p2 (K - e)).
  { transitivity (n * d * (p2 (- e) * p2 K * p2 (e - K))); [ring|].
    replace (p2 (- e) * p2 K * p2 (e - K))
      with (p2 (- K) * p2 e * p2 (K - e)) by pow2_eq.
    ring. }
  assert (P2le : p2 (K - e) <= 2 ^ (prec - 1)).
  { unfold p2. apply Z.pow_le_mono_r; unfold prec in *; lia. }
  set (n' := n * p2 (- e)) in *. set (d' := d * p2 e) in *.
  set (nK := n * p2 (- K)) in *. set (dK := d * p2 K) in *.
  assert (Hd' : 0 < d') by (subst d'; nia).
  assert (HdK : 0 < dK) by (subst dK; nia).
  assert (T53 : 2 ^ prec = 2 * 2 ^ (prec - 1)) by reflexivity.
  assert (Q : 0 < 2 ^ (prec - 1)) by reflexivity.
  split; [subst e; lia|]. split; [exact Hd'|]. split.
  - (* n' * dK * p2(e-K) = nK * d' * p2(K-e) < 2 dK * d' * 2^52 *)
    assert (n' * dK * p2 (e - K) < 2 * dK * d' * 2 ^ (prec - 1)).
    { rewrite ES.
      apply Z.lt_le_trans with (2 * dK * d' * p2 (K - e)).
      - apply Z.mul_lt_mono_pos_r; [exact P2|]. nia.
      - apply Z.mul_le_mono_nonneg_l; [nia | exact P2le]. }
    rewrite T53.
    assert (Hn' : 0 < n') by (subst n'; nia).
    assert (0 < n' * dK) by nia.
    assert (n' * dK <= n' * dK * p2 (e - K)) by nia.
    assert (n' * dK < (2 * 2 ^ (prec - 1) * d') * dK) by nia.
    apply Z.mul_lt_mono_pos_r with dK; assumption.
  - intros Hmin.
    assert (Ee : e = K - (prec - 1)) by (subst e; lia).
    assert (E1 : p2 (e - K) = 1) by (apply p2_nonpos; unfold prec in *; lia).
    assert (E2 : p2 (K - e) = 2 ^ (prec - 1))
      by (rewrite Ee; unfold p2; f_equal; unfold prec; lia).
    rewrite E1, E2 in ES.
    assert ((2 ^ (prec - 1) * d') * dK <= n' * dK) by nia.
    apply Z.mul_le_mono_pos_r with dK; assumption.
Qed.

Lemma round_zero (neg : bool) (d : Z) : round neg 0 d = Fin neg 0 emin.
Proof. reflexivity. Qed.

Lemma round_unfold (neg : bool) (n d : Z) :
  0 < n ->
  round neg n d
  = let e := ulp_exponent n d in
    let m := round_half_even (n * p2 (- e)) (d * p2 e) in
    if m =? 2 ^ prec
    then if emax - prec <? e + 1 then Inf neg
         else Fin neg (2 ^ (prec - 1)) (e + 1)
    else if emax - prec <? e then Inf neg else Fin neg m e.
Proof.
  intros Hn. unfold round.
  replace (n =? 0) with false by (symmetry; apply Z.eqb_neq; lia).
  rewrite times_pow2_eq, Z.opp_involutive. cbv zeta.
  destruct (round_half_even _ _ =? 2 ^ prec); reflexivity.
Qed.

(** A fraction of at most [2^k], [k <= 1023], rounds to a finite float
    of at most [2^k]. *)
Lemma round_finite (neg : bool) (n d k : Z) :
  0 < n -> 0 < d -> 0 <= k <= emax - 1 -> n <= d * 2 ^ k ->
  exists m e,
    round neg n d = Fin neg m e
    /\ emin <= e <= k - (prec - 1)
    /\ 0 <= m <= 2 ^ (k - e).
Proof.
  intros Hn Hd Hk Hle. rewrite (round_unfold neg n d Hn). cbv zeta.
  destruct (scaled_bounds n d Hn Hd) as (Hmin & Hd' & _ & _).
  pose proof (binade_spec n d Hn Hd) as B.
  assert (HK : binade n d <= k).
  { destruct (Z.le_gt_cases (binade n d) k) as [|Hgt]; [assumption|].
    exfalso.
    rewrite (p2_nonneg (binade n d)), (p2_nonpos (- binade n d)) in B
      by lia.
    assert (2 ^ (k + 1) <= 2 ^ binade n d)
      by (apply Z.pow_le_mono_r; lia).
    rewrite Z.pow_add_r in * by lia.
    assert (0 < 2 ^ k) by (apply Z.pow_pos_nonneg; lia).
    nia. }
  assert (He : ulp_exponent n d <= k - (prec - 1)).
  { rewrite ulp_exponent_eq. unfold emin, emax, prec in *. lia. }
  set (e := ulp_exponent n d) in *.
  pose proof (p2_pos e) as Pe. pose proof (p2_pos (- e)) as Pe'.
  assert (Hs : n * p2 (- e) <= 2 ^ (k - e) * (d * p2 e)).
  { replace (2 ^ (k - e) * (d * p2 e)) with (d * 2 ^ k * p2 (- e)).
    - apply Z.mul_le_mono_nonneg_r; lia.
    - transitivity (d * (2 ^ k * p2 (- e))); [ring|].
      replace (2 ^ k * p2 (- e)) with (2 ^ (k - e) * p2 e).
      + ring.
      + unfold p2. rewrite <- !Z.pow_add_r by (unfold prec in *; lia).
        f_equal. lia. }
  pose proof (round_half_even_le _ _ _ Hd' Hs) as Hm.
  assert (Hm0 : 0 <= round_half_even (n * p2 (- e)) (d * p2 e))
    by (apply round_half_even_ge; [exact Hd' | nia]).
  set (m := round_half_even (n * p2 (- e)) (d * p2 e)) in *.
  destruct (m =? 2 ^ prec) eqn:Em.
  - apply Z.eqb_eq in Em.
    assert (Hke : prec <= k - e).
    { destruct (Z.le_gt_cases prec (k - e)) as [|Hgt]; [assumption|].
      exfalso.
      assert (2 ^ (k - e) < 2 ^ prec)
        by (apply Z.pow_lt_mono_r; unfold prec in *; lia).
      lia. }
    replace (emax - prec <? e + 1) with false
      by (symmetry; apply Z.ltb_ge; unfold emax, prec in *; lia).
    exists (2 ^ (prec - 1)), (e + 1). split; [reflexivity|].
    split; [unfold prec in *; lia|].
    split; [apply Z.pow_nonneg; lia|].
    apply Z.pow_le_mono_r; unfold prec in *; lia.
  - replace (emax - prec <? e) with false
      by (symmetry; apply Z.ltb_ge; unfold emax, prec in *; lia).
    exists m, e. split; [reflexivity|]. split; lia.
Qed.

Lemma round_pow2_finite (neg : bool) (m e k : Z) :
  0 <= m <= 2 ^ (k - e) -> 0 <= k - e -> 0 <= k <= emax - 1 ->
  exists m' e', round_pow2 neg m e = Fin neg m' e'.
Proof.
  intros Hm Hke Hk. unfold round_pow2. rewrite times_pow2_eq.
  destruct (Z.eq_dec m 0) as [-> | Hne].
  - rewrite Z.mul_0_l, round_zero. eauto.
  - pose proof (p2_pos e) as Pe. pose proof (p2_pos (- e)) as Pe'.
    assert (H1 : 0 < m * p2 e) by nia.
    assert (H2 : 0 < 1 * p2 (- e)) by lia.
    assert (H3 : m * p2 e <= 1 * p2 (- e) * 2 ^ k).
    { replace (1 * p2 (- e) * 2 ^ k) with (2 ^ (k - e) * p2 e).
      - apply Z.mul_le_mono_nonneg_r; lia.
      - rewrite Z.mul_1_l. unfold p2.
        rewrite <- !Z.pow_add_r by lia. f_equal. lia. }
    destruct (round_finite neg _ _ k H1 H2 Hk H3) as (m' & e' & H & _).
    eauto.
Qed.

Lemma of_int_100 : of_int 100 = Ok hundred.
Proof. vm_compute. reflexivity. Qed.

Lemma to_int_finite (neg : bool) (m e : Z) :
  exists p, to_int (Fin neg m e) = Ok p.
Proof. simpl. eauto. Qed.

(** The memory percentage is computed, and nothing is raised, for any
    reading of magnitude below [2^1000]. *)
Lemma mem_pct_returns (a b : Z) :
  Z.abs a < 2 ^ 1000 -> exists p, GPUMonitor.mem_pct a b = Ok p.
Proof.
  intros Ha. unfold GPUMonitor.mem_pct.
  destruct (b =? 0) eqn:Eb; [eauto|].
  apply Z.eqb_neq in Eb.
  unfold int_truediv.
  replace (b =? 0) with false by (symmetry; apply Z.eqb_neq; lia).
  rewrite of_int_100.
  set (s := xorb (a <? 0) (b <? 0)).
  destruct (Z.eq_dec a 0) as [-> | Hne].
  - simpl Z.abs. rewrite round_zero. cbn [bind]. unfold hundred, mul.
    rewrite Z.mul_0_l.
    destruct (round_pow2_finite (xorb s false) 0 (emin + -46) 0)
      as (m' & e' & H); [split; [lia | apply Z.pow_nonneg; lia] | | |].
    + unfold emin. lia.
    + unfold emax. lia.
    + rewrite H. apply to_int_finite.
  - assert (H1 : 0 < Z.abs a) by lia.
    assert (H2 : 0 < Z.abs b) by lia.
    assert (H3 : 0 <= 1000 <= emax - 1) by (unfold emax; lia).
    assert (H4 : Z.abs a <= Z.abs b * 2 ^ 1000).
    { apply Z.le_trans with (1 * 2 ^ 1000); [lia|].
      apply Z.mul_le_mono_nonneg_r; [apply Z.pow_nonneg|]; lia. }
    destruct (round_finite s _ _ 1000 H1 H2 H3 H4)
      as (m & e & H & He & Hm).
    rewrite H. cbn [bind]. unfold hundred, mul.
    unfold prec, emax in *.
    assert (H5 : 0 <= m * 7036874417766400 <= 2 ^ (1007 - (e + -46))).
    { split; [lia|].
      replace (1007 - (e + -46)) with ((1000 - e) + 53) by lia.
      rewrite Z.pow_add_r by lia.
      change (2 ^ 53) with 9007199254740992.
      assert (0 < 2 ^ (1000 - e)) by (apply Z.pow_pos_nonneg; lia).
      nia. }
    destruct (round_pow2_finite (xorb s false) _ (e + -46) 1007 H5)
      as (m' & e' & H'); [lia | unfold emax; lia |].
    rewrite H'. apply to_int_finite.
Qed.

(** Nothing used is 0 percent of any total. *)
Lemma mem_pct_of_nothing (b : Z) : GPUMonitor.mem_pct 0 b = Ok 0.
Proof.
  unfold GPUMonitor.mem_pct. destruct (b =? 0) eqn:Eb; [reflexivity|].
  unfold int_truediv. rewrite Eb. simpl Z.abs. rewrite round_zero.
  rewrite of_int_100. cbn [bind]. unfold hundred, mul.
  rewrite Z.mul_0_l. unfold round_pow2. rewrite times_pow2_eq.
  rewrite Z.mul_0_l, round_zero. unfold to_int.
  replace (0 <=? emin) with false by reflexivity.
  rewrite Z.div_0_l by (unfold emin; now apply Z.pow_nonzero).
  destruct (xorb _ false); reflexivity.
Qed.

Lemma binade_le (n d k : Z) :
  0 < n -> 0 < d -> 0 <= k -> n < d * 2 ^ (k + 1) -> binade n d <= k.
Proof.
  intros Hn Hd Hk H.
  pose proof (binade_spec n d Hn Hd) as B.
  destruct (Z.le_gt_cases (binade n d) k) as [|Hgt]; [assumption|].
  exfalso.
  rewrite (p2_nonneg (binade n d)), (p2_nonpos (- binade n d)) in B by lia.
  assert (2 ^ (k + 1) <= 2 ^ binade n d) by (apply Z.pow_le_mono_r; lia).
  nia.
Qed.

Lemma binade_ge (n d j : Z) :
  0 < n -> 0 < d -> 0 <= j -> d <= n * 2 ^ j -> - j <= binade n d.
Proof.
  intros Hn Hd Hj H.
  pose proof (binade_spec n d Hn Hd) as B.
  destruct (Z.le_gt_cases (- j) (binade n d)) as [|Hgt]; [assumption|].
  exfalso.
  rewrite (p2_nonpos (binade n d)), (p2_nonneg (- binade n d)) in B by lia.
  assert (2 ^ (j + 1) <= 2 ^ (- binade n d))
    by (apply Z.pow_le_mono_r; lia).
  rewrite Z.pow_add_r in * by lia.
  assert (0 < 2 ^ j) by (apply Z.pow_pos_nonneg; lia).
  nia.
Qed.


(** Rounding in the normal range: the significand is within half a unit
    of the scaled fraction, which lies in [2^52, 2^53). *)
Lemma round_normal (neg : bool) (n d : Z) :
  0 < n -> 0 < d ->
  emin < ulp_exponent n d -> ulp_exponent n d < emax - prec ->
  let e := ulp_exponent n d in
  let m := round_half_even (n * p2 (- e)) (d * p2 e) in
  2 ^ (prec - 1) * (d * p2 e) <= n * p2 (- e) < 2 ^ prec * (d * p2 e)
  /\ 2 * (m * (d * p2 e)) <= 2 * (n * p2 (- e)) + d * p2 e
  /\ 2 * (n * p2 (- e)) <= 2 * (m * (d * p2 e)) + d * p2 e
  /\ exists M X, round neg n d = Fin neg M X /\ same_value M X m e.
Proof.
  intros Hn Hd Hlo Hhi e m.
  destruct (scaled_bounds n d Hn Hd) as (_ & Hd' & Hub & Hlb).
  fold e in Hd', Hub, Hlb. specialize (Hlb Hlo).
  destruct (round_half_even_near (n * p2 (- e)) (d * p2 e) Hd') as [N1 N2].
  fold m in N1, N2.
  split; [split; assumption|]. split; [exact N1|]. split; [exact N2|].
  rewrite (round_unfold neg n d Hn). cbv zeta. fold e. fold m.
  destruct (m =? 2 ^ prec) eqn:Em.
  - apply Z.eqb_eq in Em.
    replace (emax - prec <? e + 1) with false
      by (symmetry; apply Z.ltb_ge; lia).
    exists (2 ^ (prec - 1)), (e + 1). split; [reflexivity|].
    unfold same_value. rewrite Em.
    change (2 ^ prec) with (2 * 2 ^ (prec - 1)).
    transitivity (2 ^ (prec - 1) * (p2 (e + 1) * p2 (- e))); [ring|].
    replace (p2 (e + 1) * p2 (- e)) with (2 * (p2 e * p2 (- (e + 1)))).
    + ring.
    + unfold p2. rewrite <- !Z.pow_add_r by lia.
      rewrite <- (Z.pow_succ_r 2) by lia. f_equal. lia.
  - replace (emax - prec <? e) with false
      by (symmetry; apply Z.ltb_ge; lia).
    exists m, e. split; [reflexivity|]. unfold same_value. ring.
Qed.

(** [int(x)] of a finite positive float is the floor of its value. *)
Lemma to_int_floor (M X m e : Z) :
  same_value M X m e ->
  exists p, to_int (Fin false M X) = Ok p
            /\ p * p2 (- e) <= m * p2 e < (p + 1) * p2 (- e).
Proof.
  intros Hv. unfold same_value in Hv. unfold to_int.
  pose proof (p2_pos e) as Pe. pose proof (p2_pos (- e)) as Pe'.
  pose proof (p2_pos X) as PX. pose proof (p2_pos (- X)) as PX'.
  set (p := if 0 <=? X then M * 2 ^ X else M / 2 ^ (- X)).
  exists p. split; [reflexivity|].
  assert (Hp : p * p2 (- X) <= M * p2 X < (p + 1) * p2 (- X)).
  { subst p. destruct (0 <=? X) eqn:EX.
    - apply Z.leb_le in EX.
      rewrite (p2_nonneg X), (p2_nonpos (- X)) by lia. lia.
    - apply Z.leb_gt in EX.
      rewrite (p2_nonpos X), (p2_nonneg (- X)) by lia.
      assert (0 < 2 ^ (- X)) by (apply Z.pow_pos_nonneg; lia).
      pose proof (Z.div_mod M (2 ^ (- X)) ltac:(lia)) as E.
      pose proof (Z.mod_pos_bound M (2 ^ (- X)) ltac:(lia)) as B.
      nia. }
  set (T := p2 (- e)) in *. set (S := p2 e) in *.
  set (TX := p2 (- X)) in *. set (SX := p2 X) in *.
  assert (H1 : (p * T) * TX <= (m * S) * TX) by nia.
  assert (H2 : (m * S) * TX < ((p + 1) * T) * TX) by nia.
  split.
  - apply Z.mul_le_mono_pos_r with TX; assumption.
  - apply Z.mul_lt_mono_pos_r with TX; assumption.
Qed.

(** The arithmetic of the two roundings, on the scaled integers. *)
Lemma two_roundings_floor (a b T1 m1 T2 m2 p : Z) :
  1 <= a < 2 ^ 45 -> 1 <= b -> 0 < T1 -> 0 < T2 ->
  2 ^ 52 * b <= a * T1 ->
  2 * (m1 * b) <= 2 * (a * T1) + b ->
  2 * (a * T1) <= 2 * (m1 * b) + b ->
  2 ^ 52 * T1 <= 100 * m1 * T2 ->
  2 * (m2 * T1) <= 200 * m1 * T2 + T1 ->
  200 * m1 * T2 <= 2 * (m2 * T1) + T1 ->
  p * T2 <= m2 < (p + 1) * T2 ->
  p * b <= 100 * a < (p + 2) * b.
Proof.
  change (2 ^ 45) with 35184372088832.
  change (2 ^ 52) with 4503599627370496.
  intros Ha Hb HT1 HT2 F1 N1 N2 F3 N3 N4 [P1 P2].
  set (W := 4503599627370496) in *.
  set (Q := T1 * T2).
  assert (HQ : 0 < Q) by (subst Q; nia).
  assert (Hm1 : 0 < m1) by nia.
  split.
  - destruct (Z.le_gt_cases (p * b) (100 * a)) as [|Hgt]; [assumption|].
    exfalso.
    assert (A1 : 2 * p * Q <= 200 * m1 * T2 + T1).
    { assert (2 * (p * T2) * T1 <= 2 * m2 * T1)
        by (apply Z.mul_le_mono_nonneg_r; lia).
      subst Q. nia. }
    assert (A2 : 2 * (p * b) * Q <= 100 * T2 * (2 * (a * T1) + b) + b * T1).
    { assert (2 * p * Q * b <= (200 * m1 * T2 + T1) * b)
        by (apply Z.mul_le_mono_nonneg_r; lia).
      assert (100 * T2 * (2 * (m1 * b)) <= 100 * T2 * (2 * (a * T1) + b))
        by (apply Z.mul_le_mono_nonneg_l; lia).
      nia. }
    assert (A3 : 2 * Q <= 100 * b * T2 + b * T1).
    { assert (2 * (100 * a + 1) * Q <= 2 * (p * b) * Q)
        by (apply Z.mul_le_mono_nonneg_r; lia).
      subst Q. nia. }
    assert (A5 : 4 * W * Q <= 400 * a * Q + 100 * b * T2).
    { assert (200 * T2 * (W * b) <= 200 * T2 * (a * T1))
        by (apply Z.mul_le_mono_nonneg_l; lia).
      assert (2 * b * (W * T1) <= 2 * b * (100 * m1 * T2))
        by (apply Z.mul_le_mono_nonneg_l; lia).
      assert (100 * T2 * (2 * (m1 * b)) <= 100 * T2 * (2 * (a * T1) + b))
        by (apply Z.mul_le_mono_nonneg_l; lia).
      assert (2 * W * (2 * Q) <= 2 * W * (100 * b * T2 + b * T1))
        by (apply Z.mul_le_mono_nonneg_l; lia).
      subst Q. nia. }
    assert (A6 : 4 * W * W * Q <= (400 * W + 100) * a * Q).
    { assert (W * (4 * W * Q) <= W * (400 * a * Q + 100 * b * T2))
        by (apply Z.mul_le_mono_nonneg_l; lia).
      assert (100 * T2 * (W * b) <= 100 * T2 * (a * T1))
        by (apply Z.mul_le_mono_nonneg_l; lia).
      subst Q. nia. }
    assert (A7 : 4 * W * W <= (400 * W + 100) * a).
    { apply Z.mul_le_mono_pos_r with Q; [exact HQ|]. lia. }
    subst W. lia.
  - destruct (Z.le_gt_cases ((p + 2) * b) (100 * a)) as [Hle|]; [|lia].
    exfalso.
    assert (HT : 128 <= T1) by (subst W; nia).
    assert (B2 : 200 * m1 * T2 <= 2 * (p + 1) * Q - T1).
    { assert (2 * (m2 + 1) * T1 <= 2 * ((p + 1) * T2) * T1)
        by (apply Z.mul_le_mono_nonneg_r; lia).
      subst Q. nia. }
    assert (B3 : 200 * a * Q
                 <= b * (2 * (p + 1) * Q - T1) + 100 * b * T2).
    { assert (100 * T2 * (2 * (a * T1)) <= 100 * T2 * (2 * (m1 * b) + b))
        by (apply Z.mul_le_mono_nonneg_l; lia).
      assert (b * (200 * m1 * T2) <= b * (2 * (p + 1) * Q - T1))
        by (apply Z.mul_le_mono_nonneg_l; lia).
      subst Q. nia. }
    assert (B4 : 2 * ((p + 2) * b) * Q <= 2 * (100 * a) * Q)
      by (apply Z.mul_le_mono_nonneg_r; lia).
    assert (B5 : b * (2 * Q + T1) <= b * (100 * T2)) by nia.
    assert (B6 : 2 * Q + T1 <= 100 * T2)
      by (apply Z.mul_le_mono_pos_l with b; lia).
    assert (128 * T2 <= Q) by (subst Q; nia).
    lia.
Qed.

(** The percentage [_update_gpu_card] shows, against the exact quotient:
    at most its floor, and at least one below. *)
Lemma mem_pct_bounds (a b : Z) :
  1 <= a < 2 ^ 45 -> 1 <= b < 2 ^ 45 ->
  exists p, GPUMonitor.mem_pct a b = Ok p
            /\ p * b <= 100 * a < (p + 2) * b.
Proof.
  intros Ha Hb.
  assert (P45 : 2 ^ 45 = 35184372088832) by reflexivity.
  unfold GPUMonitor.mem_pct, int_truediv.
  replace (b =? 0) with false by (symmetry; apply Z.eqb_neq; lia).
  replace (a <? 0) with false by (symmetry; apply Z.ltb_ge; lia).
  replace (b <? 0) with false by (symmetry; apply Z.ltb_ge; lia).
  rewrite !Z.abs_eq by lia. simpl xorb.
  (* the first rounding *)
  assert (Ha0 : 0 < a) by lia. assert (Hb0 : 0 < b) by lia.
  assert (K1hi : binade a b <= 44).
  { apply binade_le; lia. }
  assert (K1lo : - 45 <= binade a b).
  { apply (binade_ge a b 45); lia. }
  assert (E1 : ulp_exponent a b = binade a b - 52).
  { rewrite ulp_exponent_eq. unfold emin, prec. lia. }
  assert (E1lo : emin < ulp_exponent a b) by (rewrite E1; unfold emin; lia).
  assert (E1hi : ulp_exponent a b < emax - prec)
    by (rewrite E1; unfold emax, prec; lia).
  destruct (round_normal false a b Ha0 Hb0 E1lo E1hi)
    as (F1 & N1 & N2 & M1 & X1 & R1 & V1).
  rewrite R1. cbn [bind]. rewrite of_int_100. cbn [bind].
  unfold hundred, mul. simpl xorb.
  set (e1 := ulp_exponent a b) in *.
  set (m1 := round_half_even (a * p2 (- e1)) (b * p2 e1)) in *.
  assert (S1 : p2 e1 = 1) by (apply p2_nonpos; lia).
  assert (Hm1 : 2 ^ 52 <= m1 <= 2 ^ 53).
  { pose proof (p2_pos e1). subst m1. split.
    - apply round_half_even_ge; [lia | apply F1].
    - apply round_half_even_le; [lia|]. apply Z.lt_le_incl, F1. }
  rewrite S1, !Z.mul_1_r in F1, N1, N2.
  set (T1 := p2 (- e1)) in *.
  assert (HT1 : 0 < T1) by apply p2_pos.
  assert (T1hi : T1 <= 2 ^ 97).
  { subst T1. rewrite p2_nonneg by lia. apply Z.pow_le_mono_r; lia. }
  unfold prec in F1. simpl (53 - 1) in F1.
  (* the product with 100 *)
  unfold round_pow2. rewrite times_pow2_eq.
  set (n2 := M1 * 7036874417766400 * p2 (X1 + -46)).
  set (d2 := 1 * p2 (- (X1 + -46))).
  assert (Hd2 : 0 < d2)
    by (subst d2; pose proof (p2_pos (- (X1 + -46))); lia).
  assert (R : n2 * T1 = 100 * m1 * d2).
  { unfold same_value in V1. fold T1 in V1. rewrite S1, Z.mul_1_r in V1.
    pose proof (p2_pos (- X1)) as PX.
    assert (I : 70368744177664 * p2 (X1 + -46) * p2 (- X1)
                = p2 X1 * p2 (- (X1 + -46))).
    { change 70368744177664 with (2 ^ 46). unfold p2.
      rewrite <- !Z.pow_add_r by lia. f_equal. lia. }
    apply Z.mul_reg_r with (p2 (- X1)); [lia|]. subst n2 d2.
    transitivity (100 * M1 * T1
                  * (70368744177664 * p2 (X1 + -46) * p2 (- X1))); [ring|].
    rewrite I.
    transitivity (100 * (M1 * p2 X1 * T1) * p2 (- (X1 + -46))); [ring|].
    rewrite V1. ring. }
  change (2 ^ 52) with 4503599627370496 in *.
  change (2 ^ 53) with 9007199254740992 in *.
  change (2 ^ 97) with 158456325028528675187087900672 in *.
  assert (Hn2 : 0 < n2) by nia.
  (* the second rounding *)
  assert (K2hi : binade n2 d2 <= 52).
  { apply binade_le; try lia.
    change (2 ^ (52 + 1)) with 9007199254740992.
    apply Z.mul_lt_mono_pos_r with T1; [exact HT1|]. rewrite R.
    assert (128 <= T1) by nia.
    assert (100 * m1 < 9007199254740992 * T1) by nia.
    nia. }
  assert (K2lo : - 45 <= binade n2 d2).
  { apply (binade_ge n2 d2 45); try lia.
    change (2 ^ 45) with 35184372088832.
    apply Z.mul_le_mono_pos_r with T1; [exact HT1|].
    replace (n2 * 35184372088832 * T1) with (n2 * T1 * 35184372088832)
      by ring.
    rewrite R. nia. }
  assert (E2 : ulp_exponent n2 d2 = binade n2 d2 - 52).
  { rewrite ulp_exponent_eq. unfold emin, prec. lia. }
  assert (E2lo : emin < ulp_exponent n2 d2)
    by (rewrite E2; unfold emin; lia).
  assert (E2hi : ulp_exponent n2 d2 < emax - prec)
    by (rewrite E2; unfold emax, prec; lia).
  destruct (round_normal false n2 d2 Hn2 Hd2 E2lo E2hi)
    as (F3 & N3 & N4 & M2 & X2 & R2 & V2).
  rewrite R2.
  set (e2 := ulp_exponent n2 d2) in *.
  set (m2 := round_half_even (n2 * p2 (- e2)) (d2 * p2 e2)) in *.
  destruct (to_int_floor M2 X2 m2 e2 V2) as (p & Hp & P).
  exists p. split; [exact Hp|].
  assert (S2 : p2 e2 = 1) by (apply p2_nonpos; lia).
  rewrite S2, !Z.mul_1_r in F3, N3, N4, P.
  set (T2 := p2 (- e2)) in *.
  assert (HT2 : 0 < T2) by apply p2_pos.
  unfold prec in F3. simpl (53 - 1) in F3.
  change (2 ^ 52) with 4503599627370496 in F3.
  assert (G1 : 2 ^ 52 * b <= a * T1)
    by (change (2 ^ 52) with 4503599627370496; lia).
  assert (G2 : 2 ^ 52 * T1 <= 100 * m1 * T2).
  { change (2 ^ 52) with 4503599627370496.
    apply Z.mul_le_mono_pos_r with d2; [exact Hd2|].
    replace (100 * m1 * T2 * d2) with (100 * m1 * d2 * T2) by ring.
    rewrite <- R. nia. }
  assert (G3 : 2 * (m2 * T1) <= 200 * m1 * T2 + T1).
  { apply Z.mul_le_mono_pos_r with d2; [exact Hd2|].
    replace ((200 * m1 * T2 + T1) * d2)
      with (2 * (100 * m1 * d2) * T2 + T1 * d2) by ring.
    rewrite <- R. nia. }
  assert (G4 : 200 * m1 * T2 <= 2 * (m2 * T1) + T1).
  { apply Z.mul_le_mono_pos_r with d2; [exact Hd2|].
    replace (200 * m1 * T2 * d2) with (2 * (100 * m1 * d2) * T2) by ring.
    rewrite <- R. nia. }
  assert (Hb1 : 1 <= b) by lia.
  exact (two_roundings_floor a b T1 m1 T2 m2 p
           Ha Hb1 HT1 HT2 G1 N1 N2 G2 G3 G4 P).
Qed.

End FloatFacts.

(** ** Text: stripping and splitting *)

Module PyStrFacts.

Import PyStr.

Lemma of_chars_nil_inv (l : list ascii) : of_chars l = "" -> l = [].
Proof.
  destruct l as [|c r]; [reflexivity | discriminate].
Qed.

Lemma lstrip_nil_inv (p : ascii -> bool) (l : list ascii) :
  lstrip_by p l = [] -> forallb p l = true.
Proof.
  induction l as [|c r IH]; simpl; [reflexivity|].
  destruct (p c) eqn:Hc; [exact IH | discriminate].
Qed.

Lemma lstrip_head (p : ascii -> bool) (l : list ascii) :
  match lstrip_by p l with
  | [] => True
  | c :: _ => p c = false
  end.
Proof.
  induction l as [|c r IH]; simpl; [exact I|].
  destruct (p c) eqn:Hc; [exact IH | exact Hc].
Qed.

Lemma forallb_rev {A : Type} (p : A -> bool) (l : list A) :
  forallb p (rev l) = forallb p l.
Proof.
  induction l as [|a r IH]; simpl; [reflexivity|].
  rewrite forallb_app, IH; simpl.
  rewrite andb_true_r. apply andb_comm.
Qed.

(** Only a text made of white space strips to the empty text. *)
Lemma strip_chars_nil_inv (l : list ascii) :
  strip_chars l = [] -> forallb is_space l = true.
Proof.
  unfold strip_chars, strip_by. intros H.
  apply (f_equal (@rev ascii)) in H. rewrite rev_involutive in H.
  simpl in H. apply lstrip_nil_inv in H. rewrite forallb_rev in H.
  pose proof (lstrip_head is_space l) as Hh.
  destruct (lstrip_by is_space l) as [|c r] eqn:E.
  - now apply lstrip_nil_inv.
  - simpl in H. rewrite Hh in H. discriminate.
Qed.

Lemma split_chars_no_sep (sep : ascii) (l : list ascii) :
  forallb (fun c => negb (Ascii.eqb c sep)) l = true ->
  split_chars sep l = [l].
Proof.
  induction l as [|c r IH]; simpl; [reflexivity|].
  intros H. apply andb_true_iff in H. destruct H as [Hc Hr].
  apply negb_true_iff in Hc. rewrite Hc, (IH Hr). reflexivity.
Qed.

Lemma space_is_not (sep : ascii) (l : list ascii) :
  is_space sep = false ->
  forallb is_space l = true ->
  forallb (fun c => negb (Ascii.eqb c sep)) l = true.
Proof.
  intros Hsep H. rewrite forallb_forall in *. intros c Hc.
  apply negb_true_iff. destruct (Ascii.eqb c sep) eqn:E; [|reflexivity].
  apply Ascii.eqb_eq in E. subst c. rewrite (H _ Hc) in Hsep. discriminate.
Qed.

(** A blank text has a single field, whatever the separator. *)
Lemma blank_has_one_field (sep : ascii) (s : string) :
  is_space sep = false ->
  strip s = "" ->
  List.length (split sep s) = 1%nat.
Proof.
  intros Hsep H. unfold strip in H. apply of_chars_nil_inv in H.
  apply strip_chars_nil_inv in H.
  unfold split. rewrite length_map.
  rewrite (split_chars_no_sep sep _ (space_is_not sep _ Hsep H)).
  reflexivity.
Qed.

End PyStrFacts.

(** ** The parser, line by line *)

Module ParseFacts.

Import PyStr GPUMonitor Notions.

Lemma parse_line_short (d : dict info) (line : string) :
  (List.length (fields line) < 7)%nat -> parse_line d line = Ok d.
Proof.
  intros H. unfold parse_line.
  destruct (negb (String.eqb (strip line) "")); [|reflexivity].
  change (map strip (split comma line)) with (fields line).
  destruct (7 <=? Z.of_nat (List.length (fields line))) eqn:E;
    [|reflexivity].
  apply Z.leb_le in E. lia.
Qed.

Lemma parse_line_long (d : dict info) (line : string)
  (p0 p1 p2 p3 p4 p5 p6 : string) (extra : list string) :
  fields line = p0 :: p1 :: p2 :: p3 :: p4 :: p5 :: p6 :: extra ->
  parse_line d line = Ok (dict_set p0 (record p1 p2 p3 p4 p5 p6) d).
Proof.
  intros H. unfold parse_line.
  destruct (String.eqb (strip line) "") eqn:Eb.
  - apply String.eqb_eq in Eb.
    pose proof (PyStrFacts.blank_has_one_field comma line eq_refl Eb) as L.
    apply (f_equal (@List.length string)) in H.
    unfold fields in H. rewrite length_map in H. rewrite L in H.
    discriminate.
  - simpl negb. cbv iota.
    change (map strip (split comma line)) with (fields line).
    rewrite H.
    replace (7 <=? Z.of_nat (List.length
               (p0 :: p1 :: p2 :: p3 :: p4 :: p5 :: p6 :: extra)))
      with true by (symmetry; apply Z.leb_le; simpl List.length; lia).
    reflexivity.
Qed.

(** Every line either leaves the dictionary alone or sets one key. *)
Lemma parse_line_cases (d : dict info) (line : string) :
  (List.length (fields line) < 7)%nat /\ parse_line d line = Ok d
  \/ exists p0 p1 p2 p3 p4 p5 p6 extra,
      fields line = p0 :: p1 :: p2 :: p3 :: p4 :: p5 :: p6 :: extra
      /\ parse_line d line
         = Ok (dict_set p0 (record p1 p2 p3 p4 p5 p6) d).
Proof.
  destruct (fields line)
    as [|p0 [|p1 [|p2 [|p3 [|p4 [|p5 [|p6 extra]]]]]]] eqn:E;
    try (left; split;
         [ simpl; lia
         | apply parse_line_short; rewrite E; simpl; lia ]).
  right. exists p0, p1, p2, p3, p4, p5, p6, extra.
  split; [reflexivity | eapply parse_line_long; exact E].
Qed.

End ParseFacts.

(** ** Dictionaries *)

Module DictFacts.

Section WithValues.

Context {V : Type}.
Implicit Types (d : dict V) (k : string) (v : V).

Lemma dict_get_set_same d k v : dict_get k (dict_set k v d) = Some v.
Proof.
  induction d as [|[k' v'] r IH]; simpl.
  - now rewrite String.eqb_refl.
  - destruct (String.eqb k k') eqn:E; simpl; rewrite E; auto.
Qed.

Lemma dict_get_set_other d k k' v :
  k <> k' -> dict_get k' (dict_set k v d) = dict_get k' d.
Proof.
  intros Hne. induction d as [|[k0 v0] r IH]; simpl.
  - destruct (String.eqb k' k) eqn:E; [|reflexivity].
    apply String.eqb_eq in E. congruence.
  - destruct (String.eqb k k0) eqn:E; simpl.
    + apply String.eqb_eq in E. subst k0.
      destruct (String.eqb k' k) eqn:E'; [|reflexivity].
      apply String.eqb_eq in E'. congruence.
    + now rewrite IH.
Qed.

Lemma dict_get_set d k k' v :
  dict_get k' (dict_set k v d)
  = if String.eqb k' k then Some v else dict_get k' d.
Proof.
  destruct (String.eqb k' k) eqn:E.
  - apply String.eqb_eq in E. subst. apply dict_get_set_same.
  - apply String.eqb_neq in E. apply dict_get_set_other. congruence.
Qed.

Lemma dict_get_In d k v : dict_get k d = Some v -> In (k, v) d.
Proof.
  induction d as [|[k' v'] r IH]; simpl; [discriminate|].
  destruct (String.eqb k k') eqn:E.
  - apply String.eqb_eq in E. intros [= ->]. left. now subst.
  - intros H. right. now apply IH.
Qed.

Lemma dict_get_None d k : dict_get k d = None <-> ~ In k (keys d).
Proof.
  induction d as [|[k' v'] r IH]; simpl.
  - tauto.
  - destruct (String.eqb k k') eqn:E.
    + apply String.eqb_eq in E. subst. split; [discriminate | tauto].
    + apply String.eqb_neq in E. rewrite IH. split.
      * intros H [H1 | H1]; [congruence | tauto].
      * tauto.
Qed.

Lemma dict_get_Some_key d k v : dict_get k d = Some v -> In k (keys d).
Proof.
  intros H. apply dict_get_In in H.
  unfold keys. now apply (in_map fst) in H.
Qed.

Lemma In_keys_get d k : In k (keys d) -> exists v, dict_get k d = Some v.
Proof.
  intros H. destruct (dict_get k d) as [v|] eqn:E; [now exists v|].
  apply dict_get_None in E. contradiction.
Qed.

(** On a dictionary (unique keys) every item is what its key maps to. *)
Lemma In_dict_get d k v :
  NoDup (keys d) -> In (k, v) d -> dict_get k d = Some v.
Proof.
  induction d as [|[k' v'] r IH]; simpl; [tauto|].
  intros Hnd [H | H].
  - injection H as -> ->. now rewrite String.eqb_refl.
  - inversion Hnd as [|? ? Hnotin Hnd']; subst.
    destruct (String.eqb k k') eqn:E.
    + apply String.eqb_eq in E. subst.
      exfalso. apply Hnotin. unfold keys.
      now apply (in_map fst) in H.
    + now apply IH.
Qed.

Lemma keys_dict_set_present d k v :
  In k (keys d) -> keys (dict_set k v d) = keys d.
Proof.
  induction d as [|[k' v'] r IH]; simpl; [tauto|].
  intros H. destruct (String.eqb k k') eqn:E; simpl; [reflexivity|].
  f_equal. apply IH. destruct H as [H | H]; [|exact H].
  apply String.eqb_neq in E. congruence.
Qed.

Lemma keys_dict_set_absent d k v :
  ~ In k (keys d) -> keys (dict_set k v d) = keys d ++ [k].
Proof.
  induction d as [|[k' v'] r IH]; simpl; [reflexivity|].
  intros H. destruct (String.eqb k k') eqn:E; simpl.
  - apply String.eqb_eq in E. subst. tauto.
  - f_equal. apply IH. tauto.
Qed.

Lemma dict_set_absent d k v :
  ~ In k (keys d) -> dict_set k v d = d ++ [(k, v)].
Proof.
  induction d as [|[k' v'] r IH]; simpl; [reflexivity|].
  intros H. destruct (String.eqb k k') eqn:E; simpl.
  - apply String.eqb_eq in E. subst. tauto.
  - f_equal. apply IH. tauto.
Qed.

Lemma NoDup_snoc (l : list string) k :
  NoDup l -> ~ In k l -> NoDup (l ++ [k]).
Proof.
  intros Hl Hk. apply NoDup_rev in Hl.
  rewrite <- (rev_involutive (l ++ [k])). apply NoDup_rev.
  rewrite rev_app_distr. simpl. constructor; [|exact Hl].
  now rewrite <- in_rev.
Qed.

(** Assignment keeps the keys of a dictionary unique. *)
Lemma NoDup_keys_dict_set d k v :
  NoDup (keys d) -> NoDup (keys (dict_set k v d)).
Proof.
  intros H. destruct (in_dec string_dec k (keys d)) as [Hin | Hout].
  - now rewrite keys_dict_set_present.
  - rewrite keys_dict_set_absent by exact Hout. now apply NoDup_snoc.
Qed.

End WithValues.

Lemma mem_str_In (k : string) (l : list string) :
  mem_str k l = true <-> In k l.
Proof.
  unfold mem_str. rewrite existsb_exists. split.
  - intros [x [Hx E]]. apply String.eqb_eq in E. now subst.
  - intros H. exists k. split; [exact H | apply String.eqb_refl].
Qed.

Lemma subset_str_incl (a b : list string) :
  subset_str a b = true <-> incl a b.
Proof.
  unfold subset_str, incl. rewrite forallb_forall.
  split; intros H k Hk; apply mem_str_In; auto.
Qed.

(** [set(a) == set(b)] compares membership only: neither order nor
    repetition counts. *)
Lemma set_eq_iff (a b : list string) :
  set_eq a b = true <-> (forall k, In k a <-> In k b).
Proof.
  unfold set_eq. rewrite andb_true_iff, !subset_str_incl. unfold incl.
  split.
  - intros [H1 H2] k. split; auto.
  - intros H. split; intros k; apply H.
Qed.

Lemma dict_set_Forall {V : Type} (P : V -> Prop) (d : dict V) (k : string)
  (v : V) :
  Forall (fun kv => P (snd kv)) d -> P v ->
  Forall (fun kv => P (snd kv)) (dict_set k v d).
Proof.
  intros Hd Hv. induction Hd as [|[k0 v0] r H0 Hr IH]; simpl.
  - now repeat constructor.
  - destruct (String.eqb k k0); constructor; auto.
Qed.

Lemma dict_get_Forall {V : Type} (P : V -> Prop) (d : dict V) (k : string)
  (v : V) :
  Forall (fun kv => P (snd kv)) d -> dict_get k d = Some v -> P v.
Proof.
  intros Hd Hg. apply dict_get_In in Hg.
  rewrite Forall_forall in Hd. exact (Hd _ Hg).
Qed.

End DictFacts.

(** ** The parser on a whole text *)

Module SampleFacts.

Import PyStr GPUMonitor Notions ParseFacts DictFacts.

Lemma parse_line_entry (d : dict info) (line : string) :
  parse_line d line
  = Ok (match entry line with
        | Some (k, r) => dict_set k r d
        | None => d
        end).
Proof.
  unfold entry.
  destruct (parse_line_cases d line)
    as [[Hlen H] | (p0 & p1 & p2 & p3 & p4 & p5 & p6 & extra & Hf & H)].
  - rewrite H.
    destruct (fields line)
      as [|p0 [|p1 [|p2 [|p3 [|p4 [|p5 [|p6 extra]]]]]]];
      try reflexivity.
    simpl in Hlen. lia.
  - rewrite H, Hf. reflexivity.
Qed.

Lemma find_app {A : Type} (p : A -> bool) (a b : list A) :
  find p (a ++ b)
  = match find p a with Some x => Some x | None => find p b end.
Proof.
  induction a as [|x r IH]; simpl; [reflexivity|].
  destruct (p x); [reflexivity | exact IH].
Qed.

(** The loop over the lines, from any dictionary built so far. *)
Lemma parse_lines_spec (lines : list string) :
  forall d : dict info,
    NoDup (keys d) ->
    exists d',
      parse_lines d lines = Ok d'
      /\ NoDup (keys d')
      /\ forall id,
          dict_get id d'
          = match last_record id lines with
            | Some r => Some r
            | None => dict_get id d
            end.
Proof.
  induction lines as [|line rest IH]; intros d Hd.
  - exists d. split; [reflexivity | split; [exact Hd | reflexivity]].
  - simpl parse_lines. rewrite parse_line_entry. simpl bind.
    set (d1 := match entry line with
               | Some (k, r) => dict_set k r d
               | None => d
               end).
    assert (Hd1 : NoDup (keys d1)).
    { subst d1. destruct (entry line) as [[k r]|]; [|exact Hd].
      now apply NoDup_keys_dict_set. }
    destruct (IH d1 Hd1) as (d' & Hp & Hnd & Hget).
    exists d'. split; [exact Hp | split; [exact Hnd|]].
    intros id. rewrite Hget. unfold last_record, entries. simpl flat_map.
    rewrite rev_app_distr, find_app.
    fold (entries rest).
    destruct (find (fun e => String.eqb id (fst e)) (rev (entries rest)))
      as [e|]; [reflexivity|].
    simpl option_map. subst d1.
    destruct (entry line) as [[k r]|]; simpl; [|reflexivity].
    rewrite dict_get_set.
    destruct (String.eqb id k); reflexivity.
Qed.

Lemma parse_gpu_data_spec (data : string) :
  exists sample,
    parse_gpu_data data = Ok sample
    /\ NoDup (keys sample)
    /\ forall id, dict_get id sample = last_record id (lines_of data).
Proof.
  unfold parse_gpu_data. destruct (String.eqb data "") eqn:E.
  - apply String.eqb_eq in E. subst data. exists [].
    split; [reflexivity | split; [constructor | reflexivity]].
  - destruct (parse_lines_spec (lines_of data) [] (NoDup_nil _))
      as (d' & Hp & Hnd & Hget).
    exists d'. split; [exact Hp | split; [exact Hnd|]].
    intros id. rewrite Hget.
    destruct (last_record id (lines_of data)); reflexivity.
Qed.

Lemma parse_lines_all_short (lines : list string) (d : dict info) :
  Forall (fun line => (List.length (fields line) < 7)%nat) lines ->
  parse_lines d lines = Ok d.
Proof.
  induction 1 as [|line rest Hline _ IH]; simpl; [reflexivity|].
  rewrite (parse_line_short d line Hline). exact IH.
Qed.

Lemma parse_lines_stored (lines : list string) :
  forall d : dict info,
    parse_lines d lines = Ok (stored (entries lines) d).
Proof.
  induction lines as [|line rest IH]; intros d; [reflexivity|].
  simpl parse_lines. rewrite parse_line_entry. simpl bind. rewrite IH.
  unfold stored, entries. simpl flat_map. rewrite fold_left_app.
  destruct (entry line) as [[k r]|]; reflexivity.
Qed.

Lemma parse_gpu_data_stored (data : string) :
  parse_gpu_data data = Ok (stored (entries (lines_of data)) []).
Proof.
  unfold parse_gpu_data. destruct (String.eqb data "") eqn:E.
  - apply String.eqb_eq in E. subst data. reflexivity.
  - apply parse_lines_stored.
Qed.

Lemma entry_short (line : string) :
  (List.length (fields line) < 7)%nat -> entry line = None.
Proof.
  unfold entry.
  destruct (fields line)
    as [|p0 [|p1 [|p2 [|p3 [|p4 [|p5 [|p6 extra]]]]]]]; try reflexivity.
  simpl. lia.
Qed.

Lemma entry_long (line p0 p1 p2 p3 p4 p5 p6 : string) (extra : list string) :
  fields line = p0 :: p1 :: p2 :: p3 :: p4 :: p5 :: p6 :: extra ->
  entry line = Some (p0, record p1 p2 p3 p4 p5 p6).
Proof. unfold entry. now intros ->. Qed.

Lemma entry_Some_inv (line id : string) (r : info) :
  entry line = Some (id, r) ->
  exists p1 p2 p3 p4 p5 p6 extra,
    fields line = id :: p1 :: p2 :: p3 :: p4 :: p5 :: p6 :: extra
    /\ r = record p1 p2 p3 p4 p5 p6.
Proof.
  unfold entry.
  destruct (fields line)
    as [|p0 [|p1 [|p2 [|p3 [|p4 [|p5 [|p6 extra]]]]]]]; try discriminate.
  intros [= <- <-]. now exists p1, p2, p3, p4, p5, p6, extra.
Qed.

Lemma In_entries (lines : list string) (e : string * info) :
  In e (entries lines) <-> exists line, In line lines /\ entry line = Some e.
Proof.
  unfold entries. rewrite in_flat_map. split.
  - intros (line & Hl & He). exists line. split; [exact Hl|].
    destruct (entry line) as [e'|]; [|destruct He].
    destruct He as [->|[]]. reflexivity.
  - intros (line & Hl & He). exists line. split; [exact Hl|].
    rewrite He. now left.
Qed.

Lemma last_record_Some (id : string) (lines : list string) (r : info) :
  last_record id lines = Some r -> In (id, r) (entries lines).
Proof.
  unfold last_record.
  destruct (find _ (rev (entries lines))) as [[k v]|] eqn:E; [|discriminate].
  intros [= <-]. apply find_some in E. destruct E as [Hin Hk].
  apply String.eqb_eq in Hk. simpl in Hk. subst k.
  now apply in_rev.
Qed.

Lemma last_record_None (id : string) (lines : list string) (r : info) :
  last_record id lines = None -> ~ In (id, r) (entries lines).
Proof.
  unfold last_record.
  destruct (find _ (rev (entries lines))) as [[k v]|] eqn:E; [discriminate|].
  intros _ Hin. apply in_rev in Hin.
  pose proof (find_none _ _ E _ Hin) as H. simpl in H.
  now rewrite String.eqb_refl in H.
Qed.

(** The ids of a sample are those of the lines of seven fields or more,
    and each record is the record of such a line. *)
Lemma sample_of_lines (data : string) (sample : dict info) :
  parse_gpu_data data = Ok sample ->
  (forall id,
      In id (keys sample)
      <-> exists line p1 p2 p3 p4 p5 p6 extra,
          In line (lines_of data)
          /\ fields line = id :: p1 :: p2 :: p3 :: p4 :: p5 :: p6 :: extra)
  /\ (forall id r,
        dict_get id sample = Some r ->
        exists line p1 p2 p3 p4 p5 p6 extra,
          In line (lines_of data)
          /\ fields line = id :: p1 :: p2 :: p3 :: p4 :: p5 :: p6 :: extra
          /\ r = record p1 p2 p3 p4 p5 p6).
Proof.
  intros Hs. destruct (parse_gpu_data_spec data) as (s & Hs' & _ & Hget).
  assert (s = sample) by congruence. subst s. clear Hs'.
  assert (Hrec : forall id r,
             dict_get id sample = Some r ->
             exists line p1 p2 p3 p4 p5 p6 extra,
               In line (lines_of data)
               /\ fields line
                  = id :: p1 :: p2 :: p3 :: p4 :: p5 :: p6 :: extra
               /\ r = record p1 p2 p3 p4 p5 p6).
  { intros id r Hg. rewrite Hget in Hg.
    apply last_record_Some, In_entries in Hg.
    destruct Hg as (line & Hl & He).
    destruct (entry_Some_inv _ _ _ He)
      as (p1 & p2 & p3 & p4 & p5 & p6 & extra & Hf & Hr).
    now exists line, p1, p2, p3, p4, p5, p6, extra. }
  split; [|exact Hrec].
  intros id. split.
  - intros Hin. destruct (In_keys_get _ _ Hin) as (r & Hg).
    destruct (Hrec id r Hg)
      as (line & p1 & p2 & p3 & p4 & p5 & p6 & extra & Hl & Hf & _).
    now exists line, p1, p2, p3, p4, p5, p6, extra.
  - intros (line & p1 & p2 & p3 & p4 & p5 & p6 & extra & Hl & Hf).
    destruct (dict_get id sample) as [r|] eqn:Hg;
      [eapply dict_get_Some_key; exact Hg|].
    exfalso. rewrite Hget in Hg.
    apply (last_record_None id (lines_of data) (record p1 p2 p3 p4 p5 p6) Hg).
    apply In_entries. exists line. split; [exact Hl|].
    eapply entry_long; exact Hf.
Qed.

(** C3. [parse_gpu_data] returns a sample for every text and raises
    nothing: the empty text and a text without a single complete line
    give the empty sample; a line of fewer than seven comma-separated
    fields leaves the sample alone, and a line of seven or more sets the
    record of its first field from the six fields after it, the fields
    past the seventh playing no part.  The sample returned is the one
    these steps build over the lines of the text, in order: its ids are
    exactly the first fields of the lines of seven fields or more, and
    each of its records is the record of such a line. *)
Theorem C3_parse_is_total :
  (forall data, exists sample, parse_gpu_data data = Ok sample)
  /\ parse_gpu_data "" = Ok []
  /\ (forall data,
        Forall (fun line => (List.length (fields line) < 7)%nat)
               (lines_of data) ->
        parse_gpu_data data = Ok [])
  /\ (forall d line,
        (List.length (fields line) < 7)%nat -> parse_line d line = Ok d)
  /\ (forall d line p0 p1 p2 p3 p4 p5 p6 extra,
        fields line = p0 :: p1 :: p2 :: p3 :: p4 :: p5 :: p6 :: extra ->
        parse_line d line
        = Ok (dict_set p0 (record p1 p2 p3 p4 p5 p6) d))
  /\ (forall data lines,
        parse_gpu_data data = Ok (stored (entries (lines_of data)) [])
        /\ parse_lines [] lines = Ok (stored (entries lines) []))
  /\ (forall line,
        (List.length (fields line) < 7)%nat -> entry line = None)
  /\ (forall line p0 p1 p2 p3 p4 p5 p6 extra,
        fields line = p0 :: p1 :: p2 :: p3 :: p4 :: p5 :: p6 :: extra ->
        entry line = Some (p0, record p1 p2 p3 p4 p5 p6))
  /\ (forall data sample,
        parse_gpu_data data = Ok sample ->
        (forall id,
            In id (keys sample)
            <-> exists line p1 p2 p3 p4 p5 p6 extra,
                In line (lines_of data)
                /\ fields line
                   = id :: p1 :: p2 :: p3 :: p4 :: p5 :: p6 :: extra)
        /\ (forall id r,
              dict_get id sample = Some r ->
              exists line p1 p2 p3 p4 p5 p6 extra,
                In line (lines_of data)
                /\ fields line
                   = id :: p1 :: p2 :: p3 :: p4 :: p5 :: p6 :: extra
                /\ r = record p1 p2 p3 p4 p5 p6)).
Proof.
  split; [|split; [|split; [|split; [|split; [|split; [|split; [|split]]]]]]].
  - intros data. destruct (parse_gpu_data_spec data) as (s & Hs & _).
    now exists s.
  - reflexivity.
  - intros data H. unfold parse_gpu_data.
    destruct (String.eqb data ""); [reflexivity|].
    now apply parse_lines_all_short.
  - exact parse_line_short.
  - exact parse_line_long.
  - intros data lines.
    split; [apply parse_gpu_data_stored | apply parse_lines_stored].
  - exact entry_short.
  - exact entry_long.
  - exact sample_of_lines.
Qed.

(** A line of three fields, a text without one complete line, and a text
    whose second line has eight fields. *)
Lemma C3_witness :
  parse_line [] "0, A, 50" = Ok []
  /\ parse_gpu_data (unlines ["no such device"; ""; "1, 2, 3"]) = Ok []
  /\ exists sample,
      parse_gpu_data (unlines ["bad line"; "7, G, 50, 10, 100, 200, 5, more"])
      = Ok sample
      /\ In "7" (keys sample).
Proof.
  destruct C3_parse_is_total
    as (Htotal & _ & Hshort & Hline & _ & _ & _ & _ & Hsample).
  split; [|split].
  - apply (Hline [] "0, A, 50"). vm_compute. lia.
  - apply Hshort. vm_compute. repeat constructor.
  - destruct (Htotal (unlines ["bad line";
                               "7, G, 50, 10, 100, 200, 5, more"]))
      as (sample & Hs).
    exists sample. split; [exact Hs|].
    apply (proj1 (Hsample _ sample Hs) "7").
    exists "7, G, 50, 10, 100, 200, 5, more".
    exists "G". exists "50". exists "10". exists "100". exists "200".
    exists "5". exists ["more"].
    split; [vm_compute; auto | reflexivity].
Defined.

(** C10. Whatever the text, the sample holds each id once, and the record
    under an id is the one of the last line of seven or more fields that
    carries it: later lines overwrite earlier ones, no error is raised,
    and the lines of other ids have no bearing on it. *)
Theorem C10_last_line_wins (data : string) :
  exists sample,
    parse_gpu_data data = Ok sample
    /\ NoDup (keys sample)
    /\ forall id, dict_get id sample = last_record id (lines_of data).
Proof.
  exact (parse_gpu_data_spec data).
Qed.

End SampleFacts.

(** ** What [_update_gpu_card] writes *)

Module CardFacts.

Import PyStr GPUMonitor Notions.

Lemma mem_total_i_eq (i : info) :
  (let mem_total := match memory_total i with Some v => v | None => 0 end in
   if 0 <? mem_total then mem_total else 0) = mem_total_i i.
Proof.
  unfold mem_total_i. destruct (memory_total i); reflexivity.
Qed.

(** The utilization widgets are written before anything can raise. *)
Lemma update_util (w : card) (i : info) :
  util_bar (fst (_update_gpu_card w i)) = Z.max 0 (Z.min (util_val i) 100)
  /\ util_label (fst (_update_gpu_card w i))
     = (of_int (util_val i) ++ "%")%string.
Proof.
  unfold _update_gpu_card, util_val.
  destruct (mem_pct _ _); [destruct (float_of_power _)|]; split; reflexivity.
Qed.

Lemma update_temp (w : card) (i : info) :
  temp_style (fst (_update_gpu_card w i)) = get_temp_style (temperature i)
  /\ temp_text (fst (_update_gpu_card w i))
     = match temperature i with
       | Some t => (of_int t ++ deg_C)%string
       | None => ("--" ++ deg_C)%string
       end.
Proof.
  unfold _update_gpu_card.
  destruct (mem_pct _ _); [destruct (float_of_power _)|];
    destruct (temperature i); split; reflexivity.
Qed.

(** The frame of a card (id, name, grid row) is never rewritten. *)
Lemma update_frame (w : card) (i : info) :
  frame_id (fst (_update_gpu_card w i)) = frame_id w
  /\ frame_name (fst (_update_gpu_card w i)) = frame_name w
  /\ frame_row (fst (_update_gpu_card w i)) = frame_row w.
Proof.
  unfold _update_gpu_card.
  destruct (mem_pct _ _); [destruct (float_of_power _)|];
    destruct (temperature i); repeat split; reflexivity.
Qed.

(** When the memory percentage is computed, the call completes and has
    written the memory and the power widgets. *)
Lemma update_completes (w : card) (i : info) (pct : Z) :
  mem_pct (mem_used_i i) (mem_total_i i) = Ok pct ->
  snd (_update_gpu_card w i) = None
  /\ mem_bar (fst (_update_gpu_card w i)) = Z.max 0 (Z.min pct 100)
  /\ mem_label (fst (_update_gpu_card w i))
     = (of_int (mem_used_i i) ++ " / " ++ of_int (mem_total_i i)
        ++ " MB (" ++ of_int pct ++ "%)")%string
  /\ power_label (fst (_update_gpu_card w i))
     = match power_draw i with
       | Some power_f => (PyFloat.format_2f power_f ++ " W")%string
       | None => "-- W"
       end.
Proof.
  intros H. unfold _update_gpu_card.
  rewrite mem_total_i_eq. fold (mem_used_i i). rewrite H.
  destruct (power_draw i); repeat split; reflexivity.
Qed.

Lemma update_raises (w : card) (i : info) (e : exn) :
  mem_pct (mem_used_i i) (mem_total_i i) = Raise e ->
  snd (_update_gpu_card w i) = Some e
  /\ mem_bar (fst (_update_gpu_card w i)) = mem_bar w
  /\ mem_label (fst (_update_gpu_card w i)) = mem_label w
  /\ power_label (fst (_update_gpu_card w i)) = power_label w.
Proof.
  intros H. unfold _update_gpu_card.
  rewrite mem_total_i_eq. fold (mem_used_i i). rewrite H.
  destruct (temperature i); repeat split; reflexivity.
Qed.

End CardFacts.


(** ** Temperature bands and the utilization bar *)

Module DisplayFacts.

Import PyStr GPUMonitor Notions CardFacts ParseFacts DictFacts.

(** C9. The style [get_temp_style] picks stands for the band the
    specification names: Unknown without a temperature, Nominal below 70,
    Warning from 70 to 79, Critical from 80 on; [_update_gpu_card] shows a
    record under the style of its temperature; 75 is Warning and 85 is
    Critical. *)
Theorem C9_temperature_bands :
  (forall t : option Z,
      severity_of_style (get_temp_style t) = Some (band_spec t))
  /\ (forall w i,
        severity_of_style (temp_style (fst (_update_gpu_card w i)))
        = Some (band_spec (temperature i)))
  /\ severity_of_style (get_temp_style (Some 75)) = Some Warning
  /\ severity_of_style (get_temp_style (Some 85)) = Some Critical.
Proof.
  assert (H : forall t : option Z,
             severity_of_style (get_temp_style t) = Some (band_spec t)).
  { intros [t|]; [|reflexivity]. unfold get_temp_style, band_spec.
    destruct (80 <=? t) eqn:E80; destruct (70 <=? t) eqn:E70;
      destruct (t <? 70) eqn:L70; destruct (t <=? 79) eqn:L79;
      try reflexivity;
      rewrite ?Z.leb_le, ?Z.leb_gt, ?Z.ltb_lt, ?Z.ltb_ge in *; lia. }
  split; [exact H|]. split; [|split; reflexivity].
  intros w i. destruct (update_temp w i) as [-> _]. apply H.
Qed.

(** C2, as the code has it.  The parser stores the truncated utilization
    as it is, whatever its size; the clamp into [0, 100] is applied when a
    card is updated, and to the bar only: the bar shows [max(0, min(u,
    100))], so 100 for a reading of 100 or more and 0 for a reading of 0 or
    less, while the label beside it prints the reading itself. *)
Theorem C2_utilization_clamped_on_the_bar :
  (forall d line p0 p1 p2 p3 p4 p5 p6 extra,
      fields line = p0 :: p1 :: p2 :: p3 :: p4 :: p5 :: p6 :: extra ->
      exists r,
        parse_line d line = Ok (dict_set p0 r d)
        /\ utilization r = to_int p3)
  /\ (forall w i, 0 <= util_bar (fst (_update_gpu_card w i)) <= 100)
  /\ (forall w i u,
        utilization i = Some u ->
        util_bar (fst (_update_gpu_card w i)) = Z.max 0 (Z.min u 100)
        /\ util_label (fst (_update_gpu_card w i))
           = (of_int u ++ "%")%string)
  /\ (forall w i u,
        utilization i = Some u -> 100 <= u ->
        util_bar (fst (_update_gpu_card w i)) = 100)
  /\ (forall w i u,
        utilization i = Some u -> u <= 0 ->
        util_bar (fst (_update_gpu_card w i)) = 0).
Proof.
  split; [|split; [|split; [|split]]].
  - intros d line p0 p1 p2 p3 p4 p5 p6 extra H.
    exists (record p1 p2 p3 p4 p5 p6).
    split; [eapply parse_line_long; exact H | reflexivity].
  - intros w i. destruct (update_util w i) as [-> _]. lia.
  - intros w i u H. destruct (update_util w i) as [-> ->].
    unfold util_val. rewrite H. split; reflexivity.
  - intros w i u H Hu. destruct (update_util w i) as [-> _].
    unfold util_val. rewrite H. lia.
  - intros w i u H Hu. destruct (update_util w i) as [-> _].
    unfold util_val. rewrite H. lia.
Qed.

(** A reading of 150 on the bar of any card. *)
Lemma C2_witness :
  util_bar (fst (_update_gpu_card blank_card
                   (mk_info (Some "A") None (Some 150) None None None)))
  = 100.
Proof.
  apply (proj1 (proj2 (proj2 (proj2 C2_utilization_clamped_on_the_bar)))
           blank_card _ 150).
  - reflexivity.
  - lia.
Defined.

(** The samples a text of out-of-range utilizations parses to: 150 and
    -5 are stored, not 100 and 0. *)
Lemma C2_counterexample :
  exists sample,
    parse_gpu_data
      (unlines ["0, A, 50, 150, 10, 20, 5"; "1, B, 50, -5, 10, 20, 5"])
    = Ok sample
    /\ map (fun kv => utilization (snd kv)) sample = [Some 150; Some (-5)].
Proof.
  eexists. split; vm_compute; reflexivity.
Qed.

End DisplayFacts.

(** ** Fields that do not parse *)

Module CoercionFacts.

Import PyStr GPUMonitor Notions CardFacts ParseFacts DictFacts FloatFacts.

Lemma round_not_nan (neg : bool) (n d : Z) :
  PyFloat.round neg n d <> PyFloat.Nan.
Proof.
  unfold PyFloat.round. destruct (n =? 0); [discriminate|].
  destruct (PyFloat.times_pow2 _ _ _) as [n' d'].
  destruct (_ =? _); destruct (_ <? _); discriminate.
Qed.

(** The memory percentage raises nothing but an [OverflowError]. *)
Lemma mem_pct_raises (a b : Z) (e : exn) :
  mem_pct a b = Raise e -> e = OverflowError /\ 2 ^ 1000 <= Z.abs a.
Proof.
  intros H. split.
  - revert H. unfold mem_pct, PyFloat.int_truediv.
    destruct (b =? 0); [discriminate|]. intros H.
    pose proof (round_not_nan (xorb (a <? 0) (b <? 0)) (Z.abs a) (Z.abs b))
      as Hn.
    destruct (PyFloat.round _ _ _) as [|s|s m x]; [congruence| |].
    + simpl in H. congruence.
    + cbn [bind] in H. rewrite of_int_100 in H. cbn [bind] in H.
      unfold hundred, PyFloat.mul, PyFloat.round_pow2 in H.
      destruct (PyFloat.times_pow2 _ _ _) as [n' d'].
      pose proof (round_not_nan (xorb s false) n' d') as Hn'.
      destruct (PyFloat.round _ _ _); simpl in H; congruence.
  - destruct (Z_lt_le_dec (Z.abs a) (2 ^ 1000)) as [Hlt|Hle]; [|exact Hle].
    destruct (mem_pct_returns a b Hlt) as (p & Hp). congruence.
Qed.

Lemma update_card_raises (w : card) (i : info) (e : exn) :
  snd (_update_gpu_card w i) = Some e ->
  mem_pct (mem_used_i i) (mem_total_i i) = Raise e.
Proof.
  destruct (mem_pct (mem_used_i i) (mem_total_i i)) as [pct|e'] eqn:E.
  - destruct (update_completes w i pct E) as (H & _). congruence.
  - destruct (update_raises w i e' E) as (H & _). congruence.
Qed.




(** C8, as the code has it.  A power field that does not parse is stored
    as [None], which is not a reading of zero watts.  A card shows an
    absent power as "-- W" when it is created and whenever an update of
    it completes; the update completes for every memory reading below
    2^1000 in magnitude.  An update raises only an [OverflowError], in
    the memory line and for a reading of 2^1000 or more; it then leaves
    the power label as it was, whatever it read.  A power that is
    present is shown by its value, a reading of zero as "0.00 W", which
    "-- W" is not. *)
Theorem C8_unparsable_power_is_unknown :
  forall d line p0 p1 p2 p3 p4 p5 p6 extra,
    fields line = p0 :: p1 :: p2 :: p3 :: p4 :: p5 :: p6 :: extra ->
    to_float p6 = None ->
    exists r,
      parse_line d line = Ok (dict_set p0 r d)
      /\ power_draw r = None
      /\ power_draw r <> Some zero_watts
      /\ (forall row, power_label (_create_gpu_card p0 r row) = "-- W")
      /\ (forall w,
            snd (_update_gpu_card w r) = None ->
            power_label (fst (_update_gpu_card w r)) = "-- W")
      /\ (forall w,
            Z.abs (mem_used_i r) < 2 ^ 1000 ->
            snd (_update_gpu_card w r) = None
            /\ power_label (fst (_update_gpu_card w r)) = "-- W")
      /\ (forall w e,
            snd (_update_gpu_card w r) = Some e ->
            e = OverflowError
            /\ 2 ^ 1000 <= Z.abs (mem_used_i r)
            /\ power_label (fst (_update_gpu_card w r)) = power_label w)
      /\ (forall w i watts,
            power_draw i = Some watts ->
            snd (_update_gpu_card w i) = None ->
            power_label (fst (_update_gpu_card w i))
            = (PyFloat.format_2f watts ++ " W")%string)
      /\ (PyFloat.format_2f zero_watts ++ " W")%string = "0.00 W"
      /\ "-- W" <> "0.00 W".
Proof.
  intros d line p0 p1 p2 p3 p4 p5 p6 extra H E.
  exists (record p1 p2 p3 p4 p5 p6).
  split; [eapply parse_line_long; exact H|].
  assert (P : power_draw (record p1 p2 p3 p4 p5 p6) = None) by exact E.
  split; [exact P|]. split; [rewrite P; discriminate|].
  split; [reflexivity|]. split; [|split; [|split; [|split; [|split]]]].
  - intros w Hs.
    destruct (mem_pct (mem_used_i (record p1 p2 p3 p4 p5 p6))
                      (mem_total_i (record p1 p2 p3 p4 p5 p6)))
      as [pct|e] eqn:Hp.
    + destruct (update_completes w _ pct Hp) as (_ & _ & _ & Hl).
      now rewrite Hl, P.
    + destruct (update_raises w _ e Hp) as (Hs' & _). congruence.
  - intros w Hm.
    destruct (mem_pct_returns _ (mem_total_i (record p1 p2 p3 p4 p5 p6)) Hm)
      as [pct Hp].
    destruct (update_completes w _ pct Hp) as (Hs & _ & _ & Hl).
    rewrite Hs, Hl, P. split; reflexivity.
  - intros w e Hs.
    pose proof (update_card_raises w _ e Hs) as Hp.
    destruct (mem_pct_raises _ _ _ Hp) as (He & Hb).
    destruct (update_raises w _ e Hp) as (_ & _ & _ & Hl).
    split; [exact He|]. split; [exact Hb|exact Hl].
  - intros w i watts Hw Hs.
    destruct (mem_pct (mem_used_i i) (mem_total_i i)) as [pct|e] eqn:Hp.
    + destruct (update_completes w i pct Hp) as (_ & _ & _ & Hl).
      now rewrite Hl, Hw.
    + destruct (update_raises w i e Hp) as (Hs' & _). congruence.
  - vm_compute. reflexivity.
  - discriminate.
Qed.

(** The line of a GPU that reports no power draw. *)
Lemma C8_witness :
  exists r,
    parse_line [] "0, A, 50, 10, 100, 200, [N/A]" = Ok (dict_set "0" r [])
    /\ power_draw r = None
    /\ power_draw r <> Some zero_watts
    /\ (forall row, power_label (_create_gpu_card "0" r row) = "-- W")
    /\ (forall w,
          snd (_update_gpu_card w r) = None ->
          power_label (fst (_update_gpu_card w r)) = "-- W")
    /\ (forall w,
          Z.abs (mem_used_i r) < 2 ^ 1000 ->
          snd (_update_gpu_card w r) = None
          /\ power_label (fst (_update_gpu_card w r)) = "-- W")
    /\ (forall w e,
          snd (_update_gpu_card w r) = Some e ->
          e = OverflowError
          /\ 2 ^ 1000 <= Z.abs (mem_used_i r)
          /\ power_label (fst (_update_gpu_card w r)) = power_label w)
    /\ (forall w i watts,
          power_draw i = Some watts ->
          snd (_update_gpu_card w i) = None ->
          power_label (fst (_update_gpu_card w i))
          = (PyFloat.format_2f watts ++ " W")%string)
    /\ (PyFloat.format_2f zero_watts ++ " W")%string = "0.00 W"
    /\ "-- W" <> "0.00 W".
Proof.
  apply (C8_unparsable_power_is_unknown
           [] "0, A, 50, 10, 100, 200, [N/A]"
           "0" "A" "50" "10" "100" "200" "[N/A]" []).
  - vm_compute. reflexivity.
  - vm_compute. reflexivity.
Defined.

(** A reading of zero watts is shown; the next line of the same GPU has
    no power and a memory reading of 1e308: the update in place raises
    before the power label, which still reads "0.00 W". *)
Lemma C8_counterexample :
  exists r0 r1 cards w,
    parse_gpu_data "0, A, 50, 10, 100, 200, 0" = Ok [("0", r0)]
    /\ power_draw r0 = Some zero_watts
    /\ build_or_update_dashboard [("0", r0)] [] = (cards, None)
    /\ parse_gpu_data "0, A, 50, 10, 1e308, 1, [N/A]" = Ok [("0", r1)]
    /\ power_draw r1 = None
    /\ gpu_set_changed cards [("0", r1)] = false
    /\ build_or_update_dashboard [("0", r1)] cards
       = ([("0", w)], Some OverflowError)
    /\ power_label w = "0.00 W".
Proof.
  do 4 eexists.
  split; [vm_compute; reflexivity|].
  split; [reflexivity|].
  split; [vm_compute; reflexivity|].
  split; [vm_compute; reflexivity|].
  split; [reflexivity|].
  split; [reflexivity|].
  split; [vm_compute; reflexivity|].
  reflexivity.
Qed.

End CoercionFacts.

(** ** The monitoring loop *)

Module LoopFacts.

Import GPUMonitor Notions.





End LoopFacts.

(** ** Sorting the ids *)

Module SortFacts.

Import Notions.

Lemma insert_by_key_perm (x : Z * string) (l : list (Z * string)) :
  Permutation (x :: l) (insert_by_key x l).
Proof.
  induction l as [|y r IH]; simpl; [apply Permutation_refl|].
  destruct (fst x <=? fst y); [apply Permutation_refl|].
  apply perm_trans with (y :: x :: r); [apply perm_swap|].
  now apply perm_skip.
Qed.

Lemma sort_by_key_perm (l : list (Z * string)) :
  Permutation l (sort_by_key l).
Proof.
  induction l as [|x r IH]; simpl; [apply perm_nil|].
  apply perm_trans with (x :: sort_by_key r); [now apply perm_skip|].
  apply insert_by_key_perm.
Qed.

Lemma insert_by_key_sorted (x : Z * string) (l : list (Z * string)) :
  StronglySorted key_le l -> StronglySorted key_le (insert_by_key x l).
Proof.
  induction 1 as [|y r Hs IH Hy]; simpl.
  - constructor; constructor.
  - destruct (fst x <=? fst y) eqn:E.
    + apply Z.leb_le in E. constructor.
      * now constructor.
      * constructor; [exact E|].
        eapply Forall_impl; [|exact Hy].
        unfold key_le. intros z Hz. lia.
    + apply Z.leb_gt in E. constructor; [exact IH|].
      eapply Permutation_Forall; [apply insert_by_key_perm|].
      constructor; [unfold key_le; lia | exact Hy].
Qed.

Lemma sort_by_key_sorted (l : list (Z * string)) :
  StronglySorted key_le (sort_by_key l).
Proof.
  induction l as [|x r IH]; simpl; [constructor|].
  now apply insert_by_key_sorted.
Qed.

Lemma mapM_ok {A B : Type} (f : A -> result B) (g : A -> B) (l : list A) :
  Forall (fun a => f a = Ok (g a)) l -> mapM f l = Ok (map g l).
Proof.
  induction 1 as [|a r Ha _ IH]; simpl; [reflexivity|].
  rewrite Ha. simpl. rewrite IH. reflexivity.
Qed.

Lemma mapM_raises {A B : Type} (f : A -> result B) (l : list A) (a : A)
  (e : exn) :
  In a l -> f a = Raise e -> exists e', mapM f l = Raise e'.
Proof.
  induction l as [|b r IH]; simpl; [tauto|].
  intros [-> | Hin] Ha.
  - rewrite Ha. simpl. eauto.
  - destruct (f b); simpl; [|eauto].
    destruct (IH Hin Ha) as [e' ->]. simpl. eauto.
Qed.

Lemma sorted_map_snd (l : list (Z * string)) :
  Forall (fun x => fst x = int_value (snd x)) l ->
  StronglySorted key_le l -> ascending (map snd l).
Proof.
  intros Hf Hs. induction Hs as [|x r Hs IH Hx]; simpl; [constructor|].
  inversion Hf as [|? ? Hx0 Hr]; subst.
  constructor; [now apply IH|].
  rewrite Forall_map. rewrite Forall_forall in *.
  intros y Hy. unfold key_le in Hx.
  rewrite <- Hx0, <- (Hr y Hy). now apply Hx.
Qed.

(** [sorted(keys, key=int)] on ids that [int] accepts: the same ids, in
    ascending numeric order. *)
Lemma sorted_by_int_ok (ks : list string) :
  Forall numeric ks ->
  exists ids,
    sorted_by_int ks = Ok ids /\ Permutation ks ids /\ ascending ids.
Proof.
  intros H. unfold sorted_by_int.
  rewrite (mapM_ok _ (fun k => (int_value k, k))).
  - simpl bind. eexists. split; [reflexivity|]. split.
    + assert (E : map snd (map (fun k => (int_value k, k)) ks) = ks)
        by (rewrite map_map; apply map_id).
      rewrite <- E at 1. apply Permutation_map, sort_by_key_perm.
    + apply sorted_map_snd; [|apply sort_by_key_sorted].
      eapply Permutation_Forall; [apply sort_by_key_perm|].
      rewrite Forall_map. apply Forall_forall. reflexivity.
  - eapply Forall_impl; [|exact H].
    intros k [n Hn]. unfold int_value. rewrite Hn. reflexivity.
Qed.

Lemma sorted_by_int_raises (ks : list string) (k : string) (e : exn) :
  In k ks -> PyInt.of_str k = Raise e ->
  exists e', sorted_by_int ks = Raise e'.
Proof.
  intros Hin Hk. unfold sorted_by_int.
  destruct (mapM_raises (fun k => n <- PyInt.of_str k ;; Ok (n, k)) ks k e Hin)
    as [e' ->]; [rewrite Hk; reflexivity|].
  simpl. eauto.
Qed.

End SortFacts.

(** ** The two loops of the dashboard *)

Module DashboardFacts.

Import PyStr GPUMonitor Notions DictFacts CardFacts FloatFacts SortFacts.

Lemma keys_created (gpu_data : dict info) (ids : list string) (row : Z) :
  keys (created gpu_data ids row) = ids.
Proof.
  revert row. induction ids as [|id rest IH]; intros row; simpl;
    [reflexivity | now rewrite IH].
Qed.

Lemma create_cards_eq (gpu_data : dict info) (ids : list string) :
  forall (row : Z) (gpu_cards : dict card),
    NoDup ids ->
    (forall id, In id ids -> ~ In id (keys gpu_cards)) ->
    create_cards gpu_data ids row gpu_cards
    = gpu_cards ++ created gpu_data ids row.
Proof.
  induction ids as [|id rest IH]; intros row gpu_cards Hnd Hdis; simpl.
  - now rewrite app_nil_r.
  - inversion Hnd as [|? ? Hid Hrest]; subst.
    rewrite dict_set_absent by (apply Hdis; now left).
    rewrite IH; [now rewrite <- app_assoc | exact Hrest |].
    intros k Hk. unfold keys. rewrite map_app, in_app_iff. simpl.
    intros [H | [H | []]].
    + apply (Hdis k); [now right | exact H].
    + subst. contradiction.
Qed.

Lemma dict_get_created (gpu_data : dict info) (ids : list string) :
  forall (row : Z) (j : nat) (id : string),
    NoDup ids ->
    nth_error ids j = Some id ->
    dict_get id (created gpu_data ids row)
    = Some (_create_gpu_card id (data_at gpu_data id) (row + Z.of_nat j)).
Proof.
  induction ids as [|k rest IH]; intros row j id Hnd Hj.
  - destruct j; discriminate.
  - inversion Hnd as [|? ? Hk Hrest]; subst. destruct j as [|j]; simpl in *.
    + injection Hj as ->. rewrite String.eqb_refl. do 2 f_equal. lia.
    + destruct (String.eqb id k) eqn:E.
      * apply String.eqb_eq in E. subst. apply nth_error_In in Hj.
        contradiction.
      * rewrite (IH (row + 1) j id Hrest Hj). do 2 f_equal. lia.
Qed.

Lemma renders_update (w : card) (i : info) :
  renders i -> snd (_update_gpu_card w i) = None.
Proof.
  intros [pct H]. now destruct (update_completes w i pct H).
Qed.

(** The update loop when every record renders: each card that has a
    record is updated with it, in place. *)
Lemma update_cards_all (items : dict info) :
  forall gpu_cards : dict card,
    NoDup (keys items) ->
    (forall id i, In (id, i) items -> renders i) ->
    exists cards',
      update_cards items gpu_cards = (cards', None)
      /\ keys cards' = keys gpu_cards
      /\ forall id,
          dict_get id cards'
          = match dict_get id gpu_cards, dict_get id items with
            | Some w, Some i => Some (fst (_update_gpu_card w i))
            | o, _ => o
            end.
Proof.
  induction items as [|[id0 i0] rest IH]; intros gpu_cards Hnd Hr.
  - exists gpu_cards. split; [reflexivity|]. split; [reflexivity|].
    intros id. simpl. now destruct (dict_get id gpu_cards).
  - inversion Hnd as [|? ? Hid Hrest]; subst.
    assert (Hr' : forall id i, In (id, i) rest -> renders i)
      by (intros id i H; apply (Hr id i); now right).
    simpl update_cards.
    destruct (dict_get id0 gpu_cards) as [w|] eqn:E0.
    + pose proof (renders_update w i0 (Hr id0 i0 (or_introl eq_refl))) as Hn.
      destruct (_update_gpu_card w i0) as [w' e] eqn:Eu. simpl in Hn.
      subst e.
      destruct (IH (dict_set id0 w' gpu_cards) Hrest Hr')
        as (cards' & Hu & Hk & Hg).
      exists cards'. split; [exact Hu|]. split.
      * rewrite Hk. apply keys_dict_set_present.
        eapply dict_get_Some_key; exact E0.
      * intros id. rewrite Hg, dict_get_set. simpl dict_get.
        destruct (String.eqb id id0) eqn:E.
        -- apply String.eqb_eq in E. subst id.
           rewrite E0.
           replace (dict_get id0 rest) with (@None info)
             by (symmetry; now apply dict_get_None).
           now rewrite Eu.
        -- reflexivity.
    + destruct (IH gpu_cards Hrest Hr') as (cards' & Hu & Hk & Hg).
      exists cards'. split; [exact Hu|]. split; [exact Hk|].
      intros id. rewrite Hg. simpl dict_get.
      destruct (String.eqb id id0) eqn:E; [|reflexivity].
      apply String.eqb_eq in E. subst id. now rewrite E0.
Qed.

Lemma gpu_set_changed_iff (gpu_cards : dict card) (gpu_data : dict info) :
  gpu_set_changed gpu_cards gpu_data = true
  <-> ~ (forall id, In id (keys gpu_cards) <-> In id (keys gpu_data)).
Proof.
  unfold gpu_set_changed. rewrite negb_true_iff.
  rewrite <- set_eq_iff. now destruct (set_eq _ _).
Qed.

End DashboardFacts.

(** ** Rebuild or update *)

Module ReconcileFacts.

Import PyStr GPUMonitor Notions.
Import DictFacts CardFacts FloatFacts SortFacts DashboardFacts SampleFacts.

Lemma bounded_renders (sample : dict info) :
  bounded_memory sample -> forall id i, In (id, i) sample -> renders i.
Proof.
  intros H id i Hin. apply mem_pct_returns. exact (H id i Hin).
Qed.

Lemma parsed_NoDup (text : string) (sample : dict info) :
  parse_gpu_data text = Ok sample -> NoDup (keys sample).
Proof.
  intros H. destruct (parse_gpu_data_spec text) as (s & Hs & Hnd & _).
  congruence.
Qed.

(** C1, as the code has it.  The dashboard is rebuilt exactly when the
    ids of the cards and the ids of the sample differ as sets, whatever
    their order.  For a parsed sample whose ids [int] accepts and whose
    memory readings stay below 2^1000, the call returns; on a rebuild the
    cards are the ids of the sample in ascending numeric order, the card
    in row [j] being the one created for the [j]-th id and updated with
    its record; otherwise the cards keep their order and every card is
    updated in place with the sample's record for its id. *)
Theorem C1_rebuild_or_update :
  (forall gpu_cards sample,
      gpu_set_changed gpu_cards sample = true
      <-> ~ (forall id, In id (keys gpu_cards) <-> In id (keys sample)))
  /\ (forall text sample gpu_cards,
        parse_gpu_data text = Ok sample ->
        Forall numeric (keys sample) ->
        bounded_memory sample ->
        exists cards',
          build_or_update_dashboard sample gpu_cards = (cards', None)
          /\ (gpu_set_changed gpu_cards sample = true ->
              Permutation (keys sample) (keys cards')
              /\ ascending (keys cards')
              /\ forall j id,
                  nth_error (keys cards') j = Some id ->
                  exists i w,
                    dict_get id sample = Some i
                    /\ dict_get id cards' = Some w
                    /\ w = fst (_update_gpu_card
                                  (_create_gpu_card id i (Z.of_nat j)) i)
                    /\ frame_row w = Z.of_nat j)
          /\ (gpu_set_changed gpu_cards sample = false ->
              keys cards' = keys gpu_cards
              /\ forall id w,
                  dict_get id gpu_cards = Some w ->
                  exists i,
                    dict_get id sample = Some i
                    /\ dict_get id cards'
                       = Some (fst (_update_gpu_card w i)))).
Proof.
  split; [exact gpu_set_changed_iff|].
  intros text sample gpu_cards Hparse Hnum Hmem.
  pose proof (parsed_NoDup text sample Hparse) as Hnd.
  pose proof (bounded_renders sample Hmem) as Hr.
  unfold build_or_update_dashboard.
  destruct (gpu_set_changed gpu_cards sample) eqn:Ech.
  - destruct (sorted_by_int_ok (keys sample) Hnum) as (ids & -> & Hp & Ha).
    assert (Hids : NoDup ids) by (eapply Permutation_NoDup; eassumption).
    rewrite (create_cards_eq sample ids 0 [] Hids) by (intros ? _ []).
    simpl app.
    destruct (update_cards_all sample (created sample ids 0) Hnd Hr)
      as (cards' & Hu & Hk & Hg).
    rewrite keys_created in Hk.
    exists cards'. split; [exact Hu|]. split; [|discriminate].
    intros _. rewrite Hk. split; [exact Hp|]. split; [exact Ha|].
    intros j id Hj.
    assert (Hin : In id (keys sample)).
    { eapply Permutation_in; [apply Permutation_sym; exact Hp|].
      eapply nth_error_In; exact Hj. }
    destruct (In_keys_get sample id Hin) as [i Hi].
    exists i. eexists. split; [exact Hi|].
    split; [|split; [reflexivity|]].
    + rewrite Hg, (dict_get_created sample ids 0 j id Hids Hj), Hi.
      unfold data_at. rewrite Hi. reflexivity.
    + now destruct (update_frame (_create_gpu_card id i (Z.of_nat j)) i)
        as (_ & _ & ->).
  - destruct (update_cards_all sample gpu_cards Hnd Hr)
      as (cards' & Hu & Hk & Hg).
    exists cards'. split; [exact Hu|]. split; [discriminate|].
    intros _. split; [exact Hk|].
    intros id w Hw.
    assert (Hin : In id (keys sample)).
    { unfold gpu_set_changed in Ech. apply negb_false_iff in Ech.
      rewrite set_eq_iff in Ech. apply Ech.
      eapply dict_get_Some_key; exact Hw. }
    destruct (In_keys_get sample id Hin) as [i Hi].
    exists i. split; [exact Hi|]. now rewrite Hg, Hw, Hi.
Qed.

(** The sample of three GPUs listed out of order, on an empty dashboard. *)
Lemma C1_witness :
  exists cards',
    build_or_update_dashboard sample_201 [] = (cards', None)
    /\ (gpu_set_changed [] sample_201 = true ->
        Permutation (keys sample_201) (keys cards')
        /\ ascending (keys cards')
        /\ forall j id,
            nth_error (keys cards') j = Some id ->
            exists i w,
              dict_get id sample_201 = Some i
              /\ dict_get id cards' = Some w
              /\ w = fst (_update_gpu_card
                            (_create_gpu_card id i (Z.of_nat j)) i)
              /\ frame_row w = Z.of_nat j)
    /\ (gpu_set_changed [] sample_201 = false ->
        keys cards' = keys (@nil (string * card))
        /\ forall id w,
            dict_get id (@nil (string * card)) = Some w ->
            exists i,
              dict_get id sample_201 = Some i
              /\ dict_get id cards' = Some (fst (_update_gpu_card w i))).
Proof.
  apply (proj2 C1_rebuild_or_update
           (unlines ["2, C, 60, 30, 300, 8000, 70";
                     "0, A, 75, 42, 1000, 8000, 120.5";
                     "1, B, 85, 10, 2000, 8000, 80.0"])
           sample_201 []).
  - vm_compute. reflexivity.
  - repeat constructor; eexists; vm_compute; reflexivity.
  - intros id i [H | [H | [H | []]]]; injection H as <- <-;
      vm_compute; reflexivity.
Defined.

(** The ids come out as 0, 1, 2 though the text lists 2 first. *)
Example rebuild_orders_sample_201 :
  keys (fst (build_or_update_dashboard sample_201 [])) = ["0"; "1"; "2"]
  /\ map (fun kv => frame_row (snd kv))
         (fst (build_or_update_dashboard sample_201 [])) = [0; 1; 2].
Proof.
  split; vm_compute; reflexivity.
Qed.

(** An id that is not a number makes the rebuild raise before any card
    exists, and a memory reading of 1e308 makes the update raise. *)
Lemma C1_counterexample :
  (exists sample,
      parse_gpu_data "x, A, 50, 10, 100, 200, 5" = Ok sample
      /\ keys sample = ["x"]
      /\ gpu_set_changed [] sample = true
      /\ build_or_update_dashboard sample [] = ([], Some ValueError))
  /\ (exists sample,
        parse_gpu_data "0, A, 50, 10, 1e308, 1, 5" = Ok sample
        /\ keys sample = ["0"]
        /\ snd (build_or_update_dashboard sample []) = Some OverflowError).
Proof.
  split; eexists; (split; [vm_compute; reflexivity|]);
    repeat split; vm_compute; reflexivity.
Qed.

(** The two-line text of the specification: Warning and Critical, 12 and
    25 percent, and a first rebuild in the order 0, 1. *)
Example spec_end_to_end :
  exists sample cards,
    parse_gpu_data
      (unlines ["0, Card X, 75, 42, 1000, 8000, 120.5";
                "1, Card Y, 85, 10, 2000, 8000, 80.0"]) = Ok sample
    /\ gpu_set_changed [] sample = true
    /\ build_or_update_dashboard sample [] = (cards, None)
    /\ keys cards = ["0"; "1"]
    /\ map (fun kv => severity_of_style (temp_style (snd kv))) cards
       = [Some Warning; Some Critical]
    /\ map (fun kv => mem_bar (snd kv)) cards = [12; 25].
Proof.
  eexists. eexists.
  split; [vm_compute; reflexivity|].
  split; [vm_compute; reflexivity|].
  split; [vm_compute; reflexivity|].
  split; [|split]; vm_compute; reflexivity.
Qed.

End ReconcileFacts.

(** ** Records that have their keys *)

Module NamedFacts.
Import PyStr GPUMonitor Notions.
Import DictFacts SampleFacts.

Lemma append_assoc (a b c : string) : ((a ++ b) ++ c = a ++ (b ++ c))%string.
Proof. induction a as [|x a IH]; simpl; [reflexivity|]. now rewrite IH. Qed.

Lemma append_nil_r (a : string) : (a ++ "")%string = a.
Proof. induction a as [|x a IH]; simpl; [reflexivity|]. now rewrite IH. Qed.

Lemma summary_entries_named (items : list (string * info)) :
  Forall (fun kv => named (snd kv)) items ->
  forall summary,
    summary_entries items summary
    = Some (summary ++ join_all (map entry_text items))%string.
Proof.
  induction 1 as [|[id i] rest [n Hn] _ IH]; intros summary; simpl.
  - now rewrite append_nil_r.
  - unfold entry_text at 1. simpl fst. simpl snd.
    unfold summary_entry at 1 2. simpl in Hn. rewrite Hn.
    rewrite IH, append_assoc. reflexivity.
Qed.

Lemma summary_entries_unnamed (items : list (string * info)) (id : string)
  (i : info) :
  In (id, i) items -> name i = None ->
  forall summary, summary_entries items summary = None.
Proof.
  intros Hin Hn. induction items as [|[id0 i0] rest IH]; intros summary;
    [destruct Hin|].
  simpl. destruct Hin as [[= -> ->]|Hin].
  - unfold summary_entry. now rewrite Hn.
  - destruct (summary_entry id0 i0); [now apply IH|reflexivity].
Qed.

Lemma parse_lines_named (lines : list string) :
  forall d d' : dict info,
    Forall (fun kv => named (snd kv)) d ->
    parse_lines d lines = Ok d' ->
    Forall (fun kv => named (snd kv)) d'.
Proof.
  induction lines as [|line rest IH]; intros d d' Hd Hp; simpl in Hp.
  - now injection Hp as <-.
  - rewrite parse_line_entry in Hp. cbn [bind] in Hp.
    eapply IH; [|exact Hp].
    destruct (entry line) as [[k r]|] eqn:E; [|exact Hd].
    apply (dict_set_Forall named); [exact Hd|].
    unfold entry in E.
    destruct (fields line) as [|p0 [|p1 [|p2 [|p3 [|p4 [|p5 [|p6 ?]]]]]]];
      try discriminate.
    injection E as _ <-. now exists p1.
Qed.

Lemma parsed_named (text : string) (d : dict info) :
  parse_gpu_data text = Ok d -> Forall (fun kv => named (snd kv)) d.
Proof.
  unfold parse_gpu_data. destruct (String.eqb text "").
  - intros [= <-]. constructor.
  - apply parse_lines_named. constructor.
Qed.

Lemma format_summary_named (sample : dict info) :
  Forall (fun kv => named (snd kv)) sample ->
  exists summary, format_summary sample = Some summary.
Proof.
  intros Hn. unfold format_summary. destruct sample as [|kv rest];
    [now eexists|].
  rewrite (summary_entries_named _ Hn). now eexists.
Qed.

End NamedFacts.

(** ** One refresh cycle *)

Module CycleFacts.

Import PyStr GPUMonitor Notions.
Import DictFacts CardFacts FloatFacts SortFacts DashboardFacts SampleFacts.
Import ReconcileFacts NamedFacts.

Lemma update_twice (w : card) (i : info) :
  _update_gpu_card (fst (_update_gpu_card w i)) i = _update_gpu_card w i.
Proof.
  unfold _update_gpu_card.
  destruct (mem_pct _ _); [destruct (float_of_power _)|];
    destruct (temperature i); reflexivity.
Qed.

Lemma dict_set_same_value {V : Type} (d : dict V) (k : string) (v : V) :
  dict_get k d = Some v -> dict_set k v d = d.
Proof.
  induction d as [|[k' v'] r IH]; simpl; [discriminate|].
  destruct (String.eqb k k') eqn:E.
  - intros [= ->]. reflexivity.
  - intros H. now rewrite IH.
Qed.

Lemma update_cards_keys (items : dict info) :
  forall gpu_cards : dict card,
    keys (fst (update_cards items gpu_cards)) = keys gpu_cards.
Proof.
  induction items as [|[id0 i0] rest IH]; intros gpu_cards; simpl;
    [reflexivity|].
  destruct (dict_get id0 gpu_cards) as [w|] eqn:E0; [|apply IH].
  destruct (_update_gpu_card w i0) as [w' e].
  assert (Hk : keys (dict_set id0 w' gpu_cards) = keys gpu_cards)
    by (apply keys_dict_set_present; eapply dict_get_Some_key; exact E0).
  destruct e; simpl; [exact Hk | now rewrite IH].
Qed.

Lemma update_cards_untouched (items : dict info) (id : string) :
  forall gpu_cards : dict card,
    ~ In id (keys items) ->
    dict_get id (fst (update_cards items gpu_cards)) = dict_get id gpu_cards.
Proof.
  induction items as [|[id0 i0] rest IH]; intros gpu_cards Hid; simpl;
    [reflexivity|].
  simpl in Hid.
  assert (Hne : id0 <> id) by tauto.
  assert (Hrest : ~ In id (keys rest)) by tauto.
  destruct (dict_get id0 gpu_cards) as [w|] eqn:E0; [|now apply IH].
  destruct (_update_gpu_card w i0) as [w' e].
  destruct e; simpl.
  - now apply dict_get_set_other.
  - rewrite IH by exact Hrest. now apply dict_get_set_other.
Qed.

(** Running the update loop again on its own result changes nothing and
    ends the same way. *)
Lemma update_cards_twice (items : dict info) :
  forall gpu_cards : dict card,
    NoDup (keys items) ->
    update_cards items (fst (update_cards items gpu_cards))
    = update_cards items gpu_cards.
Proof.
  induction items as [|[id0 i0] rest IH]; intros gpu_cards Hnd;
    [reflexivity|].
  inversion Hnd as [|? ? Hid Hrest]; subst.
  simpl update_cards.
  destruct (dict_get id0 gpu_cards) as [w|] eqn:E0.
  - destruct (_update_gpu_card w i0) as [w' e] eqn:Eu.
    assert (Eu' : _update_gpu_card w' i0 = (w', e)).
    { pose proof (update_twice w i0) as H. rewrite Eu in H. exact H. }
    destruct e as [x|].
    + simpl fst. rewrite dict_get_set_same, Eu'.
      rewrite dict_set_same_value by apply dict_get_set_same.
      reflexivity.
    + rewrite (update_cards_untouched rest id0 _ Hid).
      rewrite dict_get_set_same, Eu'.
      rewrite dict_set_same_value
        by (rewrite (update_cards_untouched rest id0 _ Hid);
            apply dict_get_set_same).
      rewrite IH by exact Hrest.
      now destruct (update_cards rest (dict_set id0 w' gpu_cards)).
  - rewrite (update_cards_untouched rest id0 _ Hid), E0.
    now apply IH.
Qed.

Lemma set_eq_refl (l : list string) : set_eq l l = true.
Proof. apply set_eq_iff. tauto. Qed.

Lemma set_eq_perm (a b : list string) :
  Permutation a b -> set_eq b a = true.
Proof.
  intros H. apply set_eq_iff. intros k. split; intros Hk.
  - eapply Permutation_in; [apply Permutation_sym|]; eassumption.
  - eapply Permutation_in; eassumption.
Qed.

Lemma sorted_by_int_Ok_inv (ks ids : list string) :
  sorted_by_int ks = Ok ids -> Permutation ks ids.
Proof.
  intros H.
  assert (Hn : Forall numeric ks).
  { apply Forall_forall. intros k Hk.
    destruct (PyInt.of_str k) as [n|e] eqn:E; [now exists n|].
    destruct (sorted_by_int_raises ks k e Hk E) as [e' He']. congruence. }
  destruct (sorted_by_int_ok ks Hn) as (ids' & H' & Hp & _). congruence.
Qed.

Lemma sorted_by_int_Raise_inv (ks : list string) (e : exn) :
  sorted_by_int ks = Raise e -> ks <> [].
Proof.
  intros H ->. discriminate.
Qed.

(** Rendering the same sample a second time changes no card and ends as
    the first rendering did. *)
Lemma build_or_update_twice (gpu_data : dict info) (gpu_cards : dict card) :
  NoDup (keys gpu_data) ->
  build_or_update_dashboard gpu_data
    (fst (build_or_update_dashboard gpu_data gpu_cards))
  = build_or_update_dashboard gpu_data gpu_cards.
Proof.
  intros Hnd. unfold build_or_update_dashboard at 2 3.
  destruct (gpu_set_changed gpu_cards gpu_data) eqn:Ech.
  - destruct (sorted_by_int (keys gpu_data)) as [ids|e] eqn:Es.
    + pose proof (sorted_by_int_Ok_inv _ _ Es) as Hp.
      assert (Hids : NoDup ids) by (eapply Permutation_NoDup; eassumption).
      rewrite (create_cards_eq gpu_data ids 0 [] Hids) by (intros ? _ []).
      simpl app. unfold build_or_update_dashboard, gpu_set_changed.
      rewrite update_cards_keys, keys_created, (set_eq_perm _ _ Hp).
      simpl negb. cbv iota. now apply update_cards_twice.
    + simpl fst. unfold build_or_update_dashboard, gpu_set_changed.
      pose proof (sorted_by_int_Raise_inv _ _ Es) as Hne.
      destruct (keys gpu_data) as [|k ks] eqn:Ek; [congruence|].
      simpl. rewrite <- Ek at 1. fold (keys gpu_data).
      rewrite Ek, Es. reflexivity.
  - unfold build_or_update_dashboard, gpu_set_changed.
    rewrite update_cards_keys.
    unfold gpu_set_changed in Ech. rewrite Ech.
    now apply update_cards_twice.
Qed.



(** A run ends in one of three ways: the check would answer [True], it
    would answer [False], or the run raises past the [except] clause. *)
Lemma run_cases (run : run_result) :
  (exists stdout, run = Completed 0 stdout)
  \/ (fails run = true /\ available run = false /\ uncaught run = None)
  \/ (exists e, run = Uncaught e).
Proof.
  destruct run as [rc out| | |e]; simpl; eauto.
  destruct (Z.eqb_spec rc 0) as [->|Hrc]; simpl; eauto.
Qed.

Lemma available_inv (run : run_result) :
  available run = true -> exists stdout, run = Completed 0 stdout.
Proof.
  destruct run as [rc out| | |e]; simpl; try discriminate.
  destruct (Z.eqb_spec rc 0) as [->|Hrc]; [eauto|discriminate].
Qed.

Lemma uncaught_inv (run : run_result) (e : exn) :
  uncaught run = Some e -> run = Uncaught e.
Proof. destruct run; simpl; congruence. Qed.

Lemma fails_inv (run : run_result) :
  fails run = true ->
  available run = false /\ uncaught run = None
  /\ get_gpu_data run = Ok None
  /\ forall st, exists text,
      failure_status text
      /\ check_nvidia_smi run st = (set_status st text, Ok false).
Proof.
  unfold failure_status.
  destruct run as [rc out| | |e]; simpl; try discriminate;
    [destruct (rc =? 0); simpl; try discriminate|..]; intros _;
    repeat split; eauto.
Qed.

Lemma uncaught_None (run : run_result) :
  uncaught run = None -> exists data, get_gpu_data run = Ok data.
Proof. destruct run; simpl; try discriminate; eauto. Qed.

(** The check leaves everything but the status as it was. *)
Lemma check_keeps (run : run_result) (st : monitor) :
  gpu_data (fst (check_nvidia_smi run st)) = gpu_data st
  /\ gpu_cards (fst (check_nvidia_smi run st)) = gpu_cards st
  /\ is_monitoring (fst (check_nvidia_smi run st)) = is_monitoring st
  /\ dialogs (fst (check_nvidia_smi run st)) = dialogs st.
Proof.
  destruct run as [rc out| | |e]; simpl; [destruct (rc =? 0)|..]; simpl;
    repeat split; auto.
Qed.

(** One cycle, case by case: the check raises. *)
Lemma refresh_check_raises (env : cycle) (st : monitor) (e : exn) :
  uncaught (version_run env) = Some e ->
  refresh_gpu_data env st = (st, Some e).
Proof.
  intros H. apply uncaught_inv in H. unfold refresh_gpu_data. now rewrite H.
Qed.

(** The check answers [False]. *)
Lemma refresh_check_fails (env : cycle) (st : monitor) :
  fails (version_run env) = true ->
  exists text,
    failure_status text
    /\ refresh_gpu_data env st
       = (showerror (set_status st text) "nvidia-smi is not available",
          None).
Proof.
  intros H. destruct (fails_inv _ H) as (_ & _ & _ & Hc).
  destruct (Hc st) as (text & Ht & Hr). exists text. split; [exact Ht|].
  unfold refresh_gpu_data. now rewrite Hr.
Qed.

(** The check passes and the query raises. *)
Lemma refresh_query_raises (env : cycle) (st : monitor) (e : exn) :
  available (version_run env) = true ->
  uncaught (query_run env) = Some e ->
  refresh_gpu_data env st = (set_status st "nvidia-smi available", Some e).
Proof.
  intros Hav H. apply uncaught_inv in H.
  destruct (available_inv _ Hav) as (out & Hv).
  unfold refresh_gpu_data. now rewrite Hv, H.
Qed.

Lemma sample_in_force_ex (env : cycle) (st : monitor) :
  exists d, sample_in_force env st d.
Proof.
  unfold sample_in_force.
  destruct (get_gpu_data (query_run env)) as [data|e]; [|now eexists].
  destruct (truthy data) as [text|]; [|now eexists].
  destruct (parse_gpu_data_spec text) as (d & Hp & _). now exists d.
Qed.

(** The sample in force is a dictionary when the stored one is. *)
Lemma sample_in_force_keys (env : cycle) (st : monitor) (d : dict info) :
  NoDup (keys (gpu_data st)) -> sample_in_force env st d -> NoDup (keys d).
Proof.
  intros Hnd Hd. unfold sample_in_force in Hd.
  destruct (get_gpu_data (query_run env)) as [data|e]; [|now subst d].
  destruct (truthy data); [eapply parsed_NoDup; eassumption|now subst d].
Qed.

(** The check passes, the query returns, and the detailed run raises: the
    sample in force is stored and nothing is rendered. *)
Lemma refresh_detailed_raises (env : cycle) (st : monitor) (d : dict info)
  (e : exn) :
  available (version_run env) = true ->
  uncaught (query_run env) = None ->
  sample_in_force env st d ->
  uncaught (detailed_run env) = Some e ->
  refresh_gpu_data env st
  = (mk_monitor (is_monitoring st) d (gpu_cards st) "nvidia-smi available"
       (summary_of st) (detailed_text st) (raw_text st) (dialogs st),
     Some e).
Proof.
  intros Hav Hq Hd He. apply uncaught_inv in He.
  destruct (available_inv _ Hav) as (out & Hv).
  destruct (uncaught_None _ Hq) as (data & Hdata).
  unfold refresh_gpu_data, sample_in_force in *.
  rewrite Hv, Hdata in *. simpl check_nvidia_smi. cbv iota beta. simpl negb.
  cbv iota.
  destruct (truthy data) as [text|].
  - rewrite Hd. simpl bind. cbv iota. now rewrite He.
  - subst d. rewrite He. simpl. now destruct st.
Qed.

(** The three runs return and the check passes: the sample in force is
    stored and rendered, and the summary is formatted from it. *)
Lemma refresh_rendered (env : cycle) (st : monitor) (d : dict info)
  (detailed_data : option string) :
  available (version_run env) = true ->
  uncaught (query_run env) = None ->
  sample_in_force env st d ->
  get_gpu_data (detailed_run env) = Ok detailed_data ->
  refresh_gpu_data env st
  = match build_or_update_dashboard d (gpu_cards st) with
    | (cards, Some e) =>
        (mk_monitor (is_monitoring st) d cards "nvidia-smi available"
           (summary_of st) (detailed_text st) (raw_text st) (dialogs st),
         Some e)
    | (cards, None) =>
        match format_summary d with
        | None =>
            (mk_monitor (is_monitoring st) d cards "nvidia-smi available"
               None (detailed_text st) (raw_text st) (dialogs st),
             Some KeyError)
        | Some _ =>
            (mk_monitor (is_monitoring st) d cards
               ("Last updated: " ++ timestamp env) (Some d)
               (fst (shown_texts detailed_data))
               (snd (shown_texts detailed_data))
               (dialogs st),
             None)
        end
    end.
Proof.
  intros Hav Hq Hd He.
  destruct (available_inv _ Hav) as (out & Hv).
  destruct (uncaught_None _ Hq) as (data & Hdata).
  unfold refresh_gpu_data, sample_in_force in *.
  rewrite Hv, Hdata in *. simpl check_nvidia_smi. cbv iota beta. simpl negb.
  cbv iota.
  destruct (truthy data) as [text|].
  - rewrite Hd. simpl bind. cbv iota. rewrite He.
    simpl gpu_data. simpl gpu_cards.
    destruct (build_or_update_dashboard d (gpu_cards st)) as [cards [e|]];
      [reflexivity|].
    unfold update_summary_display. simpl gpu_data.
    destruct (format_summary d); reflexivity.
  - subst d. rewrite He. simpl gpu_data. simpl gpu_cards.
    destruct (build_or_update_dashboard (gpu_data st) (gpu_cards st))
      as [cards [e|]]; [reflexivity|].
    unfold update_summary_display. simpl gpu_data.
    destruct (format_summary (gpu_data st)); reflexivity.
Qed.

(** The same, when every record of the sample in force has its keys:
    the summary raises nothing. *)
Lemma refresh_available (env : cycle) (st : monitor) (d : dict info)
  (detailed_data : option string) :
  available (version_run env) = true ->
  uncaught (query_run env) = None ->
  sample_in_force env st d ->
  get_gpu_data (detailed_run env) = Ok detailed_data ->
  Forall (fun kv => named (snd kv)) d ->
  refresh_gpu_data env st
  = match build_or_update_dashboard d (gpu_cards st) with
    | (cards, Some e) =>
        (mk_monitor (is_monitoring st) d cards "nvidia-smi available"
           (summary_of st) (detailed_text st) (raw_text st) (dialogs st),
         Some e)
    | (cards, None) =>
        (mk_monitor (is_monitoring st) d cards
           ("Last updated: " ++ timestamp env) (Some d)
           (fst (shown_texts detailed_data))
           (snd (shown_texts detailed_data))
           (dialogs st),
         None)
    end.
Proof.
  intros Hav Hq Hd He Hn.
  rewrite (refresh_rendered env st d detailed_data Hav Hq Hd He).
  destruct (format_summary_named d Hn) as (summary & ->). reflexivity.
Qed.

(** The sample in force has its keys when the stored one has. *)
Lemma sample_in_force_named (env : cycle) (st : monitor) (d : dict info) :
  Forall (fun kv => named (snd kv)) (gpu_data st) ->
  sample_in_force env st d ->
  Forall (fun kv => named (snd kv)) d.
Proof.
  intros Hn Hd. unfold sample_in_force in Hd.
  destruct (get_gpu_data (query_run env)) as [data|e]; [|now subst d].
  destruct (truthy data); [eapply parsed_named; eassumption|now subst d].
Qed.

Lemma get_Raise_inv (run : run_result) (e : exn) :
  get_gpu_data run = Raise e -> uncaught run = Some e.
Proof. destruct run; simpl; congruence. Qed.

Lemma get_Ok_inv (run : run_result) (data : option string) :
  get_gpu_data run = Ok data -> uncaught run = None.
Proof. destruct run; simpl; congruence. Qed.

(** The sample a cycle leaves is the one it found or the one in force;
    the cards it leaves are those it found or a rendering of the sample
    it leaves. *)
Lemma refresh_state (env : cycle) (st : monitor) :
  let st' := fst (refresh_gpu_data env st) in
  (gpu_data st' = gpu_data st \/ sample_in_force env st (gpu_data st'))
  /\ (gpu_cards st' = gpu_cards st
      \/ gpu_cards st'
         = fst (build_or_update_dashboard (gpu_data st') (gpu_cards st)))
  /\ is_monitoring st' = is_monitoring st.
Proof.
  intros st'. subst st'.
  destruct (run_cases (version_run env)) as [(out & Hv)|[(Hf & _)|(e & Hv)]].
  - assert (Hav : available (version_run env) = true) by now rewrite Hv.
    destruct (sample_in_force_ex env st) as (d & Hd).
    destruct (uncaught (query_run env)) as [e|] eqn:Hq.
    + rewrite (refresh_query_raises env st e Hav Hq). simpl. auto.
    + destruct (get_gpu_data (detailed_run env)) as [dd|e] eqn:Hdd.
      * rewrite (refresh_rendered env st d dd Hav Hq Hd Hdd).
        destruct (build_or_update_dashboard d (gpu_cards st))
          as [cards [e|]] eqn:Eb; [|destruct (format_summary d)]; simpl;
          rewrite Eb; auto.
      * apply get_Raise_inv in Hdd.
        rewrite (refresh_detailed_raises env st d e Hav Hq Hd Hdd).
        simpl. auto.
  - destruct (refresh_check_fails env st Hf) as (text & _ & ->). simpl. auto.
  - rewrite (refresh_check_raises env st e) by now rewrite Hv.
    simpl. auto.
Qed.

Lemma init_state (run : run_result) (st : monitor) :
  init run = Ok st ->
  gpu_data st = [] /\ gpu_cards st = [] /\ is_monitoring st = false
  /\ dialogs st = [].
Proof.
  unfold init.
  destruct run as [rc out| | |e]; simpl; [destruct (rc =? 0)|..]; simpl;
    intros [= <-]; auto.
Qed.

Lemma start_stop_keep (run : run_result) (st : monitor) :
  gpu_data (fst (start_monitoring run st)) = gpu_data st
  /\ gpu_cards (fst (start_monitoring run st)) = gpu_cards st
  /\ gpu_data (stop_monitoring st) = gpu_data st
  /\ gpu_cards (stop_monitoring st) = gpu_cards st.
Proof.
  unfold start_monitoring.
  destruct run as [rc out| | |e]; simpl; [destruct (rc =? 0)|..]; simpl;
    auto.
Qed.

(** The stored sample is a dictionary in every reachable state. *)
Lemma reachable_sample (st : monitor) :
  reachable st -> NoDup (keys (gpu_data st)).
Proof.
  induction 1 as [run st Hi | env st _ IH | run st _ IH | st _ IH].
  - destruct (init_state run st Hi) as (-> & _). constructor.
  - destruct (refresh_state env st) as ([->|Hd] & _); [exact IH|].
    eapply sample_in_force_keys; eassumption.
  - now destruct (start_stop_keep run st) as (-> & _).
  - now destruct (start_stop_keep FileNotFoundError st) as (_ & _ & -> & _).
Qed.

(** Every record of a reachable state has its keys. *)
Lemma reachable_named (st : monitor) :
  reachable st -> Forall (fun kv => named (snd kv)) (gpu_data st).
Proof.
  induction 1 as [run st Hi | env st _ IH | run st _ IH | st _ IH].
  - destruct (init_state run st Hi) as (-> & _). constructor.
  - destruct (refresh_state env st) as ([->|Hd] & _); [exact IH|].
    eapply sample_in_force_named; eassumption.
  - now destruct (start_stop_keep run st) as (-> & _).
  - now destruct (start_stop_keep FileNotFoundError st) as (_ & _ & -> & _).
Qed.

Lemma init_settled (run : run_result) (st : monitor) :
  init run = Ok st -> settled st.
Proof.
  intros Hi. destruct (init_state run st Hi) as (Hd & Hc & _).
  unfold settled. rewrite Hd, Hc. reflexivity.
Qed.

(** A cycle that renders without raising leaves the dashboard settled. *)
Lemma clean_cycle_settles (env : cycle) (st : monitor) :
  reachable st ->
  available (version_run env) = true ->
  snd (refresh_gpu_data env st) = None ->
  settled (fst (refresh_gpu_data env st)).
Proof.
  intros Hreach Hav Hnone.
  destruct (sample_in_force_ex env st) as (d & Hd).
  pose proof (sample_in_force_keys env st d (reachable_sample st Hreach) Hd)
    as Hnd.
  destruct (uncaught (query_run env)) as [e|] eqn:Hq.
  { rewrite (refresh_query_raises env st e Hav Hq) in Hnone. discriminate. }
  pose proof (sample_in_force_named env st d (reachable_named st Hreach) Hd)
    as Hn.
  destruct (get_gpu_data (detailed_run env)) as [dd|e] eqn:Hdd.
  - rewrite (refresh_available env st d dd Hav Hq Hd Hdd Hn) in *.
    pose proof (build_or_update_twice d (gpu_cards st) Hnd) as Htw.
    destruct (build_or_update_dashboard d (gpu_cards st))
      as [cards [e|]]; [discriminate|].
    unfold settled. simpl in *. exact Htw.
  - apply get_Raise_inv in Hdd.
    rewrite (refresh_detailed_raises env st d e Hav Hq Hd Hdd) in Hnone.
    discriminate.
Qed.

Lemma start_stop_settled (run : run_result) (st : monitor) :
  settled st ->
  settled (fst (start_monitoring run st)) /\ settled (stop_monitoring st).
Proof.
  intros Hs. destruct (start_stop_keep run st) as (E1 & E2 & E3 & E4).
  unfold settled. now rewrite E1, E2, E3, E4.
Qed.

(** C4, as the code has it.  In every cycle in which acquisition fails,
    at the check or at the query, from any state the monitor can be in,
    the stored sample is left exactly as it was.  A failed check raises
    nothing, leaves the cards alone, and is reported by the status text
    "nvidia-smi not available" or "nvidia-smi not found" and an error
    dialog.  After a failed query the cycle goes on: when the detailed
    run raises, the exception leaves the cycle and the cards stay;
    otherwise the stored sample is rendered again.  When the dashboard
    was showing the stored sample (settled), the cards are left exactly
    as they were, the dashboard stays settled, and the cycle raises
    nothing exactly when the check failed or the detailed run returned.
    The dashboard is settled after start-up and after every cycle that
    passes the check and raises nothing, and starting and stopping keep
    it so.  An exception of the check other than the two it catches
    leaves the cycle, with the monitor untouched, and at start-up leaves
    the constructor. *)
Theorem C4_failed_cycle_keeps_state :
  (forall st env,
      reachable st ->
      acquisition_fails env ->
      let st' := fst (refresh_gpu_data env st) in
      let raised := snd (refresh_gpu_data env st) in
      gpu_data st' = gpu_data st
      /\ (fails (version_run env) = true ->
          gpu_cards st' = gpu_cards st
          /\ raised = None
          /\ failure_status (status_label st')
          /\ dialogs st' = "nvidia-smi is not available" :: dialogs st)
      /\ (forall e,
            uncaught (version_run env) = Some e ->
            st' = st /\ raised = Some e)
      /\ (available (version_run env) = true ->
          (forall e,
              uncaught (detailed_run env) = Some e ->
              gpu_cards st' = gpu_cards st /\ raised = Some e)
          /\ (uncaught (detailed_run env) = None ->
              (gpu_cards st', raised)
              = build_or_update_dashboard (gpu_data st) (gpu_cards st)))
      /\ (settled st ->
          gpu_cards st' = gpu_cards st
          /\ settled st'
          /\ (raised = None
              <-> fails (version_run env) = true
                  \/ (available (version_run env) = true
                      /\ uncaught (detailed_run env) = None))))
  /\ (forall run st, init run = Ok st -> settled st)
  /\ (forall env st,
        reachable st ->
        available (version_run env) = true ->
        snd (refresh_gpu_data env st) = None ->
        settled (fst (refresh_gpu_data env st)))
  /\ (forall run st,
        settled st ->
        settled (fst (start_monitoring run st))
        /\ settled (stop_monitoring st))
  /\ (forall st env e,
        uncaught (version_run env) = Some e ->
        refresh_gpu_data env st = (st, Some e))
  /\ (forall run e, uncaught run = Some e -> init run = Raise e).
Proof.
  split; [|split; [exact init_settled|
                   split; [exact clean_cycle_settles
                          |split; [exact start_stop_settled|split]]]];
    [|intros st env e; apply refresh_check_raises
     |intros run e H; apply uncaught_inv in H; now subst run].
  intros st env Hreach Hfail st' raised. subst st' raised.
  unfold acquisition_fails in Hfail.
  destruct (run_cases (version_run env))
    as [(out & Hv)|[(Hf & Hna & Hnu)|(e & Hv)]].
  - assert (Hav : available (version_run env) = true) by now rewrite Hv.
    assert (Hnf : fails (version_run env) = false) by now rewrite Hv.
    assert (Hnu : uncaught (version_run env) = None) by now rewrite Hv.
    destruct Hfail as [Hf|Hf]; [congruence|].
    destruct (fails_inv _ Hf) as (_ & Hq & Hg & _).
    assert (Hd : sample_in_force env st (gpu_data st))
      by (unfold sample_in_force; now rewrite Hg).
    destruct (get_gpu_data (detailed_run env)) as [dd|e] eqn:Hdd.
    + pose proof (get_Ok_inv _ _ Hdd) as Hdu.
      rewrite (refresh_available env st _ dd Hav Hq Hd Hdd
                 (reachable_named st Hreach)).
      unfold settled.
      destruct (build_or_update_dashboard (gpu_data st) (gpu_cards st))
        as [cards [e|]] eqn:Eb; simpl.
      * split; [reflexivity|]. split; [congruence|]. split; [congruence|].
        split; [intros _; split; [congruence|reflexivity]|].
        intros H. discriminate H.
      * split; [reflexivity|]. split; [congruence|]. split; [congruence|].
        split; [intros _; split; [congruence|reflexivity]|].
        intros [= ->]. split; [reflexivity|]. split; [exact Eb|].
        split; auto.
    + apply get_Raise_inv in Hdd.
      rewrite (refresh_detailed_raises env st _ e Hav Hq Hd Hdd).
      unfold settled. simpl.
      split; [reflexivity|]. split; [congruence|]. split; [congruence|].
      split; [intros _; split; [intros e' He'; split; congruence
                               |congruence]|].
      intros Hs. split; [reflexivity|]. split; [exact Hs|].
      split; [discriminate|]. intros [H|[_ H]]; congruence.
  - destruct (refresh_check_fails env st Hf) as (text & Ht & ->).
    unfold settled. simpl.
    split; [reflexivity|]. split; [auto|]. split; [congruence|].
    split; [congruence|]. intros Hs. split; [reflexivity|].
    split; [exact Hs|]. split; auto.
  - assert (Hu : uncaught (version_run env) = Some e) by now rewrite Hv.
    assert (Hnf : fails (version_run env) = false) by now rewrite Hv.
    assert (Hna : available (version_run env) = false) by now rewrite Hv.
    rewrite (refresh_check_raises env st e Hu). simpl.
    split; [reflexivity|]. split; [congruence|].
    split; [intros e' He'; split; congruence|]. split; [congruence|].
    intros Hs. split; [reflexivity|]. split; [exact Hs|].
    split; [discriminate|]. intros [H|[H _]]; congruence.
Qed.

(** The check finds no nvidia-smi, right after a start-up that found
    none either. *)
Lemma C4_witness :
  gpu_data (fst (refresh_gpu_data tool_missing started_without))
  = gpu_data started_without
  /\ gpu_cards (fst (refresh_gpu_data tool_missing started_without))
     = gpu_cards started_without
  /\ snd (refresh_gpu_data tool_missing started_without) = None
  /\ dialogs (fst (refresh_gpu_data tool_missing started_without))
     = ["nvidia-smi is not available"].
Proof.
  destruct (proj1 C4_failed_cycle_keeps_state started_without tool_missing)
    as (Hd & Hf & _).
  - now apply (reach_init FileNotFoundError).
  - left. reflexivity.
  - destruct (Hf eq_refl) as (Hc & Hr & _ & Hdl).
    split; [exact Hd|]. split; [exact Hc|]. split; [exact Hr|exact Hdl].
Defined.

(** The check passes and the query times out: the cycle ends with the
    status of a successful update, and no dialog.  After a cycle whose
    rendering raised on the id [x], the same failed query raises again.
    And when nvidia-smi cannot be executed, the [PermissionError] leaves
    the cycle, and at start-up the constructor. *)
Lemma C4_counterexample :
  init (Completed 0 "v") = Ok started
  /\ acquisition_fails query_times_out
  /\ status_label (fst (refresh_gpu_data query_times_out started))
     = "Last updated: 12:00:00"
  /\ ~ failure_status
         (status_label (fst (refresh_gpu_data query_times_out started)))
  /\ dialogs (fst (refresh_gpu_data query_times_out started)) = []
  /\ snd (refresh_gpu_data query_times_out
            (fst (refresh_gpu_data odd_id started)))
     = Some ValueError
  /\ refresh_gpu_data not_executable started
     = (started, Some PermissionError)
  /\ init (Uncaught PermissionError) = Raise PermissionError.
Proof.
  split; [reflexivity|].
  split; [right; reflexivity|]. split; [reflexivity|].
  split; [|split; [reflexivity|]].
  - intros [H | H]; vm_compute in H; discriminate.
  - split; [vm_compute; reflexivity|]. split; reflexivity.
Qed.

End CycleFacts.

(** ** The memory percentage *)

Module MemoryFacts.

Import PyStr GPUMonitor Notions FloatFacts CardFacts.

Lemma mem_pct_floor (used total : Z) :
  0 <= used < 2 ^ 45 -> 0 < total < 2 ^ 45 ->
  exists pct,
    mem_pct used total = Ok pct
    /\ 100 * used / total - 1 <= pct <= 100 * used / total.
Proof.
  intros Hu Ht.
  destruct (Z.eq_dec used 0) as [-> | Hne].
  - exists 0. split; [apply mem_pct_of_nothing|].
    rewrite Z.mul_0_r, Z.div_0_l by lia. lia.
  - destruct (mem_pct_bounds used total) as (p & Hp & H1 & H2); try lia.
    exists p. split; [exact Hp|]. split.
    + assert (100 * used / total < p + 2)
        by (apply Z.div_lt_upper_bound; lia).
      lia.
    + apply Z.div_le_lower_bound; lia.
Qed.

Lemma mem_total_i_zero (i : info) :
  memory_total i = None
  \/ (exists t, memory_total i = Some t /\ t <= 0) ->
  mem_total_i i = 0.
Proof.
  unfold mem_total_i. intros [-> | (t & -> & Ht)]; [reflexivity|].
  replace (0 <? t) with false by (symmetry; apply Z.ltb_ge; lia).
  reflexivity.
Qed.

(** C7, as the code has it.  The percentage is [int((used / total) *
    100)], the binary64 product cut toward zero: for readings below 2^45
    it is the floor of [100 * used / total] or one below it, never above.
    With a total of 0 (or absent, or negative) it is 0 and nothing is
    divided; the card then reads "used / 0 MB (0%)", so 512 of 0 and 0 of
    0 show the same percentage and different labels. *)
Theorem C7_memory_percentage :
  (forall used total,
      0 <= used < 2 ^ 45 -> 0 < total < 2 ^ 45 ->
      exists pct,
        mem_pct used total = Ok pct
        /\ 100 * used / total - 1 <= pct <= 100 * used / total)
  /\ (forall used, mem_pct used 0 = Ok 0)
  /\ (forall i,
        memory_total i = None
        \/ (exists t, memory_total i = Some t /\ t <= 0) ->
        forall w,
          snd (_update_gpu_card w i) = None
          /\ mem_bar (fst (_update_gpu_card w i)) = 0
          /\ mem_label (fst (_update_gpu_card w i))
             = (of_int (mem_used_i i) ++ " / 0 MB (0%)")%string)
  /\ (forall w i pct,
        mem_pct (mem_used_i i) (mem_total_i i) = Ok pct ->
        mem_bar (fst (_update_gpu_card w i)) = Z.max 0 (Z.min pct 100)
        /\ mem_label (fst (_update_gpu_card w i))
           = (of_int (mem_used_i i) ++ " / " ++ of_int (mem_total_i i)
              ++ " MB (" ++ of_int pct ++ "%)")%string)
  /\ mem_label (fst (_update_gpu_card blank_card (memory_only 512 0)))
     = "512 / 0 MB (0%)"
  /\ mem_label (fst (_update_gpu_card blank_card (memory_only 0 0)))
     = "0 / 0 MB (0%)"
  /\ "512 / 0 MB (0%)" <> "0 / 0 MB (0%)".
Proof.
  split; [exact mem_pct_floor|]. split; [reflexivity|].
  split; [|split; [|split; [|split]]].
  - intros i Hi w. pose proof (mem_total_i_zero i Hi) as T.
    destruct (update_completes w i 0) as (Hs & Hb & Hl & _).
    + rewrite T. reflexivity.
    + rewrite Hs, Hb, Hl, T. repeat split; reflexivity.
  - intros w i pct H.
    destruct (update_completes w i pct H) as (_ & Hb & Hl & _).
    now split.
  - vm_compute. reflexivity.
  - vm_compute. reflexivity.
  - discriminate.
Qed.

(** 1000 MB used of 8000 MB. *)
Lemma C7_witness :
  exists pct,
    mem_pct 1000 8000 = Ok pct
    /\ 100 * 1000 / 8000 - 1 <= pct <= 100 * 1000 / 8000.
Proof.
  apply (proj1 C7_memory_percentage 1000 8000).
  - vm_compute. split; [discriminate | reflexivity].
  - vm_compute. split; reflexivity.
Defined.

(** Two thirds is shown as 66, where rounding to nearest gives 67; 29
    hundredths is shown as 28; and a used reading of 1e308 raises. *)
Lemma C7_counterexample :
  mem_pct 2 3 = Ok 66
  /\ PyFloat.round_half_even (100 * 2) 3 = 67
  /\ mem_pct 29 100 = Ok 28
  /\ (exists used,
        to_int "1e308" = Some used
        /\ mem_pct used 1 = Raise OverflowError).
Proof.
  split; [|split; [|split]]; try (vm_compute; reflexivity).
  eexists. split; vm_compute; reflexivity.
Qed.

Example spec_sample_percentages :
  mem_pct 1000 8000 = Ok 12 /\ mem_pct 2000 8000 = Ok 25.
Proof.
  split; vm_compute; reflexivity.
Qed.

End MemoryFacts.

(* ------------------------------------------------------------------ *)
(** ** The layout of the dashboard *)

Module LayoutFacts.
Import PyStr GPUMonitor Notions.
Import DictFacts CardFacts FloatFacts SortFacts DashboardFacts SampleFacts.
Import ReconcileFacts CycleFacts.

Lemma same_frame_refl (c : dict card) : Forall2 same_frame c c.
Proof. induction c; constructor; [repeat split|assumption]. Qed.

Lemma same_frame_trans (a b c : dict card) :
  Forall2 same_frame a b -> Forall2 same_frame b c -> Forall2 same_frame a c.
Proof.
  intros H. revert c. induction H as [|x y a b Hxy _ IH]; intros c Hc;
    inversion Hc as [|? z ? c' Hyz Hbc]; subst; constructor.
  - destruct Hxy as (? & ? & ? & ?), Hyz as (? & ? & ? & ?).
    repeat split; congruence.
  - now apply IH.
Qed.

Lemma same_frame_set (c : dict card) (k : string) (w w' : card) :
  dict_get k c = Some w ->
  frame_id w' = frame_id w -> frame_name w' = frame_name w ->
  frame_row w' = frame_row w ->
  Forall2 same_frame c (dict_set k w' c).
Proof.
  intros Hg H1 H2 H3. induction c as [|[k0 w0] r IH]; simpl in *;
    [discriminate|].
  destruct (String.eqb k k0) eqn:E.
  - injection Hg as ->. constructor; [|apply same_frame_refl].
    repeat split; simpl; congruence.
  - constructor; [repeat split|now apply IH].
Qed.

(** The update loop leaves every card in its frame. *)
Lemma update_cards_frames (items : dict info) :
  forall gpu_cards : dict card,
    Forall2 same_frame gpu_cards (fst (update_cards items gpu_cards)).
Proof.
  induction items as [|[id0 i0] rest IH]; intros gpu_cards; simpl;
    [apply same_frame_refl|].
  destruct (dict_get id0 gpu_cards) as [w|] eqn:E0; [|apply IH].
  destruct (update_frame w i0) as (F1 & F2 & F3).
  destruct (_update_gpu_card w i0) as [w' e]. simpl in F1, F2, F3.
  assert (Hs : Forall2 same_frame gpu_cards (dict_set id0 w' gpu_cards))
    by (eapply same_frame_set; eassumption).
  destruct e; simpl; [exact Hs|].
  eapply same_frame_trans; [exact Hs | apply IH].
Qed.

Lemma same_frame_keys (a b : dict card) :
  Forall2 same_frame a b -> keys a = keys b.
Proof.
  induction 1 as [|x y a b (H & _) _ IH]; simpl; [reflexivity|].
  now rewrite H, IH.
Qed.

Lemma same_frame_nth (a b : dict card) :
  Forall2 same_frame a b ->
  forall j id w,
    nth_error b j = Some (id, w) ->
    exists w0, nth_error a j = Some (id, w0)
               /\ frame_id w = frame_id w0 /\ frame_row w = frame_row w0.
Proof.
  induction 1 as [|[k0 w0] [k1 w1] a b (H1 & H2 & _ & H4) _ IH];
    intros j id w Hj.
  - destruct j; discriminate.
  - destruct j as [|j]; simpl in *.
    + injection Hj as -> ->. exists w0. subst. repeat split; congruence.
    + now apply IH.
Qed.

Lemma laid_out_same_frame (a b : dict card) :
  Forall2 same_frame a b -> laid_out a -> laid_out b.
Proof.
  intros Hs (H1 & H2 & H3 & H4).
  pose proof (same_frame_keys _ _ Hs) as Hk.
  unfold laid_out. rewrite <- Hk. repeat split; try assumption;
    destruct (same_frame_nth _ _ Hs _ _ _ H) as (w0 & Hn & F1 & F2);
    destruct (H4 _ _ _ Hn); congruence.
Qed.

Lemma nth_created (gpu_data : dict info) (ids : list string) :
  forall (row : Z) (j : nat) (id : string) (w : card),
    nth_error (created gpu_data ids row) j = Some (id, w) ->
    frame_id w = id /\ frame_row w = row + Z.of_nat j.
Proof.
  induction ids as [|k r IH]; intros row j id w Hj.
  - destruct j; discriminate.
  - destruct j as [|j]; simpl in Hj.
    + injection Hj as <- <-. simpl. split; [reflexivity|lia].
    + destruct (IH _ _ _ _ Hj) as (F1 & F2). split; [exact F1|lia].
Qed.

Lemma sorted_by_int_Ok_numeric (ks ids : list string) :
  sorted_by_int ks = Ok ids ->
  Forall numeric ks /\ Permutation ks ids /\ ascending ids.
Proof.
  intros H.
  assert (Hn : Forall numeric ks).
  { apply Forall_forall. intros k Hk.
    destruct (PyInt.of_str k) as [n|e] eqn:E; [now exists n|].
    destruct (sorted_by_int_raises ks k e Hk E) as [e' He']. congruence. }
  destruct (sorted_by_int_ok ks Hn) as (ids' & H' & Hp & Ha).
  assert (ids' = ids) by congruence. subst. auto.
Qed.

Lemma laid_out_nil : laid_out [].
Proof.
  repeat split; try constructor; destruct j; discriminate.
Qed.

(** What one rendering leaves, whatever dashboard it started from. *)
Lemma build_or_update_layout (gpu_data : dict info) (gpu_cards : dict card) :
  NoDup (keys gpu_data) -> laid_out gpu_cards ->
  let cards' := fst (build_or_update_dashboard gpu_data gpu_cards) in
  laid_out cards'
  /\ (cards' = [] \/ Permutation (keys gpu_data) (keys cards')).
Proof.
  intros Hnd Hl. unfold build_or_update_dashboard.
  destruct (gpu_set_changed gpu_cards gpu_data) eqn:Ech.
  - destruct (sorted_by_int (keys gpu_data)) as [ids|e] eqn:Es.
    + destruct (sorted_by_int_Ok_numeric _ _ Es) as (Hn & Hp & Ha).
      assert (Hids : NoDup ids) by (eapply Permutation_NoDup; eassumption).
      rewrite (create_cards_eq gpu_data ids 0 [] Hids) by (intros ? _ []).
      simpl app.
      pose proof (update_cards_frames gpu_data (created gpu_data ids 0)) as Hs.
      assert (Hc : laid_out (created gpu_data ids 0)).
      { unfold laid_out. rewrite keys_created. repeat split; auto.
        - eapply Permutation_Forall; eassumption.
        - now destruct (nth_created _ _ _ _ _ _ H).
        - now destruct (nth_created _ _ _ _ _ _ H). }
      split; [eapply laid_out_same_frame; eassumption|].
      right. cbv zeta. rewrite update_cards_keys, keys_created. exact Hp.
    + simpl. split; [apply laid_out_nil | now left].
  - cbv zeta.
    split; [eapply laid_out_same_frame; [apply update_cards_frames|exact Hl]|].
    right. rewrite update_cards_keys.
    unfold gpu_set_changed in Ech. apply negb_false_iff in Ech.
    apply NoDup_Permutation; [exact Hnd | apply Hl|].
    intros k. symmetry. revert k. now apply set_eq_iff.
Qed.

(** The layout holds in every reachable state. *)
Lemma reachable_laid_out (st : monitor) :
  reachable st -> laid_out (gpu_cards st).
Proof.
  induction 1 as [run st Hi|env st Hr IH|run st Hr IH|st Hr IH].
  - destruct (init_state run st Hi) as (_ & -> & _). apply laid_out_nil.
  - destruct (refresh_state env st) as (_ & [->| ->] & _); [exact IH|].
    apply build_or_update_layout; [|exact IH].
    apply reachable_sample. now apply reach_refresh.
  - now destruct (start_stop_keep run st) as (_ & -> & _).
  - now destruct (start_stop_keep FileNotFoundError st) as (_ & _ & _ & ->).
Qed.

(** A query that gives a text printed it, with return code 0. *)
Lemma truthy_get_inv (run : run_result) (data : option string)
  (text : string) :
  get_gpu_data run = Ok data -> truthy data = Some text ->
  run = Completed 0 text /\ text <> "".
Proof.
  destruct run as [rc out| | |e]; simpl; intros Hg Ht;
    try (injection Hg as <-; discriminate Ht); [|discriminate Hg].
  destruct (Z.eqb_spec rc 0) as [->|Hrc]; injection Hg as <-;
    [|discriminate Ht].
  simpl in Ht. destruct (String.eqb_spec out ""); [discriminate Ht|].
  injection Ht as <-. now split.
Qed.

(** A cycle that gets as far as the rendering leaves the ids of the
    sample it stored on the dashboard, or an empty dashboard. *)
Lemma render_in_step (env : cycle) (st : monitor) :
  reachable st -> reaches_render env ->
  in_step (fst (refresh_gpu_data env st)).
Proof.
  intros Hr (Hav & Hq & Hdu).
  destruct (sample_in_force_ex env st) as (d & Hd).
  pose proof (sample_in_force_keys env st d (reachable_sample st Hr) Hd)
    as Hnd.
  destruct (uncaught_None _ Hdu) as (dd & Hdd).
  rewrite (refresh_rendered env st d dd Hav Hq Hd Hdd).
  destruct (build_or_update_layout d (gpu_cards st) Hnd
              (reachable_laid_out st Hr)) as (_ & Hp).
  unfold in_step.
  destruct (build_or_update_dashboard d (gpu_cards st)) as [cards [e|]];
    [|destruct (format_summary d)]; exact Hp.
Qed.

(** Only a cycle that stores a text and raises before the rendering can
    take the dashboard out of step with the stored sample. *)
Lemma refresh_in_step (env : cycle) (st : monitor) :
  reachable st -> in_step st -> ~ stores_unrendered env ->
  in_step (fst (refresh_gpu_data env st)).
Proof.
  intros Hr Hin Hns.
  destruct (run_cases (version_run env)) as [(out & Hv)|[(Hf & _)|(e & Hv)]].
  - assert (Hav : available (version_run env) = true) by now rewrite Hv.
    destruct (uncaught (query_run env)) as [e|] eqn:Hq.
    { now rewrite (refresh_query_raises env st e Hav Hq). }
    destruct (uncaught (detailed_run env)) as [e|] eqn:Hdu.
    + destruct (uncaught_None _ Hq) as (data & Hdata).
      destruct (truthy data) as [text|] eqn:Ht.
      * exfalso. apply Hns.
        destruct (truthy_get_inv _ _ _ Hdata Ht) as (Hrun & Hne).
        split; [exact Hav|]. split; [now exists text|now exists e].
      * assert (Hd : sample_in_force env st (gpu_data st))
          by (unfold sample_in_force; now rewrite Hdata, Ht).
        rewrite (refresh_detailed_raises env st _ e Hav Hq Hd Hdu).
        exact Hin.
    + apply render_in_step; [exact Hr|]. now repeat split.
  - now destruct (refresh_check_fails env st Hf) as (text & _ & ->).
  - rewrite (refresh_check_raises env st e) by now rewrite Hv.
    exact Hin.
Qed.

(** X1. In every state the monitor can reach (start-up, then any sequence
    of refresh cycles, starts and stops, whether they raised or not), the
    dashboard is laid out as a rebuild leaves it: at most one card per
    id, every id accepted by [int], the cards in ascending numeric order,
    the card at position [j] titled with its own id and gridded in row
    [j]; and the stored sample holds each id once.  The dashboard holds
    exactly the ids of the stored sample, or is empty, after start-up and
    after every cycle that gets as far as the rendering; starting,
    stopping and every other cycle keep it so, but for a cycle that
    stores a new text and then raises in the detailed run. *)
Theorem X1_dashboard_layout_invariant (st : monitor) :
  reachable st ->
  laid_out (gpu_cards st)
  /\ NoDup (keys (gpu_data st))
  /\ (forall env,
        (reaches_render env -> in_step (fst (refresh_gpu_data env st)))
        /\ (in_step st -> ~ stores_unrendered env ->
            in_step (fst (refresh_gpu_data env st))))
  /\ (forall run,
        in_step st ->
        in_step (fst (start_monitoring run st))
        /\ in_step (stop_monitoring st))
  /\ (forall run st0, init run = Ok st0 -> in_step st0).
Proof.
  intros Hr.
  split; [now apply reachable_laid_out|].
  split; [now apply reachable_sample|].
  split; [|split].
  - intros env. split; [now apply render_in_step|now apply refresh_in_step].
  - intros run Hin. destruct (start_stop_keep run st) as (E1 & E2 & E3 & E4).
    unfold in_step. now rewrite E1, E2, E3, E4.
  - intros run st0 Hi. destruct (init_state run st0 Hi) as (_ & Hc & _).
    now left.
Qed.

(** After start-up and one cycle on three GPUs. *)
Lemma X1_witness :
  laid_out (gpu_cards first_render)
  /\ NoDup (keys (gpu_data first_render))
  /\ in_step (fst (refresh_gpu_data three_gpus first_render)).
Proof.
  destruct (X1_dashboard_layout_invariant first_render) as (Hl & Hn & He & _).
  - apply reach_refresh. now apply (reach_init (Completed 0 "v")).
  - split; [exact Hl|]. split; [exact Hn|].
    apply (proj1 (He three_gpus)). now repeat split.
Defined.

End LayoutFacts.

(* ------------------------------------------------------------------ *)
(** ** One refresh cycle, end to end *)

Module RefreshFacts.
Import PyStr GPUMonitor Notions.
Import DictFacts CardFacts FloatFacts SortFacts DashboardFacts SampleFacts.
Import ReconcileFacts CycleFacts LayoutFacts.

Lemma update_cards_None_inv (items : dict info) :
  forall (gpu_cards cards' : dict card),
    NoDup (keys items) ->
    update_cards items gpu_cards = (cards', None) ->
    forall id i w,
      In (id, i) items -> dict_get id gpu_cards = Some w ->
      snd (_update_gpu_card w i) = None
      /\ dict_get id cards' = Some (fst (_update_gpu_card w i)).
Proof.
  induction items as [|[id0 i0] rest IH]; intros c c' Hnd Hu id i w Hin Hg;
    [destruct Hin|].
  inversion Hnd as [|? ? Hid Hrest]; subst.
  simpl in Hu.
  destruct Hin as [[= -> ->]|Hin].
  - rewrite Hg in Hu.
    destruct (_update_gpu_card w i) as [w' e] eqn:Eu.
    destruct e; [discriminate|].
    simpl. split; [reflexivity|].
    pose proof (update_cards_untouched rest id (dict_set id w' c) Hid) as Hk.
    rewrite Hu in Hk. simpl in Hk. rewrite Hk. apply dict_get_set_same.
  - assert (Hne : id0 <> id).
    { intros ->. apply Hid. apply in_map_iff. now exists (id, i). }
    destruct (dict_get id0 c) as [w0|] eqn:E0.
    + destruct (_update_gpu_card w0 i0) as [w' e]. destruct e; [discriminate|].
      eapply IH; try eassumption.
      now rewrite dict_get_set_other.
    + eapply IH; eassumption.
Qed.

(** X2. Rendering a sample (a dictionary: each id once) a second time, on
    the cards the first rendering left, changes no card and ends as the
    first did, with the same exception if any.  When [int] accepts every
    id, the second rendering finds the id set unchanged: a rebuild is
    never repeated for the same sample. *)
Theorem X2_rendering_is_idempotent (gpu_data : dict info)
  (gpu_cards : dict card) :
  NoDup (keys gpu_data) ->
  let first := build_or_update_dashboard gpu_data gpu_cards in
  build_or_update_dashboard gpu_data (fst first) = first
  /\ (Forall numeric (keys gpu_data) ->
      gpu_set_changed (fst first) gpu_data = false).
Proof.
  intros Hnd first. subst first. split.
  - rewrite build_or_update_twice by exact Hnd. reflexivity.
  - intros Hn. unfold build_or_update_dashboard.
    destruct (gpu_set_changed gpu_cards gpu_data) eqn:Ech.
    + destruct (sorted_by_int_ok _ Hn) as (ids & Es & Hp & _). rewrite Es.
      unfold gpu_set_changed. rewrite update_cards_keys.
      assert (Hids : NoDup ids) by (eapply Permutation_NoDup; eassumption).
      rewrite (create_cards_eq gpu_data ids 0 [] Hids) by (intros ? _ []).
      simpl app. rewrite keys_created, (set_eq_perm _ _ Hp). reflexivity.
    + unfold gpu_set_changed in *. now rewrite update_cards_keys.
Qed.

(** A rendering that raises nothing leaves one card per id of the
    sample, each showing its record. *)
Lemma render_clean (gpu_data : dict info) (gpu_cards : dict card) :
  NoDup (keys gpu_data) -> laid_out gpu_cards ->
  snd (build_or_update_dashboard gpu_data gpu_cards) = None ->
  let cards' := fst (build_or_update_dashboard gpu_data gpu_cards) in
  Permutation (keys gpu_data) (keys cards')
  /\ forall id i,
      dict_get id gpu_data = Some i ->
      exists w, dict_get id cards' = Some w
                /\ _update_gpu_card w i = (w, None).
Proof.
  intros Hnd Hl Hnone cards'.
  destruct (build_or_update_layout gpu_data gpu_cards Hnd Hl) as (_ & Hp).
  fold cards' in Hp.
  assert (Hset : build_or_update_dashboard gpu_data cards' = (cards', None)).
  { unfold cards'. rewrite build_or_update_twice by exact Hnd.
    destruct (build_or_update_dashboard gpu_data gpu_cards) as [x e].
    simpl in *. now subst e. }
  assert (Hperm : Permutation (keys gpu_data) (keys cards')).
  { destruct Hp as [Hnil|Hp]; [|exact Hp].
    rewrite Hnil in *. unfold build_or_update_dashboard in Hset.
    destruct (gpu_set_changed [] gpu_data) eqn:Ech.
    - destruct (sorted_by_int (keys gpu_data)) as [ids|e] eqn:Es;
        [|discriminate].
      pose proof (sorted_by_int_Ok_inv _ _ Es) as Hp.
      assert (Hids : NoDup ids) by (eapply Permutation_NoDup; eassumption).
      rewrite (create_cards_eq _ ids 0 [] Hids) in Hset by (intros ? _ []).
      simpl app in Hset.
      pose proof (update_cards_keys gpu_data (created gpu_data ids 0)) as Hk.
      rewrite Hset, keys_created in Hk. simpl in Hk. now subst ids.
    - unfold gpu_set_changed in Ech. apply negb_false_iff in Ech.
      apply NoDup_Permutation; [exact Hnd|constructor|].
      intros k. symmetry. revert k. now apply set_eq_iff. }
  split; [exact Hperm|].
  assert (Hupd : update_cards gpu_data cards' = (cards', None)).
  { unfold build_or_update_dashboard in Hset.
    replace (gpu_set_changed cards' gpu_data) with false in Hset;
      [exact Hset|].
    symmetry. unfold gpu_set_changed. apply negb_false_iff.
    apply set_eq_perm. exact Hperm. }
  intros id i Hg.
  assert (Hin : In id (keys cards')).
  { eapply Permutation_in; [exact Hperm|].
    eapply dict_get_Some_key; exact Hg. }
  destruct (In_keys_get _ _ Hin) as (w & Hw). exists w. split; [exact Hw|].
  destruct (update_cards_None_inv _ _ _ Hnd Hupd id i w
              (dict_get_In _ _ _ Hg) Hw) as (H1 & H2).
  rewrite Hw in H2. injection H2 as H2.
  destruct (_update_gpu_card w i) as [w' e]. simpl in *. congruence.
Qed.

Lemma sample_in_force_NoDup (env : cycle) (st : monitor) (d : dict info) :
  reachable st -> sample_in_force env st d -> NoDup (keys d).
Proof.
  intros Hr Hd. eapply sample_in_force_keys; [|exact Hd].
  now apply reachable_sample.
Qed.

(** Three GPUs listed out of order, rendered on an empty dashboard. *)
Lemma X2_witness :
  build_or_update_dashboard sample_201
    (fst (build_or_update_dashboard sample_201 []))
  = build_or_update_dashboard sample_201 []
  /\ (Forall numeric (keys sample_201) ->
      gpu_set_changed (fst (build_or_update_dashboard sample_201 []))
        sample_201 = false).
Proof.
  apply (X2_rendering_is_idempotent sample_201 []).
  vm_compute.
  repeat (constructor; [simpl; intuition discriminate|]). constructor.
Defined.

(** X3. A cycle from a reachable state whose check passes and that raises
    nothing leaves the monitor showing the sample in force: the stored
    sample is the parsed text of the query (the previous sample when the
    query gave none), the cards hold exactly its ids, every record has a
    card that updating with the record no longer changes, the summary is
    formatted from the stored sample, the detailed run has returned and
    the detailed and raw tabs show its output or their "No ... data
    available" texts, the status reads "Last updated: <time>", no dialog
    is raised and the monitoring flag is not touched. *)
Theorem X3_clean_cycle_shows_the_sample (env : cycle) (st : monitor) :
  reachable st ->
  available (version_run env) = true ->
  snd (refresh_gpu_data env st) = None ->
  let st' := fst (refresh_gpu_data env st) in
  sample_in_force env st (gpu_data st')
  /\ Permutation (keys (gpu_data st')) (keys (gpu_cards st'))
  /\ (forall id i,
        dict_get id (gpu_data st') = Some i ->
        exists w, dict_get id (gpu_cards st') = Some w
                  /\ _update_gpu_card w i = (w, None))
  /\ summary_of st' = Some (gpu_data st')
  /\ (exists detailed_data,
        get_gpu_data (detailed_run env) = Ok detailed_data
        /\ (detailed_text st', raw_text st') = shown_texts detailed_data)
  /\ uncaught (query_run env) = None
  /\ status_label st' = ("Last updated: " ++ timestamp env)%string
  /\ dialogs st' = dialogs st
  /\ is_monitoring st' = is_monitoring st.
Proof.
  intros Hr Hav Hnone st'. subst st'.
  destruct (sample_in_force_ex env st) as (d & Hd).
  pose proof (sample_in_force_NoDup env st d Hr Hd) as Hnd.
  pose proof (reachable_laid_out st Hr) as Hl.
  pose proof (render_clean d (gpu_cards st) Hnd Hl) as Hc.
  destruct (uncaught (query_run env)) as [e|] eqn:Hq.
  { rewrite (refresh_query_raises env st e Hav Hq) in Hnone. discriminate. }
  destruct (get_gpu_data (detailed_run env)) as [dd|e] eqn:Hdd.
  - pose proof (sample_in_force_named env st d (reachable_named st Hr) Hd)
      as Hn.
    rewrite (refresh_available env st d dd Hav Hq Hd Hdd Hn) in *.
    destruct (build_or_update_dashboard d (gpu_cards st)) as [cards [e|]];
      [discriminate|].
    destruct (Hc eq_refl) as (Hperm & Hcards).
    simpl. repeat split; auto.
    exists dd. split; [reflexivity|]. now destruct (shown_texts dd).
  - apply get_Raise_inv in Hdd.
    rewrite (refresh_detailed_raises env st d e Hav Hq Hd Hdd) in Hnone.
    discriminate.
Qed.

(** The first cycle on three GPUs. *)
Lemma X3_witness :
  status_label first_render = "Last updated: 12:00:00"
  /\ summary_of first_render = Some (gpu_data first_render)
  /\ Permutation (keys (gpu_data first_render))
                 (keys (gpu_cards first_render)).
Proof.
  assert (H : snd (refresh_gpu_data three_gpus started) = None)
    by (vm_compute; reflexivity).
  destruct (X3_clean_cycle_shows_the_sample three_gpus started
              (reach_init (Completed 0 "v") started eq_refl) eq_refl H)
    as (_ & Hp & _ & Hs & _ & _ & Hl & _).
  split; [exact Hl|]. split; [exact Hs|exact Hp].
Defined.

End RefreshFacts.

(* ------------------------------------------------------------------ *)
(** ** Cycles that raise, and queries that print nothing *)

Module FailureFacts.
Import PyStr GPUMonitor Notions.
Import DictFacts CardFacts FloatFacts SortFacts DashboardFacts SampleFacts.
Import CoercionFacts ReconcileFacts CycleFacts LayoutFacts RefreshFacts.

Lemma update_cards_raises (items : dict info) :
  forall (gpu_cards : dict card) (e : exn),
    snd (update_cards items gpu_cards) = Some e ->
    exists id i,
      In (id, i) items
      /\ mem_pct (mem_used_i i) (mem_total_i i) = Raise e.
Proof.
  induction items as [|[id0 i0] rest IH]; intros c e H; simpl in H;
    [discriminate|].
  destruct (dict_get id0 c) as [w|].
  - pose proof (update_card_raises w i0) as Hu.
    destruct (_update_gpu_card w i0) as [w' [e'|]].
    + simpl in H, Hu. exists id0, i0. split; [now left|].
      apply Hu. congruence.
    + destruct (IH _ _ H) as (id & i & Hin & Hm). exists id, i.
      split; [now right|exact Hm].
  - destruct (IH _ _ H) as (id & i & Hin & Hm). exists id, i.
    split; [now right|exact Hm].
Qed.

Lemma of_str_raises (s : string) (e : exn) :
  PyInt.of_str s = Raise e -> e = ValueError.
Proof.
  unfold PyInt.of_str. destruct (parse_sign _) as [neg r].
  destruct (_ && _); congruence.
Qed.

Lemma mapM_Raise_inv {A B : Type} (f : A -> result B) (l : list A) (e : exn) :
  mapM f l = Raise e -> exists a, In a l /\ f a = Raise e.
Proof.
  induction l as [|a r IH]; simpl; [discriminate|].
  destruct (f a) as [b|e'] eqn:E; simpl.
  - destruct (mapM f r) as [bs|e'']; simpl; [discriminate|].
    intros H. destruct (IH H) as (x & Hx & Hf). exists x. auto.
  - intros [= ->]. exists a. auto.
Qed.

Lemma sorted_by_int_Raise_id (ks : list string) (e : exn) :
  sorted_by_int ks = Raise e ->
  e = ValueError /\ exists id, In id ks /\ ~ numeric id.
Proof.
  unfold sorted_by_int. intros H.
  destruct (mapM _ ks) as [dec|e'] eqn:E; [discriminate|].
  simpl in H. injection H as ->.
  destruct (mapM_Raise_inv _ _ _ E) as (k & Hk & Hf).
  destruct (PyInt.of_str k) as [n|e'] eqn:Ek; [discriminate|].
  simpl in Hf. injection Hf as ->.
  split; [eapply of_str_raises; eassumption|].
  exists k. split; [exact Hk|]. intros [n Hn]. congruence.
Qed.

Lemma build_or_update_raises (gpu_data : dict info) (gpu_cards : dict card)
  (e : exn) :
  snd (build_or_update_dashboard gpu_data gpu_cards) = Some e ->
  (e = ValueError
   /\ fst (build_or_update_dashboard gpu_data gpu_cards) = []
   /\ exists id, In id (keys gpu_data) /\ ~ numeric id)
  \/ (e = OverflowError
      /\ exists id i,
          In (id, i) gpu_data /\ 2 ^ 1000 <= Z.abs (mem_used_i i)).
Proof.
  unfold build_or_update_dashboard.
  assert (Hu : forall c,
             snd (update_cards gpu_data c) = Some e ->
             e = OverflowError
             /\ exists id i,
                 In (id, i) gpu_data /\ 2 ^ 1000 <= Z.abs (mem_used_i i)).
  { intros c H. destruct (update_cards_raises _ _ _ H) as (id & i & Hin & Hm).
    destruct (mem_pct_raises _ _ _ Hm) as (-> & Hb).
    split; [reflexivity|]. now exists id, i. }
  destruct (gpu_set_changed gpu_cards gpu_data).
  - destruct (sorted_by_int (keys gpu_data)) as [ids|e'] eqn:Es.
    + intros H. right. eapply Hu; exact H.
    + simpl. intros [= ->]. left.
      destruct (sorted_by_int_Raise_id _ _ Es) as (-> & Hid). auto.
  - intros H. right. eapply Hu; exact H.
Qed.

(** X4. A cycle from a reachable state raises in five ways only.  An
    exception that [subprocess.run] raises past the [except] clause
    leaves the cycle where it occurs: at the check, with the monitor
    untouched; at the query, with only the status changed; at the
    detailed run, with the sample in force stored and the cards as they
    were.  When the three runs return, a [ValueError] comes from
    [sorted(..., key=int)] on an id that [int] rejects, and leaves the
    dashboard cleared; an [OverflowError] comes from the memory
    percentage of a record whose used reading is [2^1000] or more in
    magnitude.  In every case the summary, detailed and raw tabs keep
    their previous contents, no dialog is raised, the monitoring flag is
    kept, and, unless the check itself raised, the status reads
    "nvidia-smi available", as the check left it. *)
Theorem X4_what_a_cycle_raises (env : cycle) (st : monitor) (e : exn) :
  reachable st ->
  snd (refresh_gpu_data env st) = Some e ->
  let st' := fst (refresh_gpu_data env st) in
  ((uncaught (version_run env) = Some e /\ st' = st)
   \/ (available (version_run env) = true
       /\ status_label st' = "nvidia-smi available"
       /\ ((uncaught (query_run env) = Some e
            /\ gpu_data st' = gpu_data st /\ gpu_cards st' = gpu_cards st)
           \/ (uncaught (query_run env) = None
               /\ sample_in_force env st (gpu_data st')
               /\ ((uncaught (detailed_run env) = Some e
                    /\ gpu_cards st' = gpu_cards st)
                   \/ (uncaught (detailed_run env) = None
                       /\ ((e = ValueError
                            /\ gpu_cards st' = []
                            /\ exists id,
                                In id (keys (gpu_data st'))
                                /\ ~ numeric id)
                           \/ (e = OverflowError
                               /\ exists id i,
                                   In (id, i) (gpu_data st')
                                   /\ 2 ^ 1000 <= Z.abs (mem_used_i i)))))))))
  /\ summary_of st' = summary_of st
  /\ detailed_text st' = detailed_text st
  /\ raw_text st' = raw_text st
  /\ dialogs st' = dialogs st
  /\ is_monitoring st' = is_monitoring st.
Proof.
  intros Hr H st'. subst st'.
  destruct (run_cases (version_run env)) as [(out & Hv)|[(Hf & _)|(x & Hv)]].
  - assert (Hav : available (version_run env) = true) by now rewrite Hv.
    destruct (sample_in_force_ex env st) as (d & Hd).
    pose proof (sample_in_force_named env st d (reachable_named st Hr) Hd)
      as Hn.
    destruct (uncaught (query_run env)) as [x|] eqn:Hq.
    { rewrite (refresh_query_raises env st x Hav Hq) in *.
      simpl in *. injection H as ->.
      split; [right; split; [exact Hav|split; [reflexivity|left]]|];
        auto. }
    destruct (get_gpu_data (detailed_run env)) as [dd|x] eqn:Hdd.
    + pose proof (get_Ok_inv _ _ Hdd) as Hdu.
      rewrite (refresh_available env st d dd Hav Hq Hd Hdd Hn) in *.
      pose proof (build_or_update_raises d (gpu_cards st) e) as Hb.
      destruct (build_or_update_dashboard d (gpu_cards st))
        as [cards [e'|]]; [|discriminate].
      simpl in *. injection H as ->.
      split; [|auto].
      right. split; [exact Hav|]. split; [reflexivity|]. right.
      split; [reflexivity|]. split; [exact Hd|]. right.
      split; [exact Hdu|]. now apply Hb.
    + apply get_Raise_inv in Hdd.
      rewrite (refresh_detailed_raises env st d x Hav Hq Hd Hdd) in *.
      simpl in *. injection H as ->.
      split; [|auto].
      right. split; [exact Hav|]. split; [reflexivity|]. right.
      split; [reflexivity|]. split; [exact Hd|]. left. auto.
  - destruct (refresh_check_fails env st Hf) as (text & _ & Heq).
    rewrite Heq in H. discriminate.
  - assert (Hu : uncaught (version_run env) = Some x) by now rewrite Hv.
    rewrite (refresh_check_raises env st x Hu) in *.
    simpl in *. injection H as ->. auto 10.
Qed.

(** The query prints a line whose id is [x]: the sorting raises. *)
Lemma X4_witness :
  gpu_cards (fst (refresh_gpu_data odd_id started)) = []
  /\ status_label (fst (refresh_gpu_data odd_id started))
     = "nvidia-smi available"
  /\ summary_of (fst (refresh_gpu_data odd_id started)) = summary_of started.
Proof.
  destruct (X4_what_a_cycle_raises odd_id started ValueError
              (reach_init (Completed 0 "v") started eq_refl))
    as ([(H & _)|(_ & Hs & [(H & _)|(_ & _ & [(H & _)|(_ & Hc)])])]
        & Hsum & _);
    try discriminate H.
  - vm_compute. reflexivity.
  - split; [|split; [exact Hs|exact Hsum]].
    destruct Hc as [(_ & Hc & _)|(Hc & _)]; [exact Hc|discriminate Hc].
Defined.

(** A rendering of the empty sample clears the dashboard. *)
Lemma render_nothing (gpu_cards : dict card) :
  build_or_update_dashboard [] gpu_cards = ([], None).
Proof.
  unfold build_or_update_dashboard.
  destruct (gpu_set_changed gpu_cards []) eqn:Ech; [reflexivity|].
  unfold gpu_set_changed in Ech. apply negb_false_iff in Ech.
  destruct gpu_cards as [|[k w] r]; [reflexivity|].
  exfalso. rewrite set_eq_iff in Ech. apply (Ech k). now left.
Qed.

(** X5. What a query that prints nothing does depends on how it prints
    nothing.  With an empty output (return code 0 and an empty stdout),
    [if basic_data] is false and the stored sample is kept: it is
    rendered again, which leaves the cards as they were when the
    dashboard was showing it.  With an output of white space only (one
    newline, say), the text is parsed and the sample becomes empty; the
    rendering then clears the dashboard, without an exception.  Either
    way, when the detailed run raises, the cycle ends there with this
    exception, before any rendering, and the cards stay. *)
Theorem X5_empty_and_blank_output (env : cycle) (st : monitor) (text : string) :
  reachable st ->
  available (version_run env) = true ->
  query_run env = Completed 0 text ->
  strip text = "" ->
  let st' := fst (refresh_gpu_data env st) in
  let raised := snd (refresh_gpu_data env st) in
  (forall e,
      uncaught (detailed_run env) = Some e ->
      gpu_cards st' = gpu_cards st /\ raised = Some e)
  /\ (text = "" ->
      gpu_data st' = gpu_data st
      /\ (uncaught (detailed_run env) = None ->
          (gpu_cards st', raised)
          = build_or_update_dashboard (gpu_data st) (gpu_cards st))
      /\ (settled st -> gpu_cards st' = gpu_cards st))
  /\ (text <> "" ->
      gpu_data st' = []
      /\ (uncaught (detailed_run env) = None ->
          gpu_cards st' = [] /\ raised = None)).
Proof.
  intros Hr Hav Hq Hs st' raised. subst st' raised.
  assert (Hqu : uncaught (query_run env) = None) by now rewrite Hq.
  assert (Hd : sample_in_force env st (if String.eqb text "" then gpu_data st
                                       else [])).
  { unfold sample_in_force. rewrite Hq. simpl.
    destruct (String.eqb_spec text "") as [->|Hne]; [reflexivity|].
    unfold parse_gpu_data. rewrite Hs.
    destruct (String.eqb_spec text ""); [contradiction|reflexivity]. }
  pose proof (sample_in_force_named env st _ (reachable_named st Hr) Hd)
    as Hn.
  destruct (get_gpu_data (detailed_run env)) as [dd|x] eqn:Hdd.
  - pose proof (get_Ok_inv _ _ Hdd) as Hdu.
    rewrite (refresh_available env st _ dd Hav Hqu Hd Hdd Hn).
    split; [intros e He; congruence|]. split.
    + intros ->. simpl String.eqb. cbv iota. unfold settled.
      destruct (build_or_update_dashboard (gpu_data st) (gpu_cards st))
        as [cards [e|]]; simpl; repeat split; auto; congruence.
    + intros Hne. destruct (String.eqb_spec text ""); [contradiction|].
      rewrite render_nothing. simpl. auto.
  - apply get_Raise_inv in Hdd.
    rewrite (refresh_detailed_raises env st _ x Hav Hqu Hd Hdd). simpl.
    split; [intros e He; split; congruence|]. split.
    + intros ->. simpl. repeat split; auto. congruence.
    + intros Hne. destruct (String.eqb_spec text ""); [contradiction|].
      split; [reflexivity|congruence].
Qed.

(** An empty output after the first cycle on three GPUs. *)
Lemma X5_witness :
  gpu_data (fst (refresh_gpu_data (cycle_printing "") first_render))
  = gpu_data first_render
  /\ gpu_cards (fst (refresh_gpu_data (cycle_printing "") first_render))
     = gpu_cards first_render.
Proof.
  destruct (X5_empty_and_blank_output (cycle_printing "") first_render "")
    as (_ & H & _).
  - apply reach_refresh. now apply (reach_init (Completed 0 "v")).
  - reflexivity.
  - reflexivity.
  - reflexivity.
  - destruct (H eq_refl) as (Hd & _ & Hc). split; [exact Hd|].
    apply Hc. vm_compute. reflexivity.
Defined.

End FailureFacts.

(* ------------------------------------------------------------------ *)
(** ** Decimal digits, printed and read *)

Module DigitFacts.
Import PyStr PyFloat Notions FloatFacts.

Lemma digits_acc (d : Decimal.uint) :
  forall acc : positive,
    fold_left (fun a c => 10 * a + digit_val c)
      (chars (NilEmpty.string_of_uint d)) (Z.pos acc)
    = Z.pos (Pos.of_uint_acc d acc).
Proof.
  induction d; intros acc;
    cbn [NilEmpty.string_of_uint chars list_ascii_of_string fold_left
         Pos.of_uint_acc];
    [reflexivity|..];
    fold (chars (NilEmpty.string_of_uint d)); rewrite <- IHd; f_equal;
    vm_compute digit_val; lia.
Qed.

Lemma digits_of_uint (d : Decimal.uint) :
  digits_val (chars (NilEmpty.string_of_uint d)) = Z.of_N (Pos.of_uint d).
Proof.
  unfold digits_val.
  induction d;
    cbn [NilEmpty.string_of_uint chars list_ascii_of_string fold_left
         Pos.of_uint Z.of_N];
    [reflexivity|..];
    fold (chars (NilEmpty.string_of_uint d));
    [exact IHd|..]; rewrite <- digits_acc; f_equal.
Qed.

Lemma uint_all_digits (d : Decimal.uint) :
  forallb is_digit (chars (NilEmpty.string_of_uint d)) = true.
Proof. induction d; simpl; auto. Qed.

(** The decimal digits [str] prints for a positive number. *)
Lemma of_int_pos (p : positive) :
  exists c ds,
    chars (PyStr.of_int (Z.pos p)) = c :: ds
    /\ forallb is_digit (c :: ds) = true
    /\ digits_val (c :: ds) = Z.pos p.
Proof.
  unfold PyStr.of_int. simpl Z.to_int. simpl NilZero.string_of_int.
  pose proof (DecimalPos.Unsigned.to_uint_nonnil p) as Hnn.
  pose proof (DecimalPos.Unsigned.of_to p) as Hot.
  pose proof (digits_of_uint (Pos.to_uint p)) as Hv.
  pose proof (uint_all_digits (Pos.to_uint p)) as Hd.
  rewrite Hot in Hv. simpl Z.of_N in Hv.
  assert (E : NilZero.string_of_uint (Pos.to_uint p)
              = NilEmpty.string_of_uint (Pos.to_uint p))
    by (destruct (Pos.to_uint p); [contradiction|reflexivity..]).
  rewrite E.
  destruct (chars (NilEmpty.string_of_uint (Pos.to_uint p))) as [|c ds] eqn:Ec.
  - destruct (Pos.to_uint p); try contradiction; discriminate.
  - exists c, ds. auto.
Qed.


Lemma lstrip_by_id (p : ascii -> bool) (l : list ascii) :
  forallb (fun c => negb (p c)) l = true -> lstrip_by p l = l.
Proof.
  destruct l as [|c r]; simpl; [reflexivity|].
  now destruct (p c).
Qed.

(** Nothing to strip from a text without the characters in question. *)
Lemma strip_by_id (p : ascii -> bool) (l : list ascii) :
  forallb (fun c => negb (p c)) l = true -> strip_by p l = l.
Proof.
  intros H. unfold strip_by. rewrite (lstrip_by_id p l H).
  rewrite lstrip_by_id by (now rewrite PyStrFacts.forallb_rev).
  apply rev_involutive.
Qed.

Lemma digit_facts (c : ascii) :
  is_digit c = true ->
  is_number_space c = false /\ is_space c = false
  /\ is_underscore c = false
  /\ Ascii.eqb c "-" = false /\ Ascii.eqb c "+" = false
  /\ Ascii.eqb c "," = false
  /\ Ascii.eqb (lower c) "i" = false /\ Ascii.eqb (lower c) "n" = false.
Proof.
  destruct c as [[] [] [] [] [] [] [] []]; vm_compute; intros H;
    try discriminate H; repeat split.
Qed.

Lemma digits_plain (ds : list ascii) :
  forallb is_digit ds = true ->
  forallb (fun c => negb (is_number_space c)) ds = true
  /\ forallb (fun c => negb (is_underscore c)) ds = true.
Proof.
  induction ds as [|c r IH]; simpl; [auto|].
  intros H. apply andb_true_iff in H as [Hc Hr].
  destruct (digit_facts c Hc) as (-> & _ & -> & _).
  simpl. now apply IH.
Qed.

Lemma underscores_ok_digits (ds : list ascii) :
  forallb is_digit ds = true ->
  forall prev,
    match prev with Some p => is_underscore p = false | None => True end ->
    underscores_ok prev ds = true.
Proof.
  induction ds as [|c r IH]; simpl; intros H prev Hp.
  - destruct prev; [now rewrite Hp|reflexivity].
  - apply andb_true_iff in H as [Hc Hr].
    destruct (digit_facts c Hc) as (_ & _ & Hu & _). rewrite Hu.
    rewrite (IH Hr (Some c) Hu), andb_true_r.
    destruct prev; [now rewrite Hp|reflexivity].
Qed.

Lemma drop_underscores_id (l : list ascii) :
  forallb (fun c => negb (is_underscore c)) l = true ->
  drop_underscores l = l.
Proof.
  unfold drop_underscores. induction l as [|c r IH]; simpl; [reflexivity|].
  intros H. apply andb_true_iff in H as [Hc Hr]. rewrite Hc. now rewrite IH.
Qed.

Lemma span_digits (ds : list ascii) :
  forallb is_digit ds = true -> span is_digit ds = (ds, []).
Proof.
  induction ds as [|c r IH]; simpl; [reflexivity|].
  intros H. apply andb_true_iff in H as [-> Hr]. now rewrite IH.
Qed.

(** A run of digits is the decimal literal of its value. *)
Lemma parse_decimal_digits (c : ascii) (ds : list ascii) :
  forallb is_digit (c :: ds) = true ->
  parse_decimal (c :: ds) = Some (digits_val (c :: ds), 0).
Proof.
  intros H. unfold parse_decimal. rewrite (span_digits _ H).
  rewrite List.app_nil_r. reflexivity.
Qed.

Lemma not_a_word (c : ascii) (ds : list ascii) :
  is_digit c = true ->
  is_word "inf" (c :: ds) = false
  /\ is_word "infinity" (c :: ds) = false
  /\ is_word "nan" (c :: ds) = false.
Proof.
  intros H. destruct (digit_facts c H) as (_ & _ & _ & _ & _ & _ & Hi & Hn).
  unfold is_word, of_chars. simpl. now rewrite Hi, Hn.
Qed.

(** [float] reads a run of digits as the rounded value of the number. *)
Lemma of_str_digits (c : ascii) (ds : list ascii) :
  forallb is_digit (c :: ds) = true ->
  forall s,
    chars s = c :: ds ->
    of_str s = Ok (round false (digits_val (c :: ds)) 1).
Proof.
  intros H s Hs. unfold of_str. rewrite Hs.
  destruct (digits_plain _ H) as (Hsp & Hu).
  rewrite (strip_by_id _ _ Hsp).
  rewrite (underscores_ok_digits _ H None I).
  rewrite (drop_underscores_id _ Hu).
  assert (Hc : is_digit c = true)
    by (simpl in H; now apply andb_true_iff in H as [? _]).
  destruct (digit_facts c Hc) as (_ & _ & _ & Hm & Hp & _).
  unfold parse_sign. rewrite Hm, Hp.
  destruct (not_a_word c ds Hc) as (-> & -> & ->). simpl orb. cbv iota.
  rewrite (parse_decimal_digits c ds H).
  unfold of_decimal. simpl (0 <=? 0). cbv iota.
  now rewrite Z.pow_0_r, Z.mul_1_r.
Qed.

Lemma of_str_minus_digits (c : ascii) (ds : list ascii) :
  forallb is_digit (c :: ds) = true ->
  forall s,
    chars s = "-"%char :: c :: ds ->
    of_str s = Ok (round true (digits_val (c :: ds)) 1).
Proof.
  intros H s Hs. unfold of_str. rewrite Hs.
  destruct (digits_plain _ H) as (Hsp & Hu).
  rewrite strip_by_id by (simpl; simpl in Hsp; exact Hsp).
  assert (Hc : is_digit c = true)
    by (simpl in H; now apply andb_true_iff in H as [? _]).
  assert (Huo : underscores_ok None ("-"%char :: c :: ds) = true).
  { change (underscores_ok None ("-"%char :: c :: ds))
      with (underscores_ok (Some "-"%char) (c :: ds)).
    apply (underscores_ok_digits _ H). reflexivity. }
  rewrite Huo.
  rewrite drop_underscores_id by (simpl; simpl in Hu; exact Hu).
  unfold parse_sign. simpl (Ascii.eqb "-" "-"). cbv iota.
  destruct (not_a_word c ds Hc) as (-> & -> & ->). simpl orb. cbv iota.
  rewrite (parse_decimal_digits c ds H).
  unfold of_decimal. simpl (0 <=? 0). cbv iota.
  now rewrite Z.pow_0_r, Z.mul_1_r.
Qed.

Lemma round_half_even_1 (n : Z) : round_half_even n 1 = n.
Proof.
  unfold round_half_even. rewrite Z.mod_1_r, Z.div_1_r. reflexivity.
Qed.

(** An integer below [2^53] is a float, exactly. *)
Lemma round_exact (neg : bool) (n : Z) :
  0 <= n < 2 ^ 53 ->
  exists m e,
    round neg n 1 = Fin neg m e
    /\ to_int (Fin neg m e) = Ok (if neg then - n else n).
Proof.
  intros Hn. destruct (Z.eq_dec n 0) as [->|Hnz].
  - exists 0, emin. split; [reflexivity|]. now destruct neg.
  - assert (Hpos : 0 < n) by lia.
    pose proof (binade_le n 1 52 Hpos ltac:(lia) ltac:(lia)) as Hle.
    pose proof (binade_ge n 1 0 Hpos ltac:(lia) ltac:(lia)) as Hge.
    assert (Hb : - 0 <= binade n 1 <= 52).
    { split; [apply Hge; lia|apply Hle]. change (52 + 1) with 53. lia. }
    rewrite (round_unfold neg n 1 Hpos). cbv zeta.
    rewrite ulp_exponent_eq.
    unfold prec, emin, emax.
    set (e := Z.max (-1074) (binade n 1 - (53 - 1))).
    assert (He : - 52 <= e <= 0) by (unfold e; lia).
    rewrite (p2_nonneg (- e)) by lia.
    rewrite Z.mul_1_l.
    assert (Hpe : p2 e = 1).
    { destruct (Z.eq_dec e 0) as [->|]; [reflexivity|].
      apply p2_nonpos. lia. }
    rewrite Hpe, round_half_even_1.
    assert (Hlt : n * 2 ^ (- e) < 2 ^ 53).
    { assert (Hbn : n < 2 ^ (binade n 1 + 1)).
      { pose proof (binade_spec n 1 Hpos ltac:(lia)) as [_ Hs].
        rewrite (p2_nonneg (binade n 1)) in Hs by lia.
        rewrite (p2_nonpos (- binade n 1)) in Hs by lia.
        replace (binade n 1 + 1) with (Z.succ (binade n 1)) by lia.
        rewrite Z.pow_succ_r by lia. lia. }
      assert (- e = 52 - binade n 1) by (unfold e; lia).
      replace (2 ^ 53) with (2 ^ (binade n 1 + 1) * 2 ^ (- e)).
      - apply Z.mul_lt_mono_pos_r; [apply Z.pow_pos_nonneg; lia|exact Hbn].
      - rewrite <- Z.pow_add_r by lia. f_equal. lia. }
    destruct (Z.eqb_spec (n * 2 ^ (- e)) (2 ^ 53)) as [Heq|_]; [lia|].
    destruct (Z.ltb_spec (1024 - 53) e) as [Hbig|_]; [lia|].
    exists (n * 2 ^ (- e)), e. split; [reflexivity|].
    unfold to_int.
    destruct (Z.leb_spec 0 e) as [H0|H0].
    + assert (e = 0) by lia. subst e. replace (- 0) with 0 by lia.
      rewrite H. simpl (- 0). rewrite Z.pow_0_r, !Z.mul_1_r. reflexivity.
    + rewrite Z.div_mul by (apply Z.pow_nonzero; lia). reflexivity.
Qed.


Lemma to_uint_head (p : positive) : forall d, Pos.to_uint p <> Decimal.D0 d.
Proof.
  intros d' H.
  pose proof (DecimalPos.Unsigned.to_of (Pos.to_uint p)) as E.
  rewrite DecimalPos.Unsigned.of_to in E. simpl N.to_uint in E.
  assert (Hnz : Decimal.nzhead (Pos.to_uint p) <> Decimal.Nil).
  { intros Hn. apply DecimalFacts.unorm_0 in Hn. rewrite <- E in Hn.
    exact (DecimalPos.Unsigned.to_uint_nonzero p Hn). }
  rewrite (DecimalFacts.unorm_nzhead _ Hnz) in E.
  apply (DecimalFacts.nzhead_nonzero (Pos.to_uint p) d'). congruence.
Qed.

Lemma digits_val_ge (ds : list ascii) :
  forallb is_digit ds = true ->
  forall acc,
    0 <= acc ->
    acc * 10 ^ Z.of_nat (List.length ds)
    <= fold_left (fun a c => 10 * a + digit_val c) ds acc.
Proof.
  induction ds as [|c r IH]; intros H acc Hacc.
  - simpl. lia.
  - simpl in H. apply andb_true_iff in H as [Hc Hr].
    cbn [fold_left List.length]. rewrite Nat2Z.inj_succ, Z.pow_succ_r by lia.
    assert (0 <= digit_val c).
    { unfold is_digit, digit_val in *. lia. }
    specialize (IH Hr (10 * acc + digit_val c) ltac:(lia)).
    assert (0 < 10 ^ Z.of_nat (List.length r))
      by (apply Z.pow_pos_nonneg; lia).
    nia.
Qed.

(** The digits of a positive number: no leading zero, hence as many
    digits as its size asks for. *)
Lemma of_int_pos_length (p : positive) :
  10 ^ (Z.of_nat (List.length (chars (PyStr.of_int (Z.pos p)))) - 1)
  <= Z.pos p.
Proof.
  pose proof (to_uint_head p) as Hh.
  pose proof (DecimalPos.Unsigned.to_uint_nonnil p) as Hnn.
  pose proof (DecimalPos.Unsigned.of_to p) as Hot.
  pose proof (digits_of_uint (Pos.to_uint p)) as Hv.
  pose proof (uint_all_digits (Pos.to_uint p)) as Hd.
  rewrite Hot in Hv. simpl Z.of_N in Hv.
  unfold PyStr.of_int. simpl Z.to_int. simpl NilZero.string_of_int.
  assert (E : NilZero.string_of_uint (Pos.to_uint p)
              = NilEmpty.string_of_uint (Pos.to_uint p))
    by (destruct (Pos.to_uint p); [contradiction|reflexivity..]).
  rewrite E. rewrite <- Hv. clear E Hv Hot.
  revert Hh Hnn Hd.
  destruct (Pos.to_uint p) as [|d|d|d|d|d|d|d|d|d|d]; intros Hh Hnn Hd;
    [contradiction | exfalso; now apply (Hh d) | ..];
    cbn [NilEmpty.string_of_uint chars list_ascii_of_string List.length];
    fold (chars (NilEmpty.string_of_uint d));
    set (ds := chars (NilEmpty.string_of_uint d)) in *;
    rewrite Nat2Z.inj_succ;
    replace (Z.succ (Z.of_nat (List.length ds)) - 1)
      with (Z.of_nat (List.length ds)) by lia;
    unfold digits_val; cbn [fold_left];
    (eapply Z.le_trans;
     [|apply digits_val_ge;
       [exact (proj2 (proj1 (andb_true_iff _ _) Hd))
       |vm_compute; discriminate]]);
    (apply Z.le_trans with (1 * 10 ^ Z.of_nat (List.length ds));
     [lia|apply Z.mul_le_mono_nonneg_r;
          [apply Z.pow_nonneg; lia|vm_compute; discriminate]]).
Qed.

End DigitFacts.

(* ------------------------------------------------------------------ *)
(** ** Integers through [str], [float] and [int] *)

Module RoundTripFacts.
Import PyStr GPUMonitor Notions.
Import FloatFacts SortFacts DigitFacts.

Lemma to_int_of_int (n : Z) :
  Z.abs n < 2 ^ 53 -> to_int (of_int n) = Some n.
Proof.
  intros Hn. unfold to_int. destruct n as [|p|p].
  - reflexivity.
  - destruct (of_int_pos p) as (c & ds & Hc & Hd & Hv).
    rewrite (of_str_digits c ds Hd _ Hc), Hv.
    destruct (round_exact false (Z.pos p) ltac:(lia)) as (m & e & -> & Ht).
    cbn [bind]. now rewrite Ht.
  - destruct (of_int_pos p) as (c & ds & Hc & Hd & Hv).
    assert (Hc' : chars (of_int (Z.neg p)) = "-"%char :: c :: ds)
      by (change (chars (of_int (Z.neg p)))
            with ("-"%char :: chars (of_int (Z.pos p)));
          now rewrite Hc).
    rewrite (of_str_minus_digits c ds Hd _ Hc'), Hv.
    destruct (round_exact true (Z.pos p) ltac:(lia)) as (m & e & -> & Ht).
    cbn [bind]. now rewrite Ht.
Qed.

(** [int] on a run of digits of accepted length, with or without a minus
    sign. *)
Lemma int_of_str_digits (neg : bool) (c : ascii) (ds : list ascii)
  (s : string) :
  forallb is_digit (c :: ds) = true ->
  Z.of_nat (List.length (c :: ds)) <= 4300 ->
  chars s = (if neg then "-"%char :: c :: ds else c :: ds) ->
  PyInt.of_str s
  = Ok (if neg then - digits_val (c :: ds) else digits_val (c :: ds)).
Proof.
  intros Hd Hlen Hs. unfold PyInt.of_str. rewrite Hs.
  destruct (digits_plain _ Hd) as (Hsp & Hu).
  assert (Hcd : is_digit c = true)
    by (simpl in Hd; now apply andb_true_iff in Hd as [? _]).
  destruct (digit_facts c Hcd) as (_ & _ & _ & Hm & Hp & _).
  assert (Hall : forallb PyInt.is_digit_or_underscore (c :: ds) = true).
  { apply forallb_forall. intros x Hx. unfold PyInt.is_digit_or_underscore.
    rewrite forallb_forall in Hd. now rewrite (Hd x Hx). }
  assert (Hparse : parse_sign
                     (strip_by is_number_space
                        (if neg then "-"%char :: c :: ds else c :: ds))
                   = (neg, c :: ds)).
  { destruct neg.
    - rewrite strip_by_id by (simpl; simpl in Hsp; exact Hsp). reflexivity.
    - rewrite (strip_by_id _ _ Hsp). unfold parse_sign. now rewrite Hm, Hp. }
  rewrite Hparse, (drop_underscores_id _ Hu), Hall.
  rewrite (underscores_ok_digits _ Hd None I).
  unfold PyInt.max_str_digits.
  destruct (Z.leb_spec 1 (Z.of_nat (List.length (c :: ds))));
    [|simpl List.length in *; lia].
  destruct (Z.leb_spec (Z.of_nat (List.length (c :: ds))) 4300); [|lia].
  reflexivity.
Qed.

Lemma of_int_pos_short (p : positive) :
  Z.pos p < 10 ^ 4300 ->
  Z.of_nat (List.length (chars (of_int (Z.pos p)))) <= 4300.
Proof.
  intros Hn.
  pose proof (Z.le_lt_trans _ _ _ (of_int_pos_length p) Hn) as Hlt.
  clear Hn.
  apply Z.pow_lt_mono_r_iff in Hlt; [|reflexivity|discriminate].
  clear - Hlt. lia.
Qed.

Lemma of_int_neg_chars (p : positive) :
  chars (of_int (Z.neg p)) = "-"%char :: chars (of_int (Z.pos p)).
Proof. reflexivity. Qed.

Lemma int_of_str_of_int (n : Z) :
  Z.abs n < 10 ^ 4300 -> PyInt.of_str (of_int n) = Ok n.
Proof.
  intros Hn. destruct n as [|p|p]; [reflexivity| |];
    change (Z.pos p < 10 ^ 4300) in Hn;
    pose proof (of_int_pos_short p Hn) as Hlen; clear Hn;
    destruct (of_int_pos p) as (c & ds & Hc & Hd & Hv);
    rewrite Hc in Hlen.
  - rewrite (int_of_str_digits false c ds _ Hd Hlen Hc). now rewrite Hv.
  - assert (Hc' : chars (of_int (Z.neg p)) = "-"%char :: c :: ds)
      by (now rewrite of_int_neg_chars, Hc).
    rewrite (int_of_str_digits true c ds _ Hd Hlen Hc'). now rewrite Hv.
Qed.

(** X6. An integer field parses back to the integer it prints: for every
    [n] with [|n| < 2^53], [int(float(str(n)))] is [n].  Beyond that the
    conversion to float rounds: [2^53 + 1] is read as [2^53]. *)
Theorem X6_integer_fields_round_trip :
  (forall n, Z.abs n < 2 ^ 53 -> to_int (of_int n) = Some n)
  /\ to_int (of_int (2 ^ 53 + 1)) = Some (2 ^ 53).
Proof.
  split; [exact to_int_of_int|]. vm_compute. reflexivity.
Qed.

(** A memory reading of 8192. *)
Lemma X6_witness :
  to_int (of_int 8192) = Some 8192.
Proof.
  apply (proj1 X6_integer_fields_round_trip). vm_compute. reflexivity.
Defined.

Lemma sorted_le_of_ascending (ms : list Z) :
  Forall (fun m => Z.abs m < 10 ^ 4300) ms ->
  ascending (map of_int ms) -> StronglySorted Z.le ms.
Proof.
  induction ms as [|m r IH]; intros Hb Ha; [constructor|].
  inversion Hb as [|? ? Hm Hr]; subst.
  simpl in Ha. inversion Ha as [|? ? Hs Hall]; subst.
  constructor; [now apply IH|].
  rewrite Forall_forall in *. intros x Hx.
  specialize (Hall (of_int x) (in_map _ _ _ Hx)). simpl in Hall.
  unfold int_value in Hall.
  rewrite (int_of_str_of_int m Hm), (int_of_str_of_int x (Hr x Hx)) in Hall.
  exact Hall.
Qed.

(** X7. For ids written as plain decimal integers ([str(n)] with
    [|n| < 10^4300], the limit [int] puts on digit strings),
    [sorted(..., key=int)] returns, and lists the ids by ascending
    numeric value, [10] after [9] and [2]; the result is a permutation
    of the input. *)
Theorem X7_canonical_ids_sort_numerically (ns : list Z) :
  Forall (fun n => Z.abs n < 10 ^ 4300) ns ->
  exists ms,
    sorted_by_int (map of_int ns) = Ok (map of_int ms)
    /\ Permutation ns ms
    /\ StronglySorted Z.le ms.
Proof.
  intros Hb.
  assert (Hn : Forall numeric (map of_int ns)).
  { apply Forall_forall. intros k Hk. apply in_map_iff in Hk as (n & <- & Hin).
    rewrite Forall_forall in Hb. exists n. apply int_of_str_of_int. auto. }
  destruct (sorted_by_int_ok _ Hn) as (ids & Hs & Hp & Ha).
  destruct (Permutation_map_inv _ _ (Permutation_sym Hp)) as (ms & -> & Hp').
  exists ms. split; [exact Hs|]. split; [exact Hp'|].
  apply sorted_le_of_ascending; [|exact Ha].
  eapply Permutation_Forall; eassumption.
Qed.

(** The ids 10, 9 and 2. *)
Lemma X7_witness :
  exists ms,
    sorted_by_int (map of_int [10; 9; 2]) = Ok (map of_int ms)
    /\ Permutation [10; 9; 2] ms
    /\ StronglySorted Z.le ms.
Proof.
  apply (X7_canonical_ids_sort_numerically [10; 9; 2]).
  constructor; [vm_compute; reflexivity|].
  constructor; [vm_compute; reflexivity|].
  constructor; [vm_compute; reflexivity|].
  constructor.
Defined.

End RoundTripFacts.

(* ------------------------------------------------------------------ *)
(** ** A printed line, parsed *)

Module LineFacts.
Import PyStr GPUMonitor Notions.
Import PyStrFacts ParseFacts DigitFacts RoundTripFacts.

Lemma chars_app (a b : string) : chars (a ++ b) = chars a ++ chars b.
Proof. induction a as [|c a IH]; simpl; [reflexivity|]. f_equal. exact IH. Qed.

Lemma chars_of_chars (l : list ascii) : chars (of_chars l) = l.
Proof. apply list_ascii_of_string_of_list_ascii. Qed.

Lemma of_chars_chars (s : string) : of_chars (chars s) = s.
Proof. apply string_of_list_ascii_of_string. Qed.

Lemma split_chars_app (sep : ascii) (a b : list ascii) :
  ~ In sep a ->
  split_chars sep (a ++ sep :: b) = a :: split_chars sep b.
Proof.
  induction a as [|c r IH]; intros Hn; simpl.
  - now rewrite Ascii.eqb_refl.
  - destruct (Ascii.eqb_spec c sep) as [->|_]; [exfalso; apply Hn; now left|].
    rewrite IH by (intros H; apply Hn; now right). reflexivity.
Qed.

Lemma split_chars_one (sep : ascii) (a : list ascii) :
  ~ In sep a -> split_chars sep a = [a].
Proof.
  intros Hn. apply split_chars_no_sep. apply forallb_forall. intros c Hc.
  destruct (Ascii.eqb_spec c sep) as [->|_]; [contradiction|reflexivity].
Qed.

(** Splitting a joined line gives the fields back, each but the first
    behind the space that follows its comma. *)
Lemma split_csv_line (f : string) (fs : list string) :
  Forall comma_free (f :: fs) ->
  split_chars comma (chars (csv_line (f :: fs)))
  = chars f :: map (fun x => " "%char :: chars x) fs.
Proof.
  revert f. induction fs as [|g r IH]; intros f Hc;
    inversion Hc as [|? ? Hf Hr]; subst.
  - unfold csv_line. simpl String.concat. now apply split_chars_one.
  - unfold csv_line in *.
    change (String.concat ", " (f :: g :: r))
      with (f ++ String comma
                   (String " " (String.concat ", " (g :: r))))%string.
    rewrite chars_app.
    change (chars (String comma (String " " (String.concat ", " (g :: r)))))
      with (comma :: " "%char :: chars (String.concat ", " (g :: r))).
    rewrite (split_chars_app _ _ _ Hf).
    cbn [split_chars]. change (Ascii.eqb " " comma) with false. cbv iota.
    rewrite (IH g Hr). reflexivity.
Qed.

Lemma strip_chars_space (c : ascii) (l : list ascii) :
  is_space c = true -> strip_chars (c :: l) = strip_chars l.
Proof.
  intros H. unfold strip_chars, strip_by. simpl. now rewrite H.
Qed.

Lemma fields_csv_line (f : string) (fs : list string) :
  Forall comma_free (f :: fs) ->
  fields (csv_line (f :: fs)) = map strip (f :: fs).
Proof.
  intros Hc. unfold fields, split. rewrite (split_csv_line f fs Hc).
  simpl. unfold strip at 1. rewrite chars_of_chars. f_equal.
  rewrite !map_map. apply map_ext. intros x.
  unfold strip. rewrite chars_of_chars.
  now rewrite strip_chars_space.
Qed.

Lemma strip_of_int (n : Z) : strip (of_int n) = of_int n.
Proof.
  unfold strip, strip_chars.
  assert (H : forallb (fun c => negb (is_space c)) (chars (of_int n)) = true).
  { destruct n as [|p|p]; [reflexivity| |];
      destruct (of_int_pos p) as (c & ds & Hc & Hd & _).
    - rewrite Hc. apply forallb_forall. intros x Hx.
      rewrite forallb_forall in Hd.
      now destruct (digit_facts x (Hd x Hx)) as (_ & -> & _).
    - assert (Hc' : chars (of_int (Z.neg p)) = "-"%char :: c :: ds).
      { unfold of_int in *. simpl Z.to_int in *.
        simpl NilZero.string_of_int in *. unfold chars in *. simpl.
        now rewrite Hc. }
      rewrite Hc'. apply forallb_forall. intros x [<-|Hx]; [reflexivity|].
      rewrite forallb_forall in Hd.
      now destruct (digit_facts x (Hd x Hx)) as (_ & -> & _). }
  rewrite (strip_by_id _ _ H). apply of_chars_chars.
Qed.

Lemma comma_free_of_int (n : Z) : comma_free (of_int n).
Proof.
  unfold comma_free.
  destruct n as [|p|p]; [intros [H|[]]; discriminate H| |];
    destruct (of_int_pos p) as (c & ds & Hc & Hd & _).
  - rewrite Hc. intros Hin. rewrite forallb_forall in Hd.
    now destruct (digit_facts _ (Hd _ Hin)) as (_ & _ & _ & _ & _ & H & _).
  - assert (Hc' : chars (of_int (Z.neg p)) = "-"%char :: c :: ds).
    { unfold of_int in *. simpl Z.to_int in *.
      simpl NilZero.string_of_int in *. unfold chars in *. simpl.
      now rewrite Hc. }
    rewrite Hc'. intros [H|Hin]; [discriminate H|].
    rewrite forallb_forall in Hd.
    now destruct (digit_facts _ (Hd _ Hin)) as (_ & _ & _ & _ & _ & H & _).
Qed.

(** X8. A line as nvidia-smi prints it parses back to what it says: for
    seven fields joined with [", "], the id, the name and the power field
    holding no comma and the four integer readings below [2^53] in
    magnitude, [parse_line] stores under the stripped id the stripped
    name, the four integers exactly, and [float] of the stripped power
    field ([None] when [float] rejects it). *)
Theorem X8_printed_line_parses_back (d : dict info)
  (gpu_id gpu_name power : string) (t u used total : Z) :
  comma_free gpu_id -> comma_free gpu_name -> comma_free power ->
  Z.abs t < 2 ^ 53 -> Z.abs u < 2 ^ 53 ->
  Z.abs used < 2 ^ 53 -> Z.abs total < 2 ^ 53 ->
  parse_line d
    (csv_line [gpu_id; gpu_name; of_int t; of_int u; of_int used;
               of_int total; power])
  = Ok (dict_set (strip gpu_id)
          {| name := Some (strip gpu_name);
             temperature := Some t;
             utilization := Some u;
             memory_used := Some used;
             memory_total := Some total;
             power_draw := to_float (strip power) |}
          d).
Proof.
  intros H0 H1 H6 Ht Hu Hm Hn.
  rewrite (parse_line_long d _ (strip gpu_id) (strip gpu_name) (of_int t)
             (of_int u) (of_int used) (of_int total) (strip power) []).
  - unfold record. now rewrite !to_int_of_int.
  - rewrite fields_csv_line
      by (repeat constructor; auto using comma_free_of_int).
    simpl. now rewrite !strip_of_int.
Qed.

(** GPU 0, 60 degrees, 30 percent, 300 of 8000 MB, 70.5 W. *)
Lemma X8_witness :
  parse_line []
    (csv_line ["0"; "A"; of_int 60; of_int 30; of_int 300; of_int 8000;
               "70.5"])
  = Ok (dict_set (strip "0")
          {| name := Some (strip "A");
             temperature := Some 60;
             utilization := Some 30;
             memory_used := Some 300;
             memory_total := Some 8000;
             power_draw := to_float (strip "70.5") |}
          []).
Proof.
  apply (X8_printed_line_parses_back [] "0" "A" "70.5" 60 30 300 8000).
  - unfold comma_free. simpl. intuition discriminate.
  - unfold comma_free. simpl. intuition discriminate.
  - unfold comma_free. simpl. intuition discriminate.
  - vm_compute. reflexivity.
  - vm_compute. reflexivity.
  - vm_compute. reflexivity.
  - vm_compute. reflexivity.
Defined.

End LineFacts.

(* ------------------------------------------------------------------ *)
(** ** The order of the sample *)

Module OrderFacts.
Import PyStr GPUMonitor Notions.
Import DictFacts SampleFacts.

Lemma filter_twice {A : Type} (p q pq : A -> bool) (l : list A) :
  (forall x, pq x = q x && p x) ->
  filter p (filter q l) = filter pq l.
Proof.
  intros H. induction l as [|a r IH]; simpl; [reflexivity|].
  rewrite H. destruct (q a); simpl; [destruct (p a)|]; now rewrite IH.
Qed.

Lemma mem_str_snoc (x k : string) (l : list string) :
  mem_str x (l ++ [k]) = mem_str x l || String.eqb x k.
Proof.
  unfold mem_str. rewrite existsb_app. simpl. now rewrite orb_false_r.
Qed.

Lemma keys_dict_set {V : Type} (d : dict V) (k : string) (v : V) :
  keys (dict_set k v d)
  = if mem_str k (keys d) then keys d else keys d ++ [k].
Proof.
  destruct (mem_str k (keys d)) eqn:E.
  - apply keys_dict_set_present. now apply mem_str_In.
  - apply keys_dict_set_absent. intros H. apply mem_str_In in H. congruence.
Qed.

Lemma parse_lines_keys (lines : list string) :
  forall d : dict info,
    exists d',
      parse_lines d lines = Ok d'
      /\ keys d'
         = keys d
           ++ filter (fun x => negb (mem_str x (keys d)))
                (first_seen (map fst (entries lines))).
Proof.
  induction lines as [|line rest IH]; intros d.
  - exists d. simpl. now rewrite app_nil_r.
  - cbn [parse_lines]. rewrite parse_line_entry. cbn [bind].
    unfold entries. cbn [flat_map]. fold (entries rest).
    destruct (entry line) as [[k r]|].
    + destruct (IH (dict_set k r d)) as (d' & Hp & Hk).
      exists d'. split; [exact Hp|]. rewrite Hk, keys_dict_set.
      cbn [app map fst first_seen filter].
      destruct (mem_str k (keys d)) eqn:Em; cbn [negb].
      * f_equal. symmetry. apply filter_twice. intros x.
        destruct (String.eqb_spec x k) as [->|_]; [now rewrite Em|reflexivity].
      * rewrite <- app_assoc. cbn [app]. do 2 f_equal. symmetry.
        apply filter_twice. intros x. rewrite mem_str_snoc.
        destruct (mem_str x (keys d)), (String.eqb x k); reflexivity.
    + apply IH.
Qed.

Lemma first_seen_length (ids : list string) :
  (List.length (first_seen ids) <= List.length ids)%nat.
Proof.
  induction ids as [|k r IH]; simpl; [lia|].
  pose proof (filter_length_le (fun x => negb (String.eqb x k)) (first_seen r)).
  lia.
Qed.

Lemma entries_length (lines : list string) :
  (List.length (entries lines) <= List.length lines)%nat.
Proof.
  induction lines as [|l r IH]; simpl; [lia|].
  rewrite length_app. destruct (entry l); simpl; lia.
Qed.

(** X9. The order of the sample is the order of first appearance:
    whatever the text, the keys of the parsed sample are the ids of the
    lines of seven or more fields, in text order, each at the place of
    its first line (a later line with the same id overwrites the record
    but does not move the key).  The sample never has more entries than
    the text has lines. *)
Theorem X9_sample_order_is_first_appearance (data : string) :
  exists sample,
    parse_gpu_data data = Ok sample
    /\ keys sample = first_seen (map fst (entries (lines_of data)))
    /\ (List.length sample <= List.length (lines_of data))%nat.
Proof.
  unfold parse_gpu_data.
  destruct (String.eqb_spec data "") as [->|Hne].
  - exists []. repeat split. simpl. lia.
  - destruct (parse_lines_keys (lines_of data) []) as (d' & Hp & Hk).
    exists d'. split; [exact Hp|]. simpl in Hk.
    assert (Hid : forall l : list string,
               filter (fun x => negb (mem_str x [])) l = l).
    { induction l as [|a r IH]; [reflexivity|].
      cbn [filter]. change (mem_str a []) with false. cbn [negb].
      f_equal. exact IH. }
    rewrite Hid in Hk. split; [exact Hk|].
    rewrite <- (length_map fst d'). fold (keys d'). rewrite Hk.
    eapply Nat.le_trans; [apply first_seen_length|].
    rewrite length_map. apply entries_length.
Qed.

End OrderFacts.

(* ------------------------------------------------------------------ *)
(** ** The loop and the toggle *)

Module IterationFacts.
Import PyStr GPUMonitor Notions.
Import CycleFacts.

Lemma monitor_loop_iterations (longest_sleep : Z)
  (observed : list (bool * result Z)) :
  iterations (monitor_loop longest_sleep observed)
  /\ (refreshes (monitor_loop longest_sleep observed)
      <= List.length observed)%nat.
Proof.
  induction observed as [|[flag interval] rest [IH1 IH2]]; simpl.
  - split; [constructor|apply Nat.le_refl].
  - destruct flag; [|split; [constructor|unfold refreshes; simpl; lia]].
    destruct interval as [n|e]; cbn [bind].
    + unfold sleep.
      destruct (Z.ltb_spec n 0);
        [split; [constructor|unfold refreshes; simpl; lia]|].
      destruct (9223372036 <? n);
        [split; [constructor|unfold refreshes; simpl; lia]|].
      destruct (longest_sleep <? n);
        [split; [constructor|unfold refreshes; simpl; lia]|].
      split; [now constructor|].
      unfold refreshes in *. simpl. lia.
    + split; [constructor|unfold refreshes; simpl; lia].
Qed.

Lemma monitor_loop_stops (longest_sleep : Z)
  (before after : list (bool * result Z)) (interval : result Z) :
  monitor_loop longest_sleep (before ++ (false, interval) :: after)
  = monitor_loop longest_sleep before.
Proof.
  induction before as [|[flag i] rest IH]; simpl; [reflexivity|].
  destruct flag; [|reflexivity].
  destruct (n <- i;; sleep longest_sleep n); [|reflexivity].
  now rewrite IH.
Qed.

Lemma monitor_loop_fails (longest_sleep : Z)
  (before after : list (bool * result Z)) (i : result Z) (e : exn) :
  (n <- i ;; sleep longest_sleep n) = Raise e ->
  Forall (sleeps longest_sleep) before ->
  monitor_loop longest_sleep (before ++ (true, i) :: after)
  = monitor_loop longest_sleep before ++ [After_refresh; Print_error e].
Proof.
  intros He. induction 1 as [|[flag j] rest (Hf & s & Hs) _ IH]; simpl.
  - now rewrite He.
  - simpl in Hf, Hs. subst flag. rewrite Hs. now rewrite IH.
Qed.

(** X10. The trace of [monitor_loop], against any sequence of
    observations of the flag and of the interval.  Each iteration
    schedules exactly one refresh and then sleeps a non-negative time, or
    fails and ends the loop: a trace is a run of (refresh, sleep) pairs,
    optionally ended by a refresh and an error message, and schedules no
    more refreshes than there are observations.  The loop ends at the
    first iteration that reads [is_monitoring] false, scheduling nothing
    more whatever follows; and at the first iteration whose interval
    read or sleep raises, after having scheduled the refresh of that
    iteration. *)
Theorem X10_loop_iterations (longest_sleep : Z) :
  (forall observed,
      iterations (monitor_loop longest_sleep observed)
      /\ (refreshes (monitor_loop longest_sleep observed)
          <= List.length observed)%nat)
  /\ (forall before interval after,
        monitor_loop longest_sleep (before ++ (false, interval) :: after)
        = monitor_loop longest_sleep before)
  /\ (forall before i e after,
        (n <- i ;; sleep longest_sleep n) = Raise e ->
        Forall (sleeps longest_sleep) before ->
        monitor_loop longest_sleep (before ++ (true, i) :: after)
        = monitor_loop longest_sleep before
          ++ [After_refresh; Print_error e]).
Proof.
  split; [apply monitor_loop_iterations|].
  split; [intros; apply monitor_loop_stops|].
  intros. now apply monitor_loop_fails.
Qed.

(** One iteration, then the flag reads false. *)
Lemma X10_witness :
  monitor_loop 86400 ([(true, Ok 5)] ++ (false, Ok 5) :: [(true, Ok 5)])
  = monitor_loop 86400 [(true, Ok 5)].
Proof.
  apply (proj1 (proj2 (X10_loop_iterations 86400))).
Defined.

(** X11. [toggle_monitoring]: the flag after the call is true exactly
    when the monitor was stopped and the check found nvidia-smi.  A
    running monitor is stopped ("Monitoring stopped"); a stopped one
    starts ("Monitoring started..."), or, when the check fails, stays
    stopped with the status of the failed check and one error dialog.
    The call raises only the exception that the check of a stopped
    monitor lets through, and then leaves the monitor as it was.  It
    never touches the stored sample or the cards, and leads from a
    reachable state to a reachable state. *)
Theorem X11_toggle (run : run_result) (st : monitor) :
  let st' := fst (toggle_monitoring run st) in
  is_monitoring st' = negb (is_monitoring st) && available run
  /\ gpu_data st' = gpu_data st
  /\ gpu_cards st' = gpu_cards st
  /\ dialogs st'
     = (if negb (is_monitoring st) && fails run
        then "nvidia-smi is not available" :: dialogs st
        else dialogs st)
  /\ (is_monitoring st = true -> status_label st' = "Monitoring stopped")
  /\ (is_monitoring st = false -> available run = true ->
      status_label st' = "Monitoring started...")
  /\ (is_monitoring st = false -> fails run = true ->
      failure_status (status_label st'))
  /\ snd (toggle_monitoring run st)
     = (if is_monitoring st then None else uncaught run)
  /\ (is_monitoring st = false -> forall e, uncaught run = Some e -> st' = st)
  /\ (reachable st -> reachable st').
Proof.
  unfold toggle_monitoring.
  destruct (is_monitoring st) eqn:Em.
  - simpl. repeat split; auto; try discriminate.
    intros Hr. now apply reach_stop.
  - pose proof (reach_start run st) as Hreach. revert Hreach.
    unfold start_monitoring, failure_status.
    destruct run as [rc out| | |e]; simpl; [destruct (rc =? 0)|..]; simpl;
      intros Hreach; repeat split; auto; try discriminate.
Qed.

End IterationFacts.

(* ------------------------------------------------------------------ *)
(** ** The progress bars *)

Module BarFacts.
Import PyStr GPUMonitor Notions.
Import DictFacts CardFacts FloatFacts SortFacts DashboardFacts SampleFacts.
Import ReconcileFacts CycleFacts.

Lemma update_card_bars (w : card) (i : info) :
  bars_in_range w -> bars_in_range (fst (_update_gpu_card w i)).
Proof.
  intros [_ Hm]. unfold bars_in_range.
  destruct (update_util w i) as (-> & _).
  split; [lia|].
  destruct (mem_pct (mem_used_i i) (mem_total_i i)) as [pct|e] eqn:E.
  - destruct (update_completes w i pct E) as (_ & -> & _). lia.
  - destruct (update_raises w i e E) as (_ & -> & _). exact Hm.
Qed.

Lemma update_cards_bars (items : dict info) :
  forall gpu_cards : dict card,
    Forall (fun kv => bars_in_range (snd kv)) gpu_cards ->
    Forall (fun kv => bars_in_range (snd kv))
           (fst (update_cards items gpu_cards)).
Proof.
  induction items as [|[id0 i0] rest IH]; intros c Hc; simpl; [exact Hc|].
  destruct (dict_get id0 c) as [w|] eqn:E0; [|now apply IH].
  pose proof (update_card_bars w i0 (dict_get_Forall _ _ _ _ Hc E0)) as Hw.
  destruct (_update_gpu_card w i0) as [w' e]. simpl in Hw.
  pose proof (dict_set_Forall bars_in_range c id0 w' Hc Hw) as Hs.
  destruct e; simpl; [exact Hs|now apply IH].
Qed.

Lemma created_bars (gpu_data : dict info) (ids : list string) :
  forall row,
    Forall (fun kv => bars_in_range (snd kv)) (created gpu_data ids row).
Proof.
  induction ids as [|k r IH]; intros row; simpl; constructor; auto.
  unfold bars_in_range. simpl. lia.
Qed.

Lemma build_or_update_bars (gpu_data : dict info) (gpu_cards : dict card) :
  NoDup (keys gpu_data) ->
  Forall (fun kv => bars_in_range (snd kv)) gpu_cards ->
  Forall (fun kv => bars_in_range (snd kv))
         (fst (build_or_update_dashboard gpu_data gpu_cards)).
Proof.
  intros Hnd Hc. unfold build_or_update_dashboard.
  destruct (gpu_set_changed gpu_cards gpu_data).
  - destruct (sorted_by_int (keys gpu_data)) as [ids|e] eqn:Es;
      [|constructor].
    pose proof (sorted_by_int_Ok_inv _ _ Es) as Hp.
    assert (Hids : NoDup ids) by (eapply Permutation_NoDup; eassumption).
    rewrite (create_cards_eq gpu_data ids 0 [] Hids) by (intros ? _ []).
    apply update_cards_bars. apply created_bars.
  - now apply update_cards_bars.
Qed.

Lemma reachable_bars (st : monitor) :
  reachable st ->
  Forall (fun kv => bars_in_range (snd kv)) (gpu_cards st).
Proof.
  induction 1 as [run st Hi|env st Hr IH|run st Hr IH|st Hr IH].
  - destruct (init_state run st Hi) as (_ & -> & _). constructor.
  - destruct (refresh_state env st) as (_ & [->| ->] & _); [exact IH|].
    apply build_or_update_bars; [|exact IH].
    apply reachable_sample. now apply reach_refresh.
  - destruct (start_stop_keep run st) as (_ & -> & _). exact IH.
  - destruct (start_stop_keep FileNotFoundError st) as (_ & _ & _ & ->).
    exact IH.
Qed.

(** X12. In every state the monitor can reach, both progress bars of
    every card, utilization and memory, hold a value from 0 to 100:
    readings outside that range never reach a bar. *)
Theorem X12_bars_stay_in_range (st : monitor) :
  reachable st ->
  Forall (fun kv =>
            0 <= util_bar (snd kv) <= 100 /\ 0 <= mem_bar (snd kv) <= 100)
         (gpu_cards st).
Proof. exact (reachable_bars st). Qed.

(** After start-up and one cycle on three GPUs. *)
Lemma X12_witness :
  Forall (fun kv =>
            0 <= util_bar (snd kv) <= 100 /\ 0 <= mem_bar (snd kv) <= 100)
         (gpu_cards first_render).
Proof.
  apply (X12_bars_stay_in_range first_render).
  apply reach_refresh. now apply (reach_init (Completed 0 "v")).
Defined.

Lemma round_half_even_mul (k d : Z) :
  0 < d -> PyFloat.round_half_even (k * d) d = k.
Proof.
  intros Hd. unfold PyFloat.round_half_even.
  rewrite Z.mod_mul, Z.div_mul by lia.
  destruct d; try lia. reflexivity.
Qed.

(** [a / a] is [1.0]. *)
Lemma round_one (n : Z) :
  0 < n -> PyFloat.round false n n = PyFloat.Fin false (2 ^ 52) (- 52).
Proof.
  intros Hn.
  pose proof (binade_le n n 0 Hn Hn ltac:(lia) ltac:(simpl; lia)) as Hle.
  pose proof (binade_ge n n 0 Hn Hn ltac:(lia) ltac:(simpl; lia)) as Hge.
  assert (Hb : binade n n = 0) by lia.
  rewrite (round_unfold false n n Hn). cbv zeta.
  rewrite ulp_exponent_eq, Hb.
  change (Z.max PyFloat.emin (0 - (PyFloat.prec - 1))) with (- 52).
  change (p2 (- - 52)) with (2 ^ 52). change (p2 (- 52)) with 1.
  rewrite Z.mul_1_r, (Z.mul_comm n), round_half_even_mul by exact Hn.
  reflexivity.
Qed.

Lemma mem_pct_full (a : Z) : a <> 0 -> mem_pct a a = Ok 100.
Proof.
  intros Ha. unfold mem_pct, PyFloat.int_truediv.
  destruct (Z.eqb_spec a 0) as [|_]; [contradiction|].
  rewrite xorb_nilpotent, (round_one (Z.abs a)) by lia.
  cbn [bind]. rewrite of_int_100. cbn [bind]. vm_compute. reflexivity.
Qed.

(** X13. A full device shows exactly 100%: [a / a] is [1.0] and
    [1.0 * 100] is [100.0], without rounding, so the percentage of two
    equal non-zero readings is 100; when used and total are the same
    positive reading [a], the update completes, the memory bar is at 100
    and the label reads "a / a MB (100%)". *)
Theorem X13_full_memory_is_100 :
  (forall a, a <> 0 -> mem_pct a a = Ok 100)
  /\ (forall w i a,
        0 < a -> memory_used i = Some a -> memory_total i = Some a ->
        snd (_update_gpu_card w i) = None
        /\ mem_bar (fst (_update_gpu_card w i)) = 100
        /\ mem_label (fst (_update_gpu_card w i))
           = (of_int a ++ " / " ++ of_int a ++ " MB (100%)")%string).
Proof.
  split; [exact mem_pct_full|].
  intros w i a Ha Hu Ht.
  assert (E1 : mem_used_i i = a) by (unfold mem_used_i; now rewrite Hu).
  assert (E2 : mem_total_i i = a).
  { unfold mem_total_i. rewrite Ht.
    destruct (Z.ltb_spec 0 a); [reflexivity|lia]. }
  assert (E : mem_pct (mem_used_i i) (mem_total_i i) = Ok 100)
    by (rewrite E1, E2; apply mem_pct_full; lia).
  destruct (update_completes w i 100 E) as (H1 & H2 & H3 & _).
  rewrite H1, H2, H3, E1, E2. auto.
Qed.

(** 8000 MB used of 8000 MB. *)
Lemma X13_witness : mem_pct 8000 8000 = Ok 100.
Proof.
  apply (proj1 X13_full_memory_is_100 8000). discriminate.
Defined.

End BarFacts.

(* ------------------------------------------------------------------ *)
(** ** Readings with decimals *)

Module PowerFacts.
Import PyStr GPUMonitor Notions.
Import FloatFacts PyStrFacts CardFacts DigitFacts RoundTripFacts LineFacts.

Lemma round_half_even_nearest (n d k : Z) :
  0 < d -> 2 * Z.abs (n - k * d) < d -> PyFloat.round_half_even n d = k.
Proof.
  intros Hd Hk.
  destruct (round_half_even_near n d Hd) as [H1 H2].
  set (c := PyFloat.round_half_even n d) in *.
  assert (c < k + 1) by nia.
  assert (k - 1 < c) by nia.
  lia.
Qed.

Lemma digits_val_app (a b : list ascii) :
  digits_val (a ++ b)
  = digits_val a * 10 ^ Z.of_nat (List.length b) + digits_val b.
Proof.
  unfold digits_val. rewrite fold_left_app.
  generalize (fold_left (fun acc c => 10 * acc + digit_val c) a 0) as x.
  induction b as [|c r IH]; intros x.
  - simpl. lia.
  - cbn [fold_left List.length]. rewrite IH, (IH (10 * 0 + digit_val c)).
    rewrite Nat2Z.inj_succ, Z.pow_succ_r by lia. ring.
Qed.

(** The digits of [str(n)] for a natural number. *)
Lemma of_int_nonneg (n : Z) :
  0 <= n ->
  exists c ds,
    chars (of_int n) = c :: ds
    /\ forallb is_digit (c :: ds) = true
    /\ digits_val (c :: ds) = n.
Proof.
  intros Hn. destruct n as [|p|p]; [|apply of_int_pos|lia].
  exists "0"%char, []. repeat split.
Qed.

Lemma two_digits_chars (b : Z) :
  0 <= b < 100 ->
  exists d1 d2,
    chars (PyFloat.two_digits b) = [d1; d2]
    /\ is_digit d1 = true /\ is_digit d2 = true
    /\ digits_val [d1; d2] = b.
Proof.
  intros Hb.
  assert (H : forallb
                (fun n =>
                   match chars (PyFloat.two_digits (Z.of_nat n)) with
                   | [d1; d2] =>
                       is_digit d1 && is_digit d2
                       && (digits_val [d1; d2] =? Z.of_nat n)
                   | _ => false
                   end) (seq 0 100) = true) by (vm_compute; reflexivity).
  rewrite forallb_forall in H.
  specialize (H (Z.to_nat b)). rewrite Z2Nat.id in H by lia.
  assert (Hin : In (Z.to_nat b) (seq 0 100)) by (apply in_seq; lia).
  specialize (H Hin).
  destruct (chars (PyFloat.two_digits b)) as [|d1 [|d2 [|? ?]]];
    try discriminate.
  apply andb_true_iff in H as [H H3]. apply andb_true_iff in H as [H1 H2].
  exists d1, d2. repeat split; auto. now apply Z.eqb_eq.
Qed.

Lemma plain_facts (c : ascii) :
  is_digit c = true \/ c = "."%char ->
  is_number_space c = false /\ is_underscore c = false.
Proof.
  intros [H| ->]; [|split; reflexivity].
  now destruct (digit_facts c H) as (? & _ & ? & _).
Qed.

Lemma underscores_ok_plain (l : list ascii) :
  forallb (fun c => negb (is_underscore c)) l = true ->
  forall prev,
    match prev with Some p => is_underscore p = false | None => True end ->
    underscores_ok prev l = true.
Proof.
  induction l as [|c r IH]; simpl; intros H prev Hp.
  - destruct prev; [now rewrite Hp|reflexivity].
  - apply andb_true_iff in H as [Hc Hr]. apply negb_true_iff in Hc.
    rewrite Hc. rewrite (IH Hr (Some c) Hc), andb_true_r.
    destruct prev; [now rewrite Hp|reflexivity].
Qed.

Lemma span_digits_point (ds r : list ascii) :
  forallb is_digit ds = true ->
  span is_digit (ds ++ "."%char :: r) = (ds, "."%char :: r).
Proof.
  induction ds as [|c t IH]; simpl; [reflexivity|].
  intros H. apply andb_true_iff in H as [-> Hr]. now rewrite IH.
Qed.

(** [float] reads a text with two decimals as the rounded quotient of
    its hundredths by 100. *)
Lemma to_float_two_decimals (a b : Z) :
  0 <= a -> 0 <= b < 100 ->
  to_float (two_decimals a b)
  = Some (PyFloat.round false (100 * a + b) 100).
Proof.
  intros Ha Hb. unfold to_float, two_decimals.
  destruct (of_int_nonneg a Ha) as (c & ds & Hc & Hd & Hv).
  destruct (two_digits_chars b Hb) as (d1 & d2 & H2 & Hd1 & Hd2 & Hv2).
  unfold PyFloat.of_str.
  rewrite chars_app, Hc.
  change (chars ("." ++ PyFloat.two_digits b))
    with ("."%char :: chars (PyFloat.two_digits b)).
  rewrite H2.
  set (l := (c :: ds) ++ ["."%char; d1; d2]).
  assert (Hall : forall x, In x l -> is_digit x = true \/ x = "."%char).
  { intros x Hx. unfold l in Hx. apply in_app_or in Hx as [Hx|Hx].
    - left. rewrite forallb_forall in Hd. auto.
    - destruct Hx as [<-|[<-|[<-|[]]]]; auto. }
  assert (Hsp : forallb (fun c => negb (is_number_space c)) l = true).
  { apply forallb_forall. intros x Hx.
    now destruct (plain_facts x (Hall x Hx)) as (-> & _). }
  assert (Hu : forallb (fun c => negb (is_underscore c)) l = true).
  { apply forallb_forall. intros x Hx.
    now destruct (plain_facts x (Hall x Hx)) as (_ & ->). }
  rewrite (strip_by_id _ _ Hsp), (underscores_ok_plain _ Hu None I).
  rewrite (drop_underscores_id _ Hu).
  assert (Hcd : is_digit c = true)
    by (simpl in Hd; now apply andb_true_iff in Hd as [? _]).
  destruct (digit_facts c Hcd) as (_ & _ & _ & Hm & Hp & _).
  unfold l. cbn [app]. unfold PyStr.parse_sign. rewrite Hm, Hp.
  change (c :: ds ++ ["."%char; d1; d2]) with ((c :: ds) ++ ["."%char; d1; d2]).
  assert (Hw : PyFloat.is_word "inf" ((c :: ds) ++ ["."%char; d1; d2]) = false
               /\ PyFloat.is_word "infinity" ((c :: ds) ++ ["."%char; d1; d2])
                  = false
               /\ PyFloat.is_word "nan" ((c :: ds) ++ ["."%char; d1; d2])
                  = false)
    by (apply (not_a_word c _ Hcd)).
  destruct Hw as (-> & -> & ->). simpl orb. cbv iota.
  unfold PyFloat.parse_decimal. rewrite (span_digits_point _ _ Hd).
  simpl (Ascii.eqb "." "."). cbv iota.
  assert (Hsp2 : span is_digit [d1; d2] = ([d1; d2], [])).
  { simpl. now rewrite Hd1, Hd2. }
  rewrite Hsp2.
  assert (Hval : digits_val ((c :: ds) ++ [d1; d2]) = 100 * a + b).
  { rewrite digits_val_app, Hv, Hv2. simpl List.length.
    change (10 ^ Z.of_nat 2) with 100. ring. }
  change ((c :: ds) ++ [d1; d2]) with (c :: (ds ++ [d1; d2])) in *.
  cbv iota. simpl PyFloat.parse_exponent. cbv iota.
  rewrite Hval. unfold except_None, PyFloat.of_decimal. simpl. reflexivity.
Qed.

(** A float read from a text with two decimals, below [2^46], prints
    back on two decimals as that text. *)
Lemma format_2f_round (k : Z) :
  0 <= k < 100 * 2 ^ 46 ->
  PyFloat.format_2f (PyFloat.round false k 100)
  = two_decimals (k / 100) (k mod 100).
Proof.
  intros Hk. destruct (Z.eq_dec k 0) as [->|Hnz]; [reflexivity|].
  assert (Hpos : 0 < k) by lia.
  pose proof (binade_le k 100 45 Hpos ltac:(lia) ltac:(lia)) as Hle.
  pose proof (binade_ge k 100 7 Hpos ltac:(lia) ltac:(lia)) as Hge.
  assert (Hb : - 7 <= binade k 100 <= 45).
  { split; [apply Hge; simpl; lia|apply Hle].
    change (45 + 1) with 46. lia. }
  assert (He : PyFloat.ulp_exponent k 100 = binade k 100 - 52).
  { rewrite ulp_exponent_eq. unfold PyFloat.emin, PyFloat.prec. lia. }
  destruct (round_normal false k 100 Hpos ltac:(lia))
    as (_ & N1 & N2 & M & X & Hr & Hs).
  { rewrite He. unfold PyFloat.emin. lia. }
  { rewrite He. unfold PyFloat.emax, PyFloat.prec. lia. }
  rewrite He in *.
  set (e := binade k 100 - 52) in *.
  assert (Hen : - 59 <= e <= - 7) by (unfold e; lia).
  rewrite (p2_nonpos e) in * by lia.
  rewrite (p2_nonneg (- e)) in * by lia.
  set (T := 2 ^ (- e)) in *.
  assert (HT : 128 <= T).
  { unfold T. change 128 with (2 ^ 7). apply Z.pow_le_mono_r; lia. }
  set (m := PyFloat.round_half_even (k * T) (100 * 1)) in *.
  rewrite Hr. unfold PyFloat.format_2f. rewrite times_pow2_eq.
  unfold same_value in Hs. rewrite (p2_nonpos e) in Hs by lia.
  rewrite (p2_nonneg (- e)) in Hs by lia. fold T in Hs.
  set (S := p2 (- X)) in *. set (A := M * p2 X) in *.
  assert (HS : 0 < S) by apply p2_pos.
  assert (Hc : PyFloat.round_half_even (M * 100 * p2 X) (1 * S) = k).
  { apply round_half_even_nearest; [lia|].
    replace (M * 100 * p2 X - k * (1 * S)) with (100 * A - k * S)
      by (unfold A; ring).
    set (D := 100 * A - k * S).
    set (E := 100 * m - k * T).
    assert (HE : Z.abs E <= 50) by (unfold E; lia).
    assert (HTD : T * D = S * E) by (unfold D, E; nia).
    pose proof (f_equal Z.abs HTD) as H1.
    rewrite !Z.abs_mul, (Z.abs_eq T), (Z.abs_eq S) in H1 by lia.
    assert (H2 : S * Z.abs E <= S * 50)
      by (apply Z.mul_le_mono_nonneg_l; lia).
    assert (H3 : S * 128 <= S * T)
      by (apply Z.mul_le_mono_nonneg_l; lia).
    apply (Z.mul_lt_mono_pos_l T); [lia|]. lia. }
  rewrite Hc. reflexivity.
Qed.

(** X14. A power reading printed with two decimals is displayed as
    printed: for a text [W.hh] with [0 <= W < 2^46], [float] reads it and
    the format [.2f] prints the same text back, so an update that
    completes sets the power label to that text followed by [" W"]. *)
Theorem X14_power_text_round_trip (whole hundredths : Z) :
  0 <= whole < 2 ^ 46 -> 0 <= hundredths < 100 ->
  exists watts,
    to_float (two_decimals whole hundredths) = Some watts
    /\ PyFloat.format_2f watts = two_decimals whole hundredths
    /\ forall w i,
        power_draw i = Some watts ->
        snd (_update_gpu_card w i) = None ->
        power_label (fst (_update_gpu_card w i))
        = (two_decimals whole hundredths ++ " W")%string.
Proof.
  intros Ha Hb. exists (PyFloat.round false (100 * whole + hundredths) 100).
  split; [apply to_float_two_decimals; lia|].
  assert (Hf : PyFloat.format_2f
                 (PyFloat.round false (100 * whole + hundredths) 100)
               = two_decimals whole hundredths).
  { rewrite format_2f_round by lia. f_equal.
    - rewrite Z.mul_comm, Z.div_add_l by lia.
      rewrite Z.div_small by lia. lia.
    - rewrite Z.add_comm, Z.mul_comm, Z.mod_add by lia.
      apply Z.mod_small. lia. }
  split; [exact Hf|].
  intros w i Hp Hn.
  destruct (mem_pct (mem_used_i i) (mem_total_i i)) as [pct|e] eqn:E.
  - destruct (update_completes w i pct E) as (_ & _ & _ & ->).
    now rewrite Hp, Hf.
  - destruct (update_raises w i e E) as (Hx & _). congruence.
Qed.

(** 120.50 W. *)
Lemma X14_witness :
  exists watts,
    to_float (two_decimals 120 50) = Some watts
    /\ PyFloat.format_2f watts = two_decimals 120 50
    /\ forall w i,
        power_draw i = Some watts ->
        snd (_update_gpu_card w i) = None ->
        power_label (fst (_update_gpu_card w i))
        = (two_decimals 120 50 ++ " W")%string.
Proof.
  apply (X14_power_text_round_trip 120 50).
  - vm_compute. split; [discriminate|reflexivity].
  - vm_compute. split; [discriminate|reflexivity].
Defined.

(** [int(float(text))] drops the decimals. *)
Lemma to_int_round (a b : Z) :
  0 <= a < 2 ^ 46 -> 0 <= b < 100 ->
  exists f,
    PyFloat.round false (100 * a + b) 100 = f /\ PyFloat.to_int f = Ok a.
Proof.
  intros Ha Hb. set (k := 100 * a + b).
  destruct (Z.eq_dec k 0) as [Hz|Hnz].
  - rewrite Hz. eexists. split; [reflexivity|].
    assert (a = 0) by lia. subst a. reflexivity.
  - assert (Hpos : 0 < k) by lia.
    assert (Hk : k < 100 * 2 ^ 46) by lia.
    pose proof (binade_le k 100 45 Hpos ltac:(lia) ltac:(lia)) as Hle.
    pose proof (binade_ge k 100 7 Hpos ltac:(lia) ltac:(lia)) as Hge.
    assert (Hbn : - 7 <= binade k 100 <= 45).
    { split; [apply Hge; simpl; lia|apply Hle].
      change (45 + 1) with 46. lia. }
    assert (He : PyFloat.ulp_exponent k 100 = binade k 100 - 52).
    { rewrite ulp_exponent_eq. unfold PyFloat.emin, PyFloat.prec. lia. }
    destruct (round_normal false k 100 Hpos ltac:(lia))
      as (_ & N1 & N2 & M & X & Hr & Hs).
    { rewrite He. unfold PyFloat.emin. lia. }
    { rewrite He. unfold PyFloat.emax, PyFloat.prec. lia. }
    rewrite He in *.
    set (e := binade k 100 - 52) in *.
    assert (Hen : - 59 <= e <= - 7) by (unfold e; lia).
    destruct (to_int_floor M X _ e Hs) as (p & Hp & Hlo & Hhi).
    rewrite (p2_nonpos e) in * by lia.
    rewrite (p2_nonneg (- e)) in * by lia.
    set (T := 2 ^ (- e)) in *.
    assert (HT : 128 <= T).
    { unfold T. change 128 with (2 ^ 7). apply Z.pow_le_mono_r; lia. }
    set (m := PyFloat.round_half_even (k * T) (100 * 1)) in *.
    exists (PyFloat.Fin false M X). split; [exact Hr|].
    rewrite Hp. f_equal.
    assert (Hm1 : a * T <= m).
    { assert (100 * (a * T) - 50 <= 100 * m) by (unfold k in N2; nia). lia. }
    assert (Hm2 : m < (a + 1) * T).
    { assert (100 * m <= 100 * (a * T) + 99 * T + 50)
        by (unfold k in N1; nia).
      nia. }
    assert (p < a + 1) by nia.
    assert (a < p + 1) by nia.
    lia.
Qed.

(** X15. [int(float(text))] drops the decimals of a reading: for a text
    [W.hh] with two decimals and [0 <= W < 2^46], [to_int] gives [W],
    by truncation and not by rounding ([45.99] is read as 45). *)
Theorem X15_decimals_are_dropped (whole hundredths : Z) :
  0 <= whole < 2 ^ 46 -> 0 <= hundredths < 100 ->
  to_int (two_decimals whole hundredths) = Some whole.
Proof.
  intros Ha Hb.
  pose proof (to_float_two_decimals whole hundredths ltac:(lia) Hb) as Hf.
  assert (Ho : PyFloat.of_str (two_decimals whole hundredths)
               = Ok (PyFloat.round false (100 * whole + hundredths) 100)).
  { unfold to_float, except_None in Hf.
    destruct (PyFloat.of_str (two_decimals whole hundredths));
      congruence. }
  unfold to_int. rewrite Ho. cbn [bind].
  destruct (to_int_round whole hundredths Ha Hb) as (f & Hf' & Ht).
  now rewrite Hf', Ht.
Qed.

(** 45.99 degrees. *)
Lemma X15_witness : to_int (two_decimals 45 99) = Some 45.
Proof.
  apply (X15_decimals_are_dropped 45 99).
  - vm_compute. split; [discriminate|reflexivity].
  - vm_compute. split; [discriminate|reflexivity].
Defined.

End PowerFacts.

(* ------------------------------------------------------------------ *)
(** ** The summary *)

Module SummaryFacts.
Import PyStr GPUMonitor Notions.
Import DictFacts SampleFacts NamedFacts ReconcileFacts CycleFacts BarFacts.

(** X16. [format_summary] on the stored sample of any reachable state
    returns: "No GPU data available" when the sample is empty, and
    otherwise the heading followed by the lines of each GPU, in the order
    of the sample.  It returns on every parsed sample, every record of
    which has its keys; on a sample holding a record without them (the
    empty dictionary a [defaultdict] makes) it raises the [KeyError] of
    [info['name']]. *)
Theorem X16_summary_text :
  (forall st,
      reachable st ->
      format_summary (gpu_data st)
      = Some (match gpu_data st with
              | [] => "No GPU data available"
              | items =>
                  (summary_heading ++ join_all (map entry_text items))%string
              end))
  /\ (forall text sample,
        parse_gpu_data text = Ok sample ->
        exists summary, format_summary sample = Some summary)
  /\ (forall sample id i,
        In (id, i) sample -> name i = None -> format_summary sample = None).
Proof.
  split; [|split].
  - intros st Hr. pose proof (reachable_named st Hr) as Hn.
    unfold format_summary. destruct (gpu_data st) as [|kv rest];
      [reflexivity|].
    now rewrite (summary_entries_named _ Hn).
  - intros text sample Hp. pose proof (parsed_named _ _ Hp) as Hn.
    unfold format_summary. destruct sample as [|kv rest]; [now eexists|].
    rewrite (summary_entries_named _ Hn). now eexists.
  - intros sample id i Hin Hn. unfold format_summary.
    destruct sample as [|kv rest]; [destruct Hin|].
    now apply (summary_entries_unnamed _ id i).
Qed.

(** The summary after the first cycle on three GPUs. *)
Lemma X16_witness :
  format_summary (gpu_data first_render)
  = Some (match gpu_data first_render with
          | [] => "No GPU data available"
          | items =>
              (summary_heading ++ join_all (map entry_text items))%string
          end).
Proof.
  apply (proj1 X16_summary_text first_render).
  apply reach_refresh. now apply (reach_init (Completed 0 "v")).
Defined.

End SummaryFacts.

(* ------------------------------------------------------------------ *)
(** ** When the percentage is exact *)

Module ExactFacts.
Import PyFloat Notions FloatFacts.

(** The two roundings of [int((a / b) * 100)] on scaled integers: the
    quotient rounds to [m1 / T1], its product with 100 to [m2 / T2], and
    the result is the floor [p] of that. *)
Lemma mem_pct_scaled (a b : Z) :
  1 <= a < 2 ^ 45 -> 1 <= b < 2 ^ 45 ->
  exists p k1 m1 k2 m2,
    GPUMonitor.mem_pct a b = Ok p
    /\ 0 <= k1 /\ 0 <= k2
    /\ 2 ^ 52 * b <= a * 2 ^ k1
    /\ 2 * (m1 * b) <= 2 * (a * 2 ^ k1) + b
    /\ 2 * (a * 2 ^ k1) <= 2 * (m1 * b) + b
    /\ 2 ^ 52 * 2 ^ k1 <= 100 * m1 * 2 ^ k2
    /\ 2 * (m2 * 2 ^ k1) <= 200 * m1 * 2 ^ k2 + 2 ^ k1
    /\ 200 * m1 * 2 ^ k2 <= 2 * (m2 * 2 ^ k1) + 2 ^ k1
    /\ p * 2 ^ k2 <= m2 < (p + 1) * 2 ^ k2.
Proof.
  intros Ha Hb.
  assert (P45 : 2 ^ 45 = 35184372088832) by reflexivity.
  unfold GPUMonitor.mem_pct, int_truediv.
  replace (b =? 0) with false by (symmetry; apply Z.eqb_neq; lia).
  replace (a <? 0) with false by (symmetry; apply Z.ltb_ge; lia).
  replace (b <? 0) with false by (symmetry; apply Z.ltb_ge; lia).
  rewrite !Z.abs_eq by lia. simpl xorb.
  assert (Ha0 : 0 < a) by lia. assert (Hb0 : 0 < b) by lia.
  assert (K1hi : binade a b <= 44).
  { apply binade_le; lia. }
  assert (K1lo : - 45 <= binade a b).
  { apply (binade_ge a b 45); lia. }
  assert (E1 : ulp_exponent a b = binade a b - 52).
  { rewrite ulp_exponent_eq. unfold emin, prec. lia. }
  assert (E1lo : emin < ulp_exponent a b) by (rewrite E1; unfold emin; lia).
  assert (E1hi : ulp_exponent a b < emax - prec)
    by (rewrite E1; unfold emax, prec; lia).
  destruct (round_normal false a b Ha0 Hb0 E1lo E1hi)
    as (F1 & N1 & N2 & M1 & X1 & R1 & V1).
  rewrite R1. cbn [bind]. rewrite of_int_100. cbn [bind].
  unfold hundred, mul. simpl xorb.
  set (e1 := ulp_exponent a b) in *.
  set (m1 := round_half_even (a * p2 (- e1)) (b * p2 e1)) in *.
  assert (S1 : p2 e1 = 1) by (apply p2_nonpos; lia).
  assert (Hm1 : 2 ^ 52 <= m1 <= 2 ^ 53).
  { pose proof (p2_pos e1). subst m1. split.
    - apply round_half_even_ge; [lia | apply F1].
    - apply round_half_even_le; [lia|]. apply Z.lt_le_incl, F1. }
  rewrite S1, !Z.mul_1_r in F1, N1, N2.
  assert (HT1e : p2 (- e1) = 2 ^ (- e1)) by (apply p2_nonneg; lia).
  set (T1 := p2 (- e1)) in *.
  assert (HT1 : 0 < T1) by apply p2_pos.
  assert (T1hi : T1 <= 2 ^ 97).
  { rewrite HT1e. apply Z.pow_le_mono_r; lia. }
  unfold prec in F1. simpl (53 - 1) in F1.
  unfold round_pow2. rewrite times_pow2_eq.
  set (n2 := M1 * 7036874417766400 * p2 (X1 + -46)).
  set (d2 := 1 * p2 (- (X1 + -46))).
  assert (Hd2 : 0 < d2)
    by (subst d2; pose proof (p2_pos (- (X1 + -46))); lia).
  assert (R : n2 * T1 = 100 * m1 * d2).
  { unfold same_value in V1. fold T1 in V1. rewrite S1, Z.mul_1_r in V1.
    pose proof (p2_pos (- X1)) as PX.
    assert (I : 70368744177664 * p2 (X1 + -46) * p2 (- X1)
                = p2 X1 * p2 (- (X1 + -46))).
    { change 70368744177664 with (2 ^ 46). unfold p2.
      rewrite <- !Z.pow_add_r by lia. f_equal. lia. }
    apply Z.mul_reg_r with (p2 (- X1)); [lia|]. subst n2 d2.
    transitivity (100 * M1 * T1
                  * (70368744177664 * p2 (X1 + -46) * p2 (- X1))); [ring|].
    rewrite I.
    transitivity (100 * (M1 * p2 X1 * T1) * p2 (- (X1 + -46))); [ring|].
    rewrite V1. ring. }
  change (2 ^ 52) with 4503599627370496 in *.
  change (2 ^ 53) with 9007199254740992 in *.
  change (2 ^ 97) with 158456325028528675187087900672 in *.
  assert (Hn2 : 0 < n2).
  { apply (Z.mul_pos_cancel_r n2 T1 HT1). rewrite R.
    apply Z.mul_pos_pos; [lia|exact Hd2]. }
  assert (K2hi : binade n2 d2 <= 52).
  { apply binade_le; try lia.
    change (2 ^ (52 + 1)) with 9007199254740992.
    apply Z.mul_lt_mono_pos_r with T1; [exact HT1|]. rewrite R.
    assert (HT128 : 128 <= T1).
    { destruct (Z_lt_le_dec T1 128) as [Hlt|]; [exfalso|assumption].
      assert (a * T1 <= a * 127)
        by (apply Z.mul_le_mono_nonneg_l; lia).
      lia. }
    assert (100 * m1 < 9007199254740992 * T1) by lia.
    replace (d2 * 9007199254740992 * T1)
      with (9007199254740992 * T1 * d2) by ring.
    apply Z.mul_lt_mono_pos_r; [exact Hd2|assumption]. }
  assert (K2lo : - 45 <= binade n2 d2).
  { apply (binade_ge n2 d2 45); try lia.
    change (2 ^ 45) with 35184372088832.
    apply Z.mul_le_mono_pos_r with T1; [exact HT1|].
    replace (n2 * 35184372088832 * T1) with (n2 * T1 * 35184372088832)
      by ring.
    rewrite R.
    replace (100 * m1 * d2 * 35184372088832)
      with (100 * m1 * 35184372088832 * d2) by ring.
    rewrite (Z.mul_comm d2 T1).
    apply Z.mul_le_mono_nonneg_r; [lia|].
    lia. }
  assert (E2 : ulp_exponent n2 d2 = binade n2 d2 - 52).
  { rewrite ulp_exponent_eq. unfold emin, prec. lia. }
  assert (E2lo : emin < ulp_exponent n2 d2)
    by (rewrite E2; unfold emin; lia).
  assert (E2hi : ulp_exponent n2 d2 < emax - prec)
    by (rewrite E2; unfold emax, prec; lia).
  destruct (round_normal false n2 d2 Hn2 Hd2 E2lo E2hi)
    as (F3 & N3 & N4 & M2 & X2 & R2 & V2).
  rewrite R2.
  set (e2 := ulp_exponent n2 d2) in *.
  set (m2 := round_half_even (n2 * p2 (- e2)) (d2 * p2 e2)) in *.
  destruct (to_int_floor M2 X2 m2 e2 V2) as (p & Hp & P).
  assert (S2 : p2 e2 = 1) by (apply p2_nonpos; lia).
  rewrite S2, !Z.mul_1_r in F3, N3, N4, P.
  assert (HT2e : p2 (- e2) = 2 ^ (- e2)) by (apply p2_nonneg; lia).
  set (T2 := p2 (- e2)) in *.
  assert (HT2 : 0 < T2) by apply p2_pos.
  unfold prec in F3. simpl (53 - 1) in F3.
  change (2 ^ 52) with 4503599627370496 in F3.
  assert (G2 : 4503599627370496 * T1 <= 100 * m1 * T2).
  { apply Z.mul_le_mono_pos_r with d2; [exact Hd2|].
    replace (100 * m1 * T2 * d2) with (100 * m1 * d2 * T2) by ring.
    rewrite <- R.
    replace (4503599627370496 * T1 * d2)
      with (T1 * (4503599627370496 * d2)) by ring.
    replace (n2 * T1 * T2) with (T1 * (n2 * T2)) by ring.
    apply Z.mul_le_mono_nonneg_l; [lia|apply F3]. }
  assert (G3 : 2 * (m2 * T1) <= 200 * m1 * T2 + T1).
  { apply Z.mul_le_mono_pos_r with d2; [exact Hd2|].
    replace ((200 * m1 * T2 + T1) * d2)
      with (2 * (100 * m1 * d2) * T2 + T1 * d2) by ring.
    rewrite <- R.
    replace (2 * (m2 * T1) * d2) with (T1 * (2 * (m2 * d2))) by ring.
    replace (2 * (n2 * T1) * T2 + T1 * d2)
      with (T1 * (2 * (n2 * T2) + d2)) by ring.
    apply Z.mul_le_mono_nonneg_l; [lia|exact N3]. }
  assert (G4 : 200 * m1 * T2 <= 2 * (m2 * T1) + T1).
  { apply Z.mul_le_mono_pos_r with d2; [exact Hd2|].
    replace (200 * m1 * T2 * d2) with (2 * (100 * m1 * d2) * T2) by ring.
    rewrite <- R.
    replace (2 * (n2 * T1) * T2) with (T1 * (2 * (n2 * T2))) by ring.
    replace ((2 * (m2 * T1) + T1) * d2)
      with (T1 * (2 * (m2 * d2) + d2)) by ring.
    apply Z.mul_le_mono_nonneg_l; [lia|exact N4]. }
  exists p, (- e1), m1, (- e2), m2.
  rewrite <- HT1e, <- HT2e.
  split; [exact Hp|]. split; [lia|]. split; [lia|].
  split; [lia|]. split; [exact N1|]. split; [exact N2|].
  split; [exact G2|]. split; [exact G3|]. split; [exact G4|]. exact P.
Qed.

(** When the exact percentage is not a whole number, the second
    rounding cannot reach the next integer below it. *)
Lemma two_roundings_not_below (a b T1 m1 T2 m2 p : Z) :
  1 <= a < 2 ^ 45 -> 1 <= b -> 0 < T1 -> 0 < T2 ->
  2 ^ 52 * b <= a * T1 ->
  2 * (a * T1) <= 2 * (m1 * b) + b ->
  200 * m1 * T2 <= 2 * (m2 * T1) + T1 ->
  m2 < (p + 1) * T2 ->
  (p + 1) * b + 1 <= 100 * a ->
  False.
Proof.
  change (2 ^ 45) with 35184372088832.
  change (2 ^ 52) with 4503599627370496.
  intros Ha Hb HT1 HT2 F1 N2 N4 P2 Hx.
  set (Q := T1 * T2).
  assert (HQ : 0 < Q) by (subst Q; nia).
  assert (HT : 128 * b < T1) by nia.
  assert (B2 : 200 * m1 * T2 <= 2 * (p + 1) * Q - T1).
  { assert (2 * (m2 + 1) * T1 <= 2 * ((p + 1) * T2) * T1)
      by (apply Z.mul_le_mono_nonneg_r; lia).
    subst Q. nia. }
  assert (B3 : 200 * a * Q
               <= b * (2 * (p + 1) * Q - T1) + 100 * b * T2).
  { assert (100 * T2 * (2 * (a * T1)) <= 100 * T2 * (2 * (m1 * b) + b))
      by (apply Z.mul_le_mono_nonneg_l; lia).
    assert (b * (200 * m1 * T2) <= b * (2 * (p + 1) * Q - T1))
      by (apply Z.mul_le_mono_nonneg_l; lia).
    subst Q. nia. }
  assert (B4 : 2 * ((p + 1) * b + 1) * Q <= 2 * (100 * a) * Q)
    by (apply Z.mul_le_mono_nonneg_r; lia).
  assert (B5 : 2 * Q + b * T1 <= 100 * b * T2) by lia.
  assert (B6 : (128 * b) * T2 <= T1 * T2)
    by (apply Z.mul_le_mono_nonneg_r; lia).
  subst Q. nia.
Qed.


Lemma floor_unique (n d p : Z) :
  0 < d -> p * d <= n < (p + 1) * d -> n / d = p.
Proof.
  intros Hd [H1 H2]. symmetry.
  apply (Z.div_unique n d p (n - p * d)); [|ring].
  left. lia.
Qed.

(** With a power of two below, both roundings are exact. *)
Lemma two_roundings_dyadic (a b U V m1 m2 p : Z) :
  0 < b -> 0 < U -> 0 < V ->
  2 * (m1 * b) <= 2 * (a * (b * U)) + b ->
  2 * (a * (b * U)) <= 2 * (m1 * b) + b ->
  2 * (m2 * (b * U)) <= 200 * m1 * (b * V) + b * U ->
  200 * m1 * (b * V) <= 2 * (m2 * (b * U)) + b * U ->
  p * (b * V) <= m2 < (p + 1) * (b * V) ->
  p * b <= 100 * a < (p + 1) * b.
Proof.
  intros Hb HU HV N1 N2 N3 N4 [P1 P2].
  assert (E1 : m1 = a * U).
  { assert (b * (2 * m1) <= b * (2 * (a * U) + 1)) by lia.
    assert (b * (2 * (a * U)) <= b * (2 * m1 + 1)) by lia.
    assert (2 * m1 <= 2 * (a * U) + 1)
      by (apply (Z.mul_le_mono_pos_l _ _ b); assumption).
    assert (2 * (a * U) <= 2 * m1 + 1)
      by (apply (Z.mul_le_mono_pos_l _ _ b); assumption).
    lia. }
  subst m1.
  set (W := b * U) in *.
  assert (HW : 0 < W) by (apply Z.mul_pos_pos; assumption).
  assert (E2 : m2 = 100 * a * V).
  { assert (W * (2 * m2) <= W * (2 * (100 * a * V) + 1)).
    { replace (W * (2 * (100 * a * V) + 1))
        with (200 * (a * U) * (b * V) + W) by (unfold W; ring).
      lia. }
    assert (W * (2 * (100 * a * V)) <= W * (2 * m2 + 1)).
    { replace (W * (2 * (100 * a * V)))
        with (200 * (a * U) * (b * V)) by (unfold W; ring).
      lia. }
    assert (2 * m2 <= 2 * (100 * a * V) + 1)
      by (apply (Z.mul_le_mono_pos_l _ _ W); assumption).
    assert (2 * (100 * a * V) <= 2 * m2 + 1)
      by (apply (Z.mul_le_mono_pos_l _ _ W); assumption).
    lia. }
  subst m2. split.
  - apply (Z.mul_le_mono_pos_r _ _ V HV).
    replace (p * b * V) with (p * (b * V)) by ring. lia.
  - apply (Z.mul_lt_mono_pos_r V _ _ HV).
    replace ((p + 1) * b * V) with ((p + 1) * (b * V)) by ring. lia.
Qed.

Lemma pow2_split (j k : Z) :
  0 <= j -> 2 ^ j < 2 ^ k -> exists U, 0 < U /\ 2 ^ k = 2 ^ j * U.
Proof.
  intros Hj Hlt.
  assert (Hk : j < k).
  { destruct (Z_lt_le_dec j k) as [|Hle]; [assumption|exfalso].
    destruct (Z_lt_le_dec k 0) as [Hneg|Hpos].
    - rewrite (Z.pow_neg_r 2 k Hneg) in Hlt.
      pose proof (Z.pow_pos_nonneg 2 j ltac:(lia) Hj). lia.
    - pose proof (Z.pow_le_mono_r 2 k j ltac:(lia) Hle). lia. }
  exists (2 ^ (k - j)). split; [apply Z.pow_pos_nonneg; lia|].
  rewrite <- Z.pow_add_r by lia. f_equal. lia.
Qed.

(** X17. The memory percentage is the exact floor of
    [100 * used / total] whenever [100 * used] is not a multiple of
    [total], and whenever [total] is a power of two (readings below
    [2^45]): the percentage can fall one short of the floor only when
    the exact percentage is a whole number, as for 29 of 100. *)
Theorem X17_percentage_is_exact :
  (forall used total,
      1 <= used < 2 ^ 45 -> 1 <= total < 2 ^ 45 ->
      ~ (total | 100 * used) ->
      GPUMonitor.mem_pct used total = Ok (100 * used / total))
  /\ (forall used j,
        0 <= used < 2 ^ 45 -> 0 <= j < 45 ->
        GPUMonitor.mem_pct used (2 ^ j) = Ok (100 * used / 2 ^ j)).
Proof.
  split.
  - intros a b Ha Hb Hnd.
    destruct (mem_pct_scaled a b Ha Hb)
      as (p & k1 & m1 & k2 & m2 & Hp & Hk1 & Hk2 & G1 & N1 & N2 & G2 & G3
          & G4 & P).
    rewrite Hp. f_equal. symmetry.
    assert (HT1 : 0 < 2 ^ k1) by (apply Z.pow_pos_nonneg; lia).
    assert (HT2 : 0 < 2 ^ k2) by (apply Z.pow_pos_nonneg; lia).
    pose proof (two_roundings_floor a b (2 ^ k1) m1 (2 ^ k2) m2 p Ha
                  ltac:(lia) HT1 HT2 G1 N1 N2 G2 G3 G4 P) as [L _].
    apply floor_unique; [lia|]. split; [exact L|].
    destruct (Z_lt_le_dec (100 * a) ((p + 1) * b)) as [|Hge]; [assumption|].
    exfalso.
    assert (Hne : 100 * a <> (p + 1) * b).
    { intros E. apply Hnd. exists (p + 1). exact E. }
    apply (two_roundings_not_below a b (2 ^ k1) m1 (2 ^ k2) m2 p Ha
             ltac:(lia) HT1 HT2 G1 N2 G4 (proj2 P)).
    lia.
  - intros a j Ha Hj.
    assert (Hb : 1 <= 2 ^ j < 2 ^ 45).
    { split.
      - pose proof (Z.pow_pos_nonneg 2 j ltac:(lia) ltac:(lia)). lia.
      - apply Z.pow_lt_mono_r; lia. }
    destruct (Z.eq_dec a 0) as [->|Hnz].
    { rewrite mem_pct_of_nothing. reflexivity. }
    destruct (mem_pct_scaled a (2 ^ j) ltac:(lia) Hb)
      as (p & k1 & m1 & k2 & m2 & Hp & Hk1 & Hk2 & G1 & N1 & N2 & G2 & G3
          & G4 & P).
    rewrite Hp. f_equal. symmetry.
    set (b := 2 ^ j) in *.
    assert (HT1 : 0 < 2 ^ k1) by (apply Z.pow_pos_nonneg; lia).
    assert (HT2 : 0 < 2 ^ k2) by (apply Z.pow_pos_nonneg; lia).
    assert (Hlt1 : b < 2 ^ k1).
    { change (2 ^ 52) with 4503599627370496 in G1.
      change (2 ^ 45) with 35184372088832 in Ha.
      assert (a * 2 ^ k1 <= 35184372088832 * 2 ^ k1)
        by (apply Z.mul_le_mono_nonneg_r; lia).
      lia. }
    destruct (pow2_split j k1 ltac:(lia) Hlt1) as (U & HU & EU).
    fold b in EU. rewrite EU in *.
    assert (Em1 : m1 = a * U).
    { assert (b * (2 * m1) <= b * (2 * (a * U) + 1)) by lia.
      assert (b * (2 * (a * U)) <= b * (2 * m1 + 1)) by lia.
      assert (2 * m1 <= 2 * (a * U) + 1)
        by (apply (Z.mul_le_mono_pos_l _ _ b); [lia|assumption]).
      assert (2 * (a * U) <= 2 * m1 + 1)
        by (apply (Z.mul_le_mono_pos_l _ _ b); [lia|assumption]).
      lia. }
    assert (Hlt2 : b < 2 ^ k2).
    { change (2 ^ 52) with 4503599627370496 in G2.
      change (2 ^ 45) with 35184372088832 in Ha.
      rewrite Em1 in G2.
      assert (U * (4503599627370496 * b) <= U * (100 * a * 2 ^ k2)).
      { replace (U * (4503599627370496 * b))
          with (4503599627370496 * (b * U)) by ring.
        replace (U * (100 * a * 2 ^ k2))
          with (100 * (a * U) * 2 ^ k2) by ring.
        exact G2. }
      assert (4503599627370496 * b <= 100 * a * 2 ^ k2)
        by (apply (Z.mul_le_mono_pos_l _ _ U); assumption).
      assert (100 * a * 2 ^ k2 <= 3518437208883100 * 2 ^ k2)
        by (apply Z.mul_le_mono_nonneg_r; lia).
      lia. }
    destruct (pow2_split j k2 ltac:(lia) Hlt2) as (V & HV & EV).
    fold b in EV. rewrite EV in *.
    apply floor_unique; [lia|].
    exact (two_roundings_dyadic a b U V m1 m2 p ltac:(lia) HU HV
             N1 N2 G3 G4 P).
Qed.

(** Two thirds: 66. *)
Lemma X17_witness : GPUMonitor.mem_pct 2 3 = Ok (100 * 2 / 3).
Proof.
  apply (proj1 X17_percentage_is_exact 2 3).
  - vm_compute. split; [discriminate|reflexivity].
  - vm_compute. split; [discriminate|reflexivity].
  - intros [k Hk]. lia.
Defined.

End ExactFacts.

(* ------------------------------------------------------------------ *)
(** ** A printed sample, parsed *)

Module PrintFacts.
Import PyStr GPUMonitor Notions.
Import PyStrFacts ParseFacts DictFacts DigitFacts RoundTripFacts LineFacts.

Lemma lstrip_by_length (p : ascii -> bool) (l : list ascii) :
  (List.length (lstrip_by p l) <= List.length l)%nat.
Proof.
  induction l as [|c r IH]; simpl; [lia|]. destruct (p c); simpl; lia.
Qed.

Lemma lstrip_by_fixed (p : ascii -> bool) (c : ascii) (r : list ascii) :
  lstrip_by p (c :: r) = c :: r -> p c = false.
Proof.
  simpl. destruct (p c); [|reflexivity]. intros H.
  pose proof (lstrip_by_length p r) as Hl. rewrite H in Hl. simpl in Hl. lia.
Qed.

Lemma lstrip_by_head (p : ascii -> bool) (c : ascii) (r : list ascii) :
  p c = false -> lstrip_by p (c :: r) = c :: r.
Proof. intros H. simpl. now rewrite H. Qed.

Lemma lstrip_same_length (p : ascii -> bool) (l : list ascii) :
  List.length (lstrip_by p l) = List.length l -> lstrip_by p l = l.
Proof.
  destruct l as [|c r]; [reflexivity|]. simpl. destruct (p c); [|reflexivity].
  intros H. pose proof (lstrip_by_length p r). lia.
Qed.

(** A text that [strip] leaves alone has no white space at either end. *)
Lemma strip_by_fixed (p : ascii -> bool) (l : list ascii) :
  strip_by p l = l ->
  lstrip_by p l = l /\ lstrip_by p (rev l) = rev l.
Proof.
  unfold strip_by. intros H.
  pose proof (lstrip_by_length p l) as H1.
  pose proof (lstrip_by_length p (rev (lstrip_by p l))) as H2.
  pose proof (f_equal (@List.length ascii) H) as H3.
  rewrite length_rev in H3. rewrite length_rev in H2.
  assert (E1 : lstrip_by p l = l) by (apply lstrip_same_length; lia).
  split; [exact E1|]. rewrite E1 in *.
  apply lstrip_same_length. rewrite length_rev. lia.
Qed.

Lemma strip_by_ends (p : ascii -> bool) (l : list ascii) :
  lstrip_by p l = l -> lstrip_by p (rev l) = rev l -> strip_by p l = l.
Proof.
  intros H1 H2. unfold strip_by. rewrite H1, H2. apply rev_involutive.
Qed.

Lemma lstrip_by_app (p : ascii -> bool) (a b : list ascii) :
  a <> [] -> lstrip_by p a = a -> lstrip_by p (a ++ b) = a ++ b.
Proof.
  destruct a as [|c r]; [congruence|]. intros _ H.
  apply lstrip_by_fixed in H. simpl. now rewrite H.
Qed.

(** White space inside a text is not stripped. *)
Lemma strip_by_between (p : ascii -> bool) (a b c : list ascii) :
  a <> [] -> c <> [] -> strip_by p a = a -> strip_by p c = c ->
  strip_by p (a ++ b ++ c) = a ++ b ++ c.
Proof.
  intros Ha Hc Sa Sc.
  destruct (strip_by_fixed p a Sa) as (A1 & _).
  destruct (strip_by_fixed p c Sc) as (_ & C2).
  apply strip_by_ends.
  - now apply lstrip_by_app.
  - rewrite !rev_app_distr, <- app_assoc. apply lstrip_by_app; [|exact C2].
    intros E. apply Hc. apply (f_equal (@rev ascii)) in E.
    now rewrite rev_involutive in E.
Qed.


Lemma chars_unlines (l : string) (ls : list string) :
  chars (unlines (l :: ls))
  = chars l ++ flat_map (fun x => newline :: chars x) ls.
Proof.
  revert l. induction ls as [|m r IH]; intros l.
  - simpl. now rewrite app_nil_r.
  - unfold unlines in *.
    change (String.concat (String newline "") (l :: m :: r))
      with (l ++ String newline
                   (String.concat (String newline "") (m :: r)))%string.
    rewrite chars_app.
    change (chars (String newline (String.concat (String newline "") (m :: r))))
      with (newline :: chars (String.concat (String newline "") (m :: r))).
    rewrite IH. reflexivity.
Qed.

Lemma split_flat_lines (l : list ascii) (ls : list string) :
  ~ In newline l ->
  Forall (fun x => ~ In newline (chars x)) ls ->
  split_chars newline (l ++ flat_map (fun x => newline :: chars x) ls)
  = l :: map chars ls.
Proof.
  intros Hl Hls. revert l Hl. induction Hls as [|m r Hm _ IH]; intros l Hl.
  - simpl. rewrite app_nil_r. now apply split_chars_one.
  - cbn [flat_map map]. rewrite <- app_comm_cons.
    rewrite (split_chars_app _ _ _ Hl). f_equal. now apply IH.
Qed.

(** A text of lines without newlines splits into its lines. *)
Lemma split_unlines (l : string) (ls : list string) :
  Forall (fun x => ~ In newline (chars x)) (l :: ls) ->
  split newline (unlines (l :: ls)) = l :: ls.
Proof.
  intros H. inversion H as [|? ? Hl Hls]; subst.
  unfold split. rewrite chars_unlines, (split_flat_lines _ _ Hl Hls).
  simpl. rewrite of_chars_chars. f_equal.
  rewrite map_map. rewrite <- (map_id ls) at 2. apply map_ext.
  intros x. apply of_chars_chars.
Qed.

Lemma chars_csv_line (f : string) (fs : list string) :
  chars (csv_line (f :: fs))
  = chars f ++ flat_map (fun x => comma :: " "%char :: chars x) fs.
Proof.
  revert f. induction fs as [|g r IH]; intros f.
  - simpl. now rewrite app_nil_r.
  - unfold csv_line in *.
    change (String.concat ", " (f :: g :: r))
      with (f ++ String comma
                   (String " " (String.concat ", " (g :: r))))%string.
    rewrite chars_app.
    change (chars (String comma (String " " (String.concat ", " (g :: r)))))
      with (comma :: " "%char :: chars (String.concat ", " (g :: r))).
    rewrite IH. reflexivity.
Qed.

Lemma newline_free_of_int (n : Z) : ~ In newline (chars (of_int n)).
Proof.
  destruct n as [|p|p]; [intros [H|[]]; discriminate H| |];
    destruct (of_int_pos p) as (c & ds & Hc & Hd & _).
  - rewrite Hc. intros Hin. rewrite forallb_forall in Hd.
    specialize (Hd _ Hin). discriminate Hd.
  - rewrite of_int_neg_chars, Hc. intros [H|Hin]; [discriminate H|].
    rewrite forallb_forall in Hd. specialize (Hd _ Hin). discriminate Hd.
Qed.

Lemma in_csv_line (c : ascii) (f : string) (fs : list string) :
  In c (chars (csv_line (f :: fs))) ->
  c = comma \/ c = " "%char \/ exists x, In x (f :: fs) /\ In c (chars x).
Proof.
  rewrite chars_csv_line. intros Hin.
  apply in_app_or in Hin as [Hin|Hin].
  - right. right. exists f. split; [now left|exact Hin].
  - apply in_flat_map in Hin as (x & Hx & [<-|[<-|Hc]]); auto.
    right. right. exists x. split; [now right|exact Hc].
Qed.

Lemma newline_free_line (r : reading) :
  printable r -> ~ In newline (chars (line_of r)).
Proof.
  intros ((_ & H0 & _) & _ & (_ & H1 & _) & (_ & H6 & _) & _) Hin.
  unfold line_of in Hin.
  apply in_csv_line in Hin as [H|[H|(x & Hx & Hc)]]; try discriminate H.
  simpl in Hx.
  destruct Hx as [<-|[<-|[<-|[<-|[<-|[<-|[<-|[]]]]]]]]; try contradiction;
    now apply newline_free_of_int in Hc.
Qed.

Lemma strip_plain (s : string) : plain s -> strip s = s.
Proof. now intros (_ & _ & H). Qed.

(** The line of a printable reading parses to its entry. *)
Lemma parse_line_of (d : dict info) (r : reading) :
  printable r ->
  parse_line d (line_of r)
  = Ok (dict_set (fst (entry_of r)) (snd (entry_of r)) d).
Proof.
  intros (H0 & _ & H1 & H6 & _ & Ht & Hu & Hm & Hn).
  rewrite (parse_line_long d _ (r_index r) (r_name r)
             (of_int (r_temperature r)) (of_int (r_utilization r))
             (of_int (r_memory_used r)) (of_int (r_memory_total r))
             (r_power r) []).
  - unfold record, entry_of. simpl. now rewrite !to_int_of_int.
  - unfold line_of. rewrite fields_csv_line.
    + simpl. now rewrite !strip_of_int, !strip_plain.
    + repeat constructor; try apply comma_free_of_int;
        [apply H0|apply H1|apply H6].
Qed.

Lemma parse_lines_of (rs : list reading) :
  forall d : dict info,
    Forall printable rs ->
    NoDup (map r_index rs) ->
    (forall r, In r rs -> ~ In (r_index r) (keys d)) ->
    parse_lines d (map line_of rs) = Ok (d ++ map entry_of rs).
Proof.
  induction rs as [|r rest IH]; intros d Hp Hnd Hfresh.
  - simpl. now rewrite app_nil_r.
  - inversion Hp as [|? ? Hr Hrest]; subst.
    inversion Hnd as [|? ? Hid Hnd']; subst.
    cbn [map parse_lines]. rewrite (parse_line_of d r Hr). cbn [bind].
    assert (Hk : ~ In (r_index r) (keys d)) by (apply Hfresh; now left).
    change (fst (entry_of r)) with (r_index r).
    rewrite (dict_set_absent d _ _ Hk).
    rewrite IH; [now rewrite <- app_assoc|exact Hrest|exact Hnd'|].
    intros x Hx Hin. unfold keys in Hin. rewrite map_app in Hin.
    apply in_app_or in Hin as [Hin|[Hin|[]]].
    + apply (Hfresh x); [now right|exact Hin].
    + simpl in Hin. apply Hid. rewrite Hin. now apply in_map.
Qed.

Lemma chars_nonempty (s : string) : s <> "" -> chars s <> [].
Proof.
  intros H E. apply H. rewrite <- (of_chars_chars s), E. reflexivity.
Qed.

Lemma plain_ends (s : string) :
  plain s ->
  lstrip_by is_space (chars s) = chars s
  /\ lstrip_by is_space (rev (chars s)) = rev (chars s).
Proof.
  intros (_ & _ & H). apply strip_by_fixed.
  unfold strip in H. apply (f_equal chars) in H.
  now rewrite chars_of_chars in H.
Qed.

(** A printed text begins with the first index. *)
Lemma printed_starts (r : reading) (rs : list reading) :
  exists rest,
    chars (unlines (map line_of (r :: rs))) = chars (r_index r) ++ rest.
Proof.
  cbn [map]. rewrite chars_unlines. unfold line_of at 1.
  rewrite chars_csv_line, <- app_assoc. now eexists.
Qed.

Lemma line_ends (r : reading) :
  exists before, chars (line_of r) = before ++ chars (r_power r).
Proof.
  unfold line_of. rewrite chars_csv_line. cbn [flat_map].
  rewrite app_nil_r.
  exists (chars (r_index r) ++ comma :: " "%char :: chars (r_name r)
          ++ comma :: " "%char :: chars (of_int (r_temperature r))
          ++ comma :: " "%char :: chars (of_int (r_utilization r))
          ++ comma :: " "%char :: chars (of_int (r_memory_used r))
          ++ comma :: " "%char :: chars (of_int (r_memory_total r))
          ++ [comma; " "%char]).
  repeat (rewrite <- ?app_assoc, <- ?app_comm_cons). reflexivity.
Qed.

(** A printed text ends with the last power column. *)
Lemma printed_ends (rs : list reading) (r : reading) :
  exists before,
    chars (unlines (map line_of (rs ++ [r]))) = before ++ chars (r_power r).
Proof.
  destruct (line_ends r) as (b & Hb).
  destruct rs as [|r0 rest].
  - simpl. exists b. exact Hb.
  - rewrite <- app_comm_cons. cbn [map]. rewrite chars_unlines.
    rewrite map_app, flat_map_app. cbn [map flat_map].
    rewrite app_nil_r, Hb.
    exists (chars (line_of r0)
            ++ flat_map (fun x => newline :: chars x) (map line_of rest)
            ++ newline :: b).
    repeat (rewrite <- ?app_assoc, <- ?app_comm_cons). reflexivity.
Qed.

Lemma lstrip_by_blank (p : ascii -> bool) (ws l : list ascii) :
  forallb p ws = true -> lstrip_by p (ws ++ l) = lstrip_by p l.
Proof.
  induction ws as [|c r IH]; simpl; [reflexivity|].
  intros H. apply andb_true_iff in H as [-> Hr]. now apply IH.
Qed.

(** [strip] takes the white space around a text away, and only that. *)
Lemma strip_by_around (p : ascii -> bool) (ws1 l ws2 : list ascii) :
  forallb p ws1 = true -> forallb p ws2 = true ->
  lstrip_by p l = l -> lstrip_by p (rev l) = rev l -> l <> [] ->
  strip_by p (ws1 ++ l ++ ws2) = l.
Proof.
  intros H1 H2 Hl Hr Hne. unfold strip_by.
  rewrite (lstrip_by_blank p ws1 _ H1).
  rewrite (lstrip_by_app p l ws2 Hne Hl).
  rewrite rev_app_distr.
  rewrite lstrip_by_blank by (now rewrite forallb_rev).
  rewrite Hr. apply rev_involutive.
Qed.

(** [strip] gives the printed text, whatever white space is around it. *)
Lemma strip_printed (rs : list reading) (before after : string) :
  rs <> [] -> Forall printable rs -> blank before -> blank after ->
  strip (before ++ unlines (map line_of rs) ++ after)
  = unlines (map line_of rs).
Proof.
  intros Hne Hp Hb Ha.
  unfold strip, strip_chars. rewrite !chars_app.
  rewrite strip_by_around; [apply of_chars_chars|exact Hb|exact Ha|..].
  - destruct rs as [|r rest]; [congruence|].
    inversion Hp as [|? ? (H0 & Hn0 & _) _]; subst.
    destruct (printed_starts r rest) as (x & ->).
    apply lstrip_by_app; [now apply chars_nonempty|].
    now apply plain_ends.
  - destruct (exists_last Hne) as (front & r & ->).
    apply Forall_app in Hp as (_ & Hr).
    inversion Hr as [|? ? (_ & _ & _ & H6 & Hn6 & _) _]; subst.
    destruct (printed_ends front r) as (x & ->).
    rewrite rev_app_distr. apply lstrip_by_app; [|now apply plain_ends].
    intros E. apply (chars_nonempty _ Hn6).
    apply (f_equal (@rev ascii)) in E. now rewrite rev_involutive in E.
  - destruct rs as [|r rest]; [congruence|].
    inversion Hp as [|? ? (_ & Hn0 & _) _]; subst.
    destruct (printed_starts r rest) as (x & ->).
    intros E. apply (chars_nonempty _ Hn0).
    destruct (chars (r_index r)); [reflexivity|discriminate].
Qed.

Lemma two_readings_printable : Forall printable two_readings.
Proof.
  repeat constructor; simpl; try (intuition discriminate);
    try (vm_compute; reflexivity).
Qed.

(** On a printed text the parser runs over the printed lines. *)
Lemma printed_lines (rs : list reading) (before after : string) :
  rs <> [] -> Forall printable rs -> blank before -> blank after ->
  parse_gpu_data (before ++ unlines (map line_of rs) ++ after)
  = parse_lines [] (map line_of rs).
Proof.
  intros Hne Hp Hb Ha. unfold parse_gpu_data.
  pose proof (strip_printed rs before after Hne Hp Hb Ha) as Hs.
  destruct (String.eqb_spec
              (before ++ unlines (map line_of rs) ++ after) "") as [E|_].
  - exfalso. rewrite E in Hs. simpl in Hs.
    destruct rs as [|r rest]; [congruence|].
    inversion Hp as [|? ? (_ & Hn0 & _) _]; subst.
    destruct (printed_starts r rest) as (x & Hx).
    rewrite <- Hs in Hx. apply (chars_nonempty _ Hn0).
    destruct (chars (r_index r)); [reflexivity|discriminate].
  - rewrite Hs. f_equal.
    destruct rs as [|r rest]; [congruence|]. cbn [map].
    apply split_unlines. rewrite <- (map_cons line_of).
    apply Forall_map. rewrite Forall_forall in *. intros x Hx.
    apply newline_free_line. now apply Hp.
Qed.

(** X18. A printed sample parses back to itself: for a non-empty list of
    readings with distinct indices, each printed on a line as nvidia-smi
    does (seven columns joined with [", "]; index, name and power
    without comma, newline or surrounding white space, index and power
    not empty; the four integers below [2^53] in magnitude), whatever
    white space stands before and after the lines (a final newline,
    say), the parser returns exactly one entry per reading, in the order
    of the lines, with the name and the four integers as printed and the
    power read by [float]. *)
Theorem X18_printed_sample_parses_back (rs : list reading)
  (before after : string) :
  rs <> [] -> Forall printable rs -> NoDup (map r_index rs) ->
  blank before -> blank after ->
  parse_gpu_data (before ++ unlines (map line_of rs) ++ after)
  = Ok (map entry_of rs).
Proof.
  intros Hne Hp Hnd Hb Ha. rewrite (printed_lines rs _ _ Hne Hp Hb Ha).
  apply (parse_lines_of rs [] Hp Hnd). intros r _ [].
Qed.

(** Two GPUs, listed out of order. *)
Lemma X18_witness :
  parse_gpu_data ("" ++ unlines (map line_of two_readings) ++ nl)
  = Ok (map entry_of two_readings).
Proof.
  apply (X18_printed_sample_parses_back two_readings "" nl).
  - discriminate.
  - exact two_readings_printable.
  - repeat (constructor; [simpl; intuition discriminate|]). constructor.
  - reflexivity.
  - reflexivity.
Defined.

End PrintFacts.

(* ------------------------------------------------------------------ *)
(** ** From the printed text to the dashboard *)

Module EndToEndFacts.
Import PyStr GPUMonitor Notions.
Import DictFacts CardFacts FloatFacts SortFacts DashboardFacts SampleFacts.
Import ReconcileFacts CycleFacts LayoutFacts RefreshFacts FailureFacts.
Import PrintFacts.

Lemma keys_entries (rs : list reading) :
  keys (map entry_of rs) = map r_index rs.
Proof. unfold keys. rewrite map_map. reflexivity. Qed.

(** Printed readings with numeric indices render without an exception. *)
Lemma printed_renders (rs : list reading) (gpu_cards : dict card) :
  Forall printable rs ->
  Forall (fun r => numeric (r_index r)) rs ->
  snd (build_or_update_dashboard (map entry_of rs) gpu_cards) = None.
Proof.
  intros Hp Hn.
  destruct (snd (build_or_update_dashboard (map entry_of rs) gpu_cards))
    as [e|] eqn:E; [exfalso|reflexivity].
  destruct (build_or_update_raises _ _ _ E)
    as [(_ & _ & id & Hin & Hid)|(_ & id & i & Hin & Hbig)].
  - rewrite keys_entries in Hin. apply in_map_iff in Hin as (r & <- & Hr).
    rewrite Forall_forall in Hn. exact (Hid (Hn r Hr)).
  - apply in_map_iff in Hin as (r & Er & Hr).
    rewrite Forall_forall in Hp.
    destruct (Hp r Hr) as (_ & _ & _ & _ & _ & _ & _ & Hm & _).
    injection Er as _ <-. unfold mem_used_i in Hbig. simpl in Hbig.
    assert (2 ^ 53 <= 2 ^ 1000) by (apply Z.pow_le_mono_r; lia).
    lia.
Qed.

(** X19. What nvidia-smi prints is what the dashboard shows.  From any
    reachable state, a cycle whose check passes and whose query prints a
    non-empty list of readings with distinct numeric indices (columns as
    in X18, white space around the lines allowed) stores exactly these
    readings.  When the detailed run then returns, the cycle raises
    nothing and leaves one card per reading, the cards in ascending
    order of index; the card of a reading is titled with its index and
    shows its temperature with the style of its band, its utilization on
    the label and clamped to 0..100 on the bar, the memory percentage of
    its two memory readings clamped on the bar, and its power on two
    decimals, or [-- W] when [float] rejects the power column.  When the
    detailed run raises, the cycle ends with its exception and the cards
    are those of before: the readings are stored and not shown. *)
Theorem X19_printed_sample_is_shown (st : monitor) (env : cycle)
  (rs : list reading) (before after : string) :
  reachable st ->
  available (version_run env) = true ->
  query_run env
  = Completed 0 (before ++ unlines (map line_of rs) ++ after) ->
  blank before -> blank after ->
  rs <> [] -> Forall printable rs -> NoDup (map r_index rs) ->
  Forall (fun r => numeric (r_index r)) rs ->
  let st' := fst (refresh_gpu_data env st) in
  gpu_data st' = map entry_of rs
  /\ (forall e,
        uncaught (detailed_run env) = Some e ->
        snd (refresh_gpu_data env st) = Some e
        /\ gpu_cards st' = gpu_cards st)
  /\ (uncaught (detailed_run env) = None ->
      snd (refresh_gpu_data env st) = None
      /\ Permutation (map r_index rs) (keys (gpu_cards st'))
      /\ ascending (keys (gpu_cards st'))
      /\ forall r,
          In r rs ->
          exists w pct,
            dict_get (r_index r) (gpu_cards st') = Some w
            /\ frame_id w = r_index r
            /\ temp_text w = (of_int (r_temperature r) ++ deg_C)%string
            /\ temp_style w = get_temp_style (Some (r_temperature r))
            /\ util_bar w = Z.max 0 (Z.min (r_utilization r) 100)
            /\ util_label w = (of_int (r_utilization r) ++ "%")%string
            /\ mem_pct (r_memory_used r)
                 (if 0 <? r_memory_total r then r_memory_total r else 0)
               = Ok pct
            /\ mem_bar w = Z.max 0 (Z.min pct 100)
            /\ power_label w
               = match to_float (r_power r) with
                 | Some watts => (PyFloat.format_2f watts ++ " W")%string
                 | None => "-- W"
                 end).
Proof.
  intros Hr Hav Hq Hbl Hal Hne Hp Hnd Hn st'. subst st'.
  pose proof (printed_lines rs before after Hne Hp Hbl Hal) as Hl.
  rewrite (parse_lines_of rs [] Hp Hnd) in Hl by (intros r _ []).
  simpl app in Hl.
  assert (Hqu : uncaught (query_run env) = None) by now rewrite Hq.
  assert (Hd : sample_in_force env st (map entry_of rs)).
  { unfold sample_in_force. rewrite Hq. simpl.
    destruct (String.eqb_spec
                (before ++ unlines (map line_of rs) ++ after) "") as [E|_];
      [|exact Hl].
    rewrite E in Hl. simpl in Hl. injection Hl as Hl.
    destruct rs; [congruence|discriminate]. }
  pose proof (sample_in_force_NoDup env st _ Hr Hd) as Hnd'.
  pose proof (sample_in_force_named env st _ (reachable_named st Hr) Hd)
    as Hnamed.
  pose proof (reachable_laid_out st Hr) as Hlay.
  destruct (get_gpu_data (detailed_run env)) as [dd|x] eqn:Hdd.
  2:{ apply get_Raise_inv in Hdd.
      rewrite (refresh_detailed_raises env st _ x Hav Hqu Hd Hdd). simpl.
      split; [reflexivity|].
      split; [intros e He; split; congruence|congruence]. }
  pose proof (get_Ok_inv _ _ Hdd) as Hdu.
  pose proof (printed_renders rs (gpu_cards st) Hp Hn) as Hnone.
  destruct (render_clean _ (gpu_cards st) Hnd' Hlay Hnone) as (Hperm & Hcards).
  destruct (build_or_update_layout _ (gpu_cards st) Hnd' Hlay)
    as ((_ & _ & Hasc & Hframe) & _).
  rewrite (refresh_available env st _ dd Hav Hqu Hd Hdd Hnamed).
  destruct (build_or_update_dashboard (map entry_of rs) (gpu_cards st))
    as [cards [e|]]; [discriminate|].
  simpl in *. rewrite keys_entries in Hperm.
  split; [reflexivity|]. split; [intros e He; congruence|]. intros _.
  split; [reflexivity|].
  split; [exact Hperm|]. split; [exact Hasc|].
  intros r Hin.
  assert (Hg : dict_get (r_index r) (map entry_of rs)
               = Some (snd (entry_of r))).
  { apply In_dict_get; [exact Hnd'|].
    change (r_index r, snd (entry_of r)) with (entry_of r).
    now apply in_map. }
  destruct (Hcards _ _ Hg) as (w & Hw & Hfix).
  destruct (update_temp w (snd (entry_of r))) as (T1 & T2).
  destruct (update_util w (snd (entry_of r))) as (U1 & U2).
  rewrite Forall_forall in Hp.
  destruct (Hp r Hin) as (_ & _ & _ & _ & _ & _ & _ & Hm & _).
  assert (Hb : Z.abs (mem_used_i (snd (entry_of r))) < 2 ^ 1000).
  { unfold mem_used_i. simpl.
    assert (2 ^ 53 <= 2 ^ 1000) by (apply Z.pow_le_mono_r; lia). lia. }
  destruct (mem_pct_returns _ (mem_total_i (snd (entry_of r))) Hb)
    as (pct & Hpct).
  destruct (update_completes w _ pct Hpct) as (_ & M1 & _ & P1).
  rewrite Hfix in T1, T2, U1, U2, M1, P1. simpl in T1, T2, U1, U2, M1, P1.
  exists w, pct. split; [exact Hw|].
  split.
  { apply dict_get_In in Hw. apply In_nth_error in Hw as (j & Hj).
    now destruct (Hframe _ _ _ Hj). }
  repeat split; auto.
Qed.

(** The first cycle after start-up prints two GPUs. *)
Lemma X19_witness :
  snd (refresh_gpu_data two_gpus started) = None
  /\ gpu_data (fst (refresh_gpu_data two_gpus started))
     = map entry_of two_readings.
Proof.
  destruct (X19_printed_sample_is_shown started two_gpus two_readings ""
              nl (reach_init (Completed 0 "v") started eq_refl) eq_refl
              eq_refl)
    as (H1 & _ & H2).
  - reflexivity.
  - reflexivity.
  - discriminate.
  - exact two_readings_printable.
  - repeat (constructor; [simpl; intuition discriminate|]). constructor.
  - repeat constructor; eexists; vm_compute; reflexivity.
  - destruct (H2 eq_refl) as (H3 & _). split; assumption.
Defined.

End EndToEndFacts.

(* ------------------------------------------------------------------ *)
(** ** Titles *)

Module TitleFacts.
Import PyStr GPUMonitor Notions.
Import DictFacts CardFacts DashboardFacts CycleFacts LayoutFacts.

(** X20. An update in place keeps every frame.  When the ids of the
    sample are those of the cards, [build_or_update_dashboard] leaves
    the cards under the same keys, in the same order and rows, and with
    the titles they were created with: a GPU whose name has changed
    keeps its old title until the set of ids changes. *)
Theorem X20_update_in_place_keeps_titles (gpu_data : dict info)
  (gpu_cards : dict card) :
  gpu_set_changed gpu_cards gpu_data = false ->
  let cards' := fst (build_or_update_dashboard gpu_data gpu_cards) in
  Forall2 same_frame gpu_cards cards'
  /\ keys cards' = keys gpu_cards
  /\ forall id w,
      dict_get id gpu_cards = Some w ->
      exists w',
        dict_get id cards' = Some w'
        /\ frame_name w' = frame_name w
        /\ frame_row w' = frame_row w.
Proof.
  intros Hsame cards'. subst cards'.
  unfold build_or_update_dashboard. rewrite Hsame.
  pose proof (update_cards_frames gpu_data gpu_cards) as Hf.
  split; [exact Hf|]. split; [apply update_cards_keys|].
  intros id w Hg.
  revert Hf Hg. generalize (fst (update_cards gpu_data gpu_cards)) as c'.
  clear Hsame.
  intros c' Hf. induction Hf as [|[k0 w0] [k1 w1] a b (H1 & _ & H3 & H4) _ IH];
    simpl; [discriminate|].
  simpl in H1, H3, H4. subst k1.
  destruct (String.eqb id k0).
  - intros [= ->]. exists w1. auto.
  - exact IH.
Qed.

(** The first rendering was of A, B, C; the names have changed. *)
Lemma X20_witness :
  Forall2 same_frame
    (fst (build_or_update_dashboard sample_201 []))
    (fst (build_or_update_dashboard renamed_201
            (fst (build_or_update_dashboard sample_201 []))))
  /\ map (fun kv => frame_name (snd kv))
         (fst (build_or_update_dashboard renamed_201
                 (fst (build_or_update_dashboard sample_201 []))))
     = ["A"; "B"; "C"].
Proof.
  split.
  - apply (X20_update_in_place_keeps_titles renamed_201
             (fst (build_or_update_dashboard sample_201 []))).
    vm_compute. reflexivity.
  - vm_compute. reflexivity.
Defined.

End TitleFacts.
